(** * Payroll distribution engine: record pipeline

    A shallow embedding of the services of the payroll distribution
    engine (validator, CSV processor, transformer, default mappings and
    error tracker) together with the properties of its record pipeline.

    Conventions of the embedding.
    - A JavaScript string is a [string] whose characters are code units
      below 256; white space is the part of the ECMAScript [WhiteSpace] and
      [LineTerminator] classes in that range.
    - A JavaScript object used as a record is an insertion-ordered
      association list with unique keys ([Js.obj]); an absent property
      reads as [None] (the source's [undefined]).  Keys are field names:
      names of members of [Object.prototype] and keys that are array
      indices, which JavaScript lists first, are not among them.
    - A JavaScript number is an IEEE 754 binary64 value, [spec_float] at
      precision 53 and maximal exponent 1024, rounded to nearest even.
    - The clock and the random generator are read from an explicit
      [World] that every effectful function threads. *)

From Stdlib Require Import ZArith List String Ascii Bool Lia.
From Stdlib Require Import Floats.SpecFloat.
From Stdlib Require QArith Qround.
Import ListNotations.

#[local] Open Scope string_scope.
#[local] Open Scope Z_scope.

(* ================================================================= *)
(** ** JavaScript primitives used by the services *)

Module Js.

(** *** Characters and strings *)

Definition code (c : ascii) : Z := Z.of_N (N_of_ascii c).

Definition inRange (lo hi : Z) (c : ascii) : bool :=
  (lo <=? code c) && (code c <=? hi).

(** [\d] *)
Definition isDigit (c : ascii) : bool := inRange 48 57 c.

(** [[A-Z]] *)
Definition isUpperAZ (c : ascii) : bool := inRange 65 90 c.

(** [\s], and the characters removed by [String.prototype.trim]. *)
Definition isWhiteSpace (c : ascii) : bool :=
  inRange 9 13 c || (code c =? 32) || (code c =? 160).

Definition digitValue (c : ascii) : Z := code c - 48.

Definition digitChar (d : Z) : ascii := ascii_of_N (Z.to_N (48 + d)).

Definition chr (c : ascii) : string := String c EmptyString.

(** The double quote character, for messages that contain it. *)
Definition dquote : string := chr (ascii_of_N 34).

Fixpoint trimStart (s : string) : string :=
  match s with
  | EmptyString => EmptyString
  | String c r => if isWhiteSpace c then trimStart r else s
  end.

Fixpoint trimEnd (s : string) : string :=
  match s with
  | EmptyString => EmptyString
  | String c r =>
      match trimEnd r with
      | EmptyString => if isWhiteSpace c then EmptyString else chr c
      | r' => String c r'
      end
  end.

Definition trim (s : string) : string := trimEnd (trimStart s).

Fixpoint forallChars (p : ascii -> bool) (s : string) : bool :=
  match s with
  | EmptyString => true
  | String c r => p c && forallChars p r
  end.

(** [s.includes(c)] for a one-character needle. *)
Fixpoint includesChar (c : ascii) (s : string) : bool :=
  match s with
  | EmptyString => false
  | String d r => Ascii.eqb c d || includesChar c r
  end.

(** [s.split(sep)] for a one-character separator: never empty. *)
Fixpoint split (sep : ascii) (s : string) : list string :=
  match s with
  | EmptyString => [EmptyString]
  | String c r =>
      if Ascii.eqb c sep then EmptyString :: split sep r
      else match split sep r with
           | h :: t => String c h :: t
           | [] => [chr c]
           end
  end.

(** [s.split(/\s+/)]: [inGap] tells that the previous character was
    white space, so that a run of white space separates only once. *)
Fixpoint splitWhiteSpace (inGap : bool) (s : string) : list string :=
  match s with
  | EmptyString => [EmptyString]
  | String c r =>
      if isWhiteSpace c then
        if inGap then splitWhiteSpace true r
        else EmptyString :: splitWhiteSpace true r
      else match splitWhiteSpace false r with
           | h :: t => String c h :: t
           | [] => [chr c]
           end
  end.

(** [s.replace(/\s+/g, rep)] *)
Fixpoint replaceWhiteSpaceRuns (rep : string) (inGap : bool) (s : string) : string :=
  match s with
  | EmptyString => EmptyString
  | String c r =>
      if isWhiteSpace c then
        if inGap then replaceWhiteSpaceRuns rep true r
        else rep ++ replaceWhiteSpaceRuns rep true r
      else String c (replaceWhiteSpaceRuns rep false r)
  end.

(** [parts.join(sep)] *)
Definition join (sep : string) (parts : list string) : string :=
  String.concat sep parts.

Definition isPrefixOf (p s : string) : bool := String.prefix p s.

(** [s.lastIndexOf(p)], [-1] when [p] does not occur. *)
Fixpoint lastIndexOf (p s : string) : Z :=
  match s with
  | EmptyString => if isPrefixOf p EmptyString then 0 else -1
  | String _ r =>
      let i := lastIndexOf p r in
      if 0 <=? i then i + 1
      else if isPrefixOf p s then 0 else -1
  end.

(** [s.substring(0, stop)]: a negative [stop] counts as 0. *)
Definition substringTo (stop : Z) (s : string) : string :=
  String.substring 0 (Z.to_nat stop) s.

(** [s.toUpperCase()] on code units below 256.  Sharp s becomes "SS";
    the images of the micro sign and of y-diaeresis lie above 255 and
    are, like these two characters, not ASCII letters: they are kept. *)
Definition upperChar (c : ascii) : string :=
  if inRange 97 122 c then chr (ascii_of_N (Z.to_N (code c - 32)))
  else if code c =? 223 then "SS"
  else if inRange 224 254 c && negb (code c =? 247)
       then chr (ascii_of_N (Z.to_N (code c - 32)))
  else chr c.

Fixpoint toUpperCase (s : string) : string :=
  match s with
  | EmptyString => EmptyString
  | String c r => upperChar c ++ toUpperCase r
  end.

(** [s.toLowerCase()] on code units below 256. *)
Definition lowerChar (c : ascii) : ascii :=
  if inRange 65 90 c || (inRange 192 222 c && negb (code c =? 215))
  then ascii_of_N (Z.to_N (code c + 32))
  else c.

Fixpoint toLowerCase (s : string) : string :=
  match s with
  | EmptyString => EmptyString
  | String c r => String (lowerChar c) (toLowerCase r)
  end.

(** Decimal digits of a non-negative integer, most significant first;
    [fuel] bounds the number of digits. *)
Fixpoint digitsFuel (fuel : nat) (n : Z) : string :=
  match fuel with
  | O => EmptyString
  | S f =>
      if n <? 10 then chr (digitChar n)
      else digitsFuel f (n / 10) ++ chr (digitChar (n mod 10))
  end.

Definition digitsOf (n : Z) : string :=
  digitsFuel (S (Z.to_nat (Z.log2 n))) n.

(** [String(n)] for an integer [n]. *)
Definition intToString (n : Z) : string :=
  if n <? 0 then "-" ++ digitsOf (- n) else digitsOf n.

(** Value of a string of decimal digits. *)
Fixpoint digitsValue (acc : Z) (s : string) : Z :=
  match s with
  | EmptyString => acc
  | String c r => digitsValue (10 * acc + digitValue c) r
  end.

(** Longest prefix of decimal digits, and the rest. *)
Fixpoint spanDigits (s : string) : string * string :=
  match s with
  | EmptyString => (EmptyString, EmptyString)
  | String c r =>
      if isDigit c then let '(d, rest) := spanDigits r in (String c d, rest)
      else (EmptyString, s)
  end.

Fixpoint zeros (n : nat) : string :=
  match n with
  | O => EmptyString
  | S m => String "0" (zeros m)
  end.

(** *** Truthiness of optional string properties *)

(** [!!v]: a property is truthy when present and not the empty string. *)
Definition truthy (v : option string) : bool :=
  match v with
  | Some s => negb (s =? "")%string
  | None => false
  end.

(** [v || d] *)
Definition orElse (v : option string) (d : string) : string :=
  match v with
  | Some s => if (s =? "")%string then d else s
  | None => d
  end.

(** [a || b] where both may be [undefined]. *)
Definition orOpt (a b : option string) : option string :=
  if truthy a then a else b.

(** [`${v}`] and [String(v)]: [undefined] prints as such. *)
Definition show (v : option string) : string :=
  match v with
  | Some s => s
  | None => "undefined"
  end.

(** [v === lit] for a string literal. *)
Definition strictEq (v : option string) (lit : string) : bool :=
  match v with
  | Some s => (s =? lit)%string
  | None => false
  end.

(** [list.includes(s)] *)
Definition includes (l : list string) (s : string) : bool :=
  existsb (fun x => (x =? s)%string) l.

(** *** Regular expressions

    The fragment used by the services: character classes, sequence,
    alternative, and repetition of a class.  [matchesK r s k] holds when
    a prefix of [s] matches [r] and the continuation [k] accepts what
    follows. *)

Inductive regex : Type :=
| Eps : regex
| Cls : (ascii -> bool) -> regex
| Cat : regex -> regex -> regex
| Alt : regex -> regex -> regex
| StarCls : (ascii -> bool) -> regex.

Fixpoint starK (p : ascii -> bool) (s : string) (k : string -> bool) : bool :=
  k s ||
  match s with
  | EmptyString => false
  | String c r => p c && starK p r k
  end.

Fixpoint matchesK (r : regex) (s : string) (k : string -> bool) : bool :=
  match r with
  | Eps => k s
  | Cls p => match s with
             | EmptyString => false
             | String c s' => p c && k s'
             end
  | Cat a b => matchesK a s (fun s' => matchesK b s' k)
  | Alt a b => matchesK a s k || matchesK b s k
  | StarCls p => starK p s k
  end.

Definition atEnd (s : string) : bool :=
  match s with EmptyString => true | _ => false end.

(** [/^r$/.test(s)] *)
Definition fullMatch (r : regex) (s : string) : bool := matchesK r s atEnd.

Definition Lit (c : ascii) : regex := Cls (Ascii.eqb c).
Definition Opt (r : regex) : regex := Alt r Eps.
Definition PlusCls (p : ascii -> bool) : regex := Cat (Cls p) (StarCls p).

Fixpoint Rep (n : nat) (r : regex) : regex :=
  match n with
  | O => Eps
  | S m => Cat r (Rep m r)
  end.

Fixpoint Seq (rs : list regex) : regex :=
  match rs with
  | [] => Eps
  | r :: rest => Cat r (Seq rest)
  end.

(** Leftmost position at which [/r$/] matches in [s], with the suffix
    that starts there. *)
Fixpoint searchToEnd (r : regex) (s : string) : option string :=
  if fullMatch r s then Some s
  else match s with
       | EmptyString => None
       | String _ rest => searchToEnd r rest
       end.

(** *** Objects *)

Definition obj (V : Type) : Type := list (string * V).

Section Objects.
Context {V : Type}.

(** [o[k]] *)
Fixpoint get (o : obj V) (k : string) : option V :=
  match o with
  | [] => None
  | (k', v) :: rest => if (k' =? k)%string then Some v else get rest k
  end.

(** [o[k] = v]: an existing property keeps its position. *)
Fixpoint set (o : obj V) (k : string) (v : V) : obj V :=
  match o with
  | [] => [(k, v)]
  | (k', v') :: rest =>
      if (k' =? k)%string then (k, v) :: rest else (k', v') :: set rest k v
  end.

(** [delete o[k]] *)
Fixpoint del (o : obj V) (k : string) : obj V :=
  match o with
  | [] => []
  | (k', v') :: rest =>
      if (k' =? k)%string then del rest k else (k', v') :: del rest k
  end.

(** [Object.keys(o)] *)
Definition keys (o : obj V) : list string := map fst o.

(** [k in o] *)
Definition has (o : obj V) (k : string) : bool :=
  match get o k with Some _ => true | None => false end.
End Objects.


(** *** Numbers *)

Definition number : Type := spec_float.

Definition prec : Z := 53.
Definition emax : Z := 1024.

Definition NaN : number := S754_nan.

Definition isNaN (x : number) : bool :=
  match x with S754_nan => true | _ => false end.

Definition isFinite (x : number) : bool :=
  match x with
  | S754_nan | S754_infinity _ => false
  | _ => true
  end.

Definition add : number -> number -> number := SFadd prec emax.
Definition sub : number -> number -> number := SFsub prec emax.
Definition mul : number -> number -> number := SFmul prec emax.
Definition div : number -> number -> number := SFdiv prec emax.
Definition abs : number -> number := SFabs.

(** [x < y] and [x > y]; both are false when an operand is [NaN]. *)
Definition lt (x y : number) : bool := SFltb x y.
Definition gt (x y : number) : bool := SFltb y x.

(** The number nearest to the ratio [n / d]. *)
Definition ofRatio (neg : bool) (n d : positive) : number :=
  SFdiv prec emax (S754_finite neg n 0) (S754_finite false d 0).

(** The number nearest to [m * 10 ^ e10], for [0 <= m]: the value of a
    decimal literal. *)
Definition ofDecimal (neg : bool) (m e10 : Z) : number :=
  match m with
  | Z0 => S754_zero neg
  | Zpos p =>
      if 0 <=? e10 then ofRatio neg (p * Z.to_pos (10 ^ e10)) 1
      else ofRatio neg p (Z.to_pos (10 ^ (- e10)))
  | Zneg _ => NaN
  end.

(** An integer literal such as [100] or [26]. *)
Definition ofInt (z : Z) : number := ofDecimal (z <? 0) (Z.abs z) 0.

(** An optional sign. *)
Definition spanSign (s : string) : bool * string :=
  match s with
  | String "-" r => (true, r)
  | String "+" r => (false, r)
  | _ => (false, s)
  end.

(** [ExponentPart]: [e] or [E], an optional sign and at least one digit;
    anything else is not part of the literal and counts as exponent 0. *)
Definition parseExponent (s : string) : Z :=
  match s with
  | String c r =>
      if Ascii.eqb c "e" || Ascii.eqb c "E" then
        let '(neg, r1) := spanSign r in
        let '(ds, _) := spanDigits r1 in
        if (ds =? "")%string then 0
        else if neg then - digitsValue 0 ds else digitsValue 0 ds
      else 0
  | EmptyString => 0
  end.

(** [parseFloat(s)]: the value of the longest prefix of the string,
    leading white space removed, that is a [StrDecimalLiteral]; [NaN]
    when there is none. *)
Definition parseFloat (s : string) : number :=
  let '(neg, u) := spanSign (trimStart s) in
  if isPrefixOf "Infinity" u then S754_infinity neg
  else
    let '(ip, r1) := spanDigits u in
    let '(fp, r2) :=
      match r1 with
      | String "." r => spanDigits r
      | _ => (EmptyString, r1)
      end in
    if ((ip =? "") && (fp =? ""))%string then NaN
    else ofDecimal neg (digitsValue 0 (ip ++ fp))
                   (parseExponent r2 - Z.of_nat (String.length fp)).

(** The exact value [n / d] of a positive finite number [m * 2 ^ e]. *)
Definition exactRatio (m : positive) (e : Z) : Z * Z :=
  if 0 <=? e then (Zpos m * 2 ^ e, 1) else (Zpos m, 2 ^ (- e)).

(** [n / d] divided by [10 ^ sh], again as a ratio. *)
Definition scaled (n d sh : Z) : Z * Z :=
  if 0 <=? sh then (n, d * 10 ^ sh) else (n * 10 ^ (- sh), d).

Definition decLen (z : Z) : Z := Z.of_nat (String.length (digitsOf z)).

(** The integer [n] with [10 ^ (n - 1) <= num / den < 10 ^ n]. *)
Definition decimalExponent (num den : Z) : Z :=
  let c := decLen num - decLen den in
  let '(a, b) := scaled num den c in
  if b <=? a then c + 1 else c.

(** [Number::toString], the choice of digits: for a given number of
    digits [k], the integer [s] with [10 ^ (k - 1) <= s < 10 ^ k] such
    that [s * 10 ^ (n - k)] reads back as [x], the closest to [x] when
    there are two (the even one on a tie). *)
Definition digitsAt (x : number) (num den n k : Z) : option (Z * Z) :=
  let '(a, b) := scaled num den (n - k) in
  let lo := a / b in
  let hi := lo + 1 in
  let okLo := SFeqb (ofDecimal false lo (n - k)) x in
  let okHi := SFeqb (ofDecimal false hi (n - k)) x in
  let norm s := if s =? 10 ^ k then (10 ^ (k - 1), n + 1) else (s, n) in
  match okLo, okHi with
  | true, false => Some (norm lo)
  | false, true => Some (norm hi)
  | true, true =>
      match 2 * (a mod b) ?= b with
      | Lt => Some (norm lo)
      | Gt => Some (norm hi)
      | Eq => if Z.even lo then Some (norm lo) else Some (norm hi)
      end
  | false, false => None
  end.

(** The least [k] that has such digits; 17 digits always do. *)
Fixpoint shortestDigits (fuel : nat) (x : number) (num den n k : Z) : Z * Z * Z :=
  match fuel with
  | O => (fst (scaled num den (n - k)) / snd (scaled num den (n - k)), n, k)
  | S f =>
      match digitsAt x num den n k with
      | Some (s, n') => (s, n', k)
      | None => shortestDigits f x num den n (k + 1)
      end
  end.

(** [Number::toString], the layout of the digits [s] (there are [k])
    with decimal exponent [n]. *)
Definition layoutDigits (s n k : Z) : string :=
  let ds := digitsOf s in
  if (k <=? n) && (n <=? 21) then ds ++ zeros (Z.to_nat (n - k))
  else if (0 <? n) && (n <=? 21) then
    String.substring 0 (Z.to_nat n) ds ++ "." ++
    String.substring (Z.to_nat n) (Z.to_nat (k - n)) ds
  else if (-6 <? n) && (n <=? 0) then "0." ++ zeros (Z.to_nat (- n)) ++ ds
  else
    let e := n - 1 in
    let es := (if e <? 0 then "-" else "+") ++ digitsOf (Z.abs e) in
    if k =? 1 then ds ++ "e" ++ es
    else String.substring 0 1 ds ++ "." ++
         String.substring 1 (Z.to_nat (k - 1)) ds ++ "e" ++ es.

(** [String(x)] and [`${x}`] for a number. *)
Definition numberToString (x : number) : string :=
  match x with
  | S754_nan => "NaN"
  | S754_zero _ => "0"
  | S754_infinity s => (if s then "-" else "") ++ "Infinity"
  | S754_finite s m e =>
      let '(num, den) := exactRatio m e in
      let n := decimalExponent num den in
      let '(d, n', k) :=
        shortestDigits 17 (S754_finite false m e) num den n 1 in
      (if s then "-" else "") ++ layoutDigits d n' k
  end.

(** [Number.prototype.toFixed], the digits: the integer [n] printed
    with [f] digits after the point. *)
Definition fixedDigits (n : Z) (f : nat) : string :=
  let m := digitsOf n in
  match f with
  | O => m
  | S _ =>
      let m' := zeros (S f - String.length m) ++ m in
      let k := String.length m' in
      String.substring 0 (k - f) m' ++ "." ++ String.substring (k - f) f m'
  end.

(** [x.toFixed(f)]: the integer closest to [x * 10 ^ f], the larger one
    on a tie, printed with [f] digits after the point; numbers that are
    not finite or not below [10 ^ 21] print as [String(x)]. *)
Definition toFixed (x : number) (f : nat) : string :=
  match x with
  | S754_nan => "NaN"
  | S754_infinity _ => numberToString x
  | S754_zero _ => fixedDigits 0 f
  | S754_finite s m e =>
      let '(num, den) := exactRatio m e in
      if 10 ^ 21 * den <=? num then numberToString x
      else
        let n := (2 * num * 10 ^ Z.of_nat f + den) / (2 * den) in
        (if s then "-" else "") ++ fixedDigits n f
  end.

End Js.


Import Js.

(* ================================================================= *)
(** ** The environment *)

(** What the program reads from outside: the clock ([Date.now()] and
    [new Date().toISOString()]) and the random generator
    ([Math.random().toString(36).substr(2, 9)]).  [tick] counts the
    readings taken so far. *)
Record World : Type := mkWorld {
  tick : nat;
  dateNow : nat -> string;
  isoNow : nat -> string;
  randomSuffix : nat -> string
}.

Definition advance (w : World) : World :=
  mkWorld (S (tick w)) (dateNow w) (isoNow w) (randomSuffix w).

(** Computations that read the environment. *)
Definition M (A : Type) : Type := World -> A * World.

Definition ret {A : Type} (a : A) : M A := fun w => (a, w).

Definition bind {A B : Type} (m : M A) (f : A -> M B) : M B :=
  fun w => let '(a, w') := m w in f a w'.

Notation "x <- m ;; k" := (bind m (fun x => k))
  (at level 61, m at next level, right associativity).

(** [new Date().toISOString()] *)
Definition isoTimestamp : M string :=
  fun w => (isoNow w (tick w), advance w).

(* ================================================================= *)
(** ** types/index.ts *)

Inductive ErrorType : Type :=
| PARSE_ERROR
| VALIDATION_ERROR
| REQUIRED_FIELD_MISSING
| INVALID_FORMAT
| BUSINESS_LOGIC_ERROR
| COMPLIANCE_GATE_FAILED.

Definition ErrorType_eqb (a b : ErrorType) : bool :=
  match a, b with
  | PARSE_ERROR, PARSE_ERROR
  | VALIDATION_ERROR, VALIDATION_ERROR
  | REQUIRED_FIELD_MISSING, REQUIRED_FIELD_MISSING
  | INVALID_FORMAT, INVALID_FORMAT
  | BUSINESS_LOGIC_ERROR, BUSINESS_LOGIC_ERROR
  | COMPLIANCE_GATE_FAILED, COMPLIANCE_GATE_FAILED => true
  | _, _ => false
  end.

Definition ErrorType_name (t : ErrorType) : string :=
  match t with
  | PARSE_ERROR => "PARSE_ERROR"
  | VALIDATION_ERROR => "VALIDATION_ERROR"
  | REQUIRED_FIELD_MISSING => "REQUIRED_FIELD_MISSING"
  | INVALID_FORMAT => "INVALID_FORMAT"
  | BUSINESS_LOGIC_ERROR => "BUSINESS_LOGIC_ERROR"
  | COMPLIANCE_GATE_FAILED => "COMPLIANCE_GATE_FAILED"
  end.

(** [EmployeeRecord], [DETRecord] and a parsed CSV row: string-valued
    records. *)
Definition Record_ : Type := obj string.

Record ProcessingError : Type := mkProcessingError {
  err_id : string;
  err_rowId : string;
  err_row : Z;
  err_field : string;
  err_columnIndex : option Z;
  err_value : string;
  err_errorType : ErrorType;
  err_message : string;
  err_suggestedFix : option string;
  err_timestamp : string
}.

Record ProcessingWarning : Type := mkProcessingWarning {
  warn_id : string;
  warn_rowId : string;
  warn_row : Z;
  warn_field : string;
  warn_originalValue : string;
  warn_message : string;
  warn_timestamp : string
}.

Record ErrorCorrection : Type := mkErrorCorrection {
  errorId : string;
  originalValue : string;
  correctedValue : string;
  correctedBy : option string;
  correctedAt : string;
  notes : option string
}.

Record FieldMapping : Type := mkFieldMapping {
  sourceField : string;
  targetField : string
}.

Inductive Provider : Type := ADP | QuickBooks.

Record ProviderMapping : Type := mkProviderMapping {
  provider : Provider;
  fieldMappings : list FieldMapping;
  transformations : obj (string -> Record_ -> string)
}.

Record ParsedAddress : Type := mkParsedAddress {
  street : string;
  city : string;
  state : string;
  zip : string
}.

(* ================================================================= *)
(** ** services/errorTracker.ts *)

Module ErrorTracker.

(** [generateErrorId] *)
Definition generateErrorId : M string :=
  fun w =>
    ("error_" ++ dateNow w (tick w) ++ "_" ++ randomSuffix w (tick w),
     advance w).

(** The two keys of [localStorage] that the tracker owns, read through
    [JSON.parse]; [writable] is false when [setItem] throws. *)
Record Storage : Type := mkStorage {
  payroll_errors : option (list ProcessingError);
  payroll_corrections : option (list ErrorCorrection);
  writable : bool
}.

Definition getStoredErrors (st : Storage) : list ProcessingError :=
  match payroll_errors st with Some l => l | None => [] end.

Definition storeErrors (errors : list ProcessingError) (st : Storage) : Storage :=
  if writable st
  then mkStorage (Some (getStoredErrors st ++ errors)%list)
                 (payroll_corrections st) (writable st)
  else st.

Definition getStoredCorrections (st : Storage) : list ErrorCorrection :=
  match payroll_corrections st with Some l => l | None => [] end.

(** [recordCorrection]: the argument has no [correctedAt] yet. *)
Definition recordCorrection
    (errId orig corrected : string) (by_ note : option string)
    (st : Storage) : M (ErrorCorrection * Storage) :=
  now <- isoTimestamp ;;
  let fullCorrection :=
    mkErrorCorrection errId orig corrected by_ now note in
  let st' :=
    if writable st
    then mkStorage (payroll_errors st)
                   (Some (getStoredCorrections st ++ [fullCorrection])%list)
                   (writable st)
    else st in
  ret (fullCorrection, st').

Definition getCorrectionsForError (st : Storage) (errId : string)
  : list ErrorCorrection :=
  filter (fun c => (errorId c =? errId)%string) (getStoredCorrections st).

(** The [latestCorrection] of the report, for one error. *)
Definition latestCorrection (corrections : list ErrorCorrection)
    (error : ProcessingError) : option ErrorCorrection :=
  let errorCorrections :=
    filter (fun c => (errorId c =? err_id error)%string) corrections in
  if (0 <? Z.of_nat (List.length errorCorrections))
  then nth_error errorCorrections (List.length errorCorrections - 1)
  else None.

(** One entry of [report]: the cells in the order of their keys. *)
Definition reportRow (corrections : list ErrorCorrection)
    (error : ProcessingError) : obj string :=
  let latest := latestCorrection corrections error in
  [ ("Error ID", err_id error);
    ("Row", intToString (err_row error));
    ("Field", err_field error);
    ("Original Value", err_value error);
    ("Error Type", ErrorType_name (err_errorType error));
    ("Error Message", err_message error);
    ("Suggested Fix", orElse (err_suggestedFix error) "");
    ("Corrected Value", orElse (option_map correctedValue latest) "");
    ("Corrected At", orElse (option_map correctedAt latest) "");
    ("Timestamp", err_timestamp error) ].



End ErrorTracker.

(* ================================================================= *)
(** ** services/validator.ts *)

Module Validator.

Definition REQUIRED_DET_FIELDS : list string :=
  ["record_type"; "record_sequence"; "company_id"].

Definition REQUIRED_EMPLOYEE_FIELDS : list string :=
  ["employee_id"; "first_name"; "last_name"; "dob"; "ssn";
   "home_street"; "home_city"; "home_state"; "home_zip";
   "hire_date"; "job_title"; "flsa_status"; "annual_salary";
   "pay_frequency"; "fed_status"; "fed_allowances";
   "fed_extra_wh_per_paycheck"; "state_code";
   "state_extra_wh_per_paycheck"; "i9_status"; "e_verify_status";
   "dd1_routing_number"; "dd1_account_number"; "dd1_account_type";
   "dd1_split_type"; "dd1_split_value"].

Definition digit : regex := Cls isDigit.

(** [/^\d{4}-\d{2}-\d{2}$/] *)
Definition dateRegex : regex :=
  Seq [Rep 4 digit; Lit "-"; Rep 2 digit; Lit "-"; Rep 2 digit].

(** Day number of the first day of a month (0 is January) counted from
    1970-01-01, the [MakeDay] of the Date objects. *)
Definition dayFromYearMonth (year month0 : Z) : Z :=
  let m := month0 + 1 in
  let y := if m <=? 2 then year - 1 else year in
  let era := y / 400 in
  let yoe := y - era * 400 in
  let doy := (153 * (if 2 <? m then m - 3 else m + 9) + 2) / 5 in
  let doe := yoe * 365 + yoe / 4 - yoe / 100 + doy in
  era * 146097 + doe - 719468.

(** The date that a Date object holds: the year, the month from 0 and
    the day of the month that [MakeDay] is given, read in UTC or in the
    local time zone. *)
Record DateFields : Type := mkDateFields {
  inUTC : bool;
  fullYear : Z;
  monthIndex : Z;
  dayOfMonth : Z
}.

(** A month from 1 to 12, a day from 1 to 31. *)
Definition isMonthNumber (n : Z) : bool := (1 <=? n) && (n <=? 12).
Definition isDayNumber (n : Z) : bool := (1 <=? n) && (n <=? 31).

(** Years of two digits in the legacy form: 0 to 49 are in the 2000s,
    50 to 99 in the 1900s. *)
Definition legacyYear (n : Z) : Z :=
  if n <=? 49 then n + 2000 else if n <=? 99 then n + 1900 else n.

(** [new Date(s)] as V8 reads a string [s] of four digits, a dash, two
    digits, a dash and two digits; [None] is an invalid Date, whose time
    value is [NaN].  The string is first read as the date-only form of
    the Date Time String Format, in UTC: this needs a month from 01 to
    12 and a day from 01 to 31.  When the month or the day is outside
    its range, V8 goes on with its legacy parser, which has by then
    taken the numbers before the offending one and takes the others as
    they come: three numbers of which the first is a day number are
    read as month, day and year in local time, and otherwise as year,
    month and day, each within its range.  So "0001-13-01" is the 13th
    of January 2001. *)
Definition parseDate (s : string) : option DateFields :=
  let year := digitsValue 0 (String.substring 0 4 s) in
  let month := digitsValue 0 (String.substring 5 2 s) in
  let day := digitsValue 0 (String.substring 8 2 s) in
  if isMonthNumber month && isDayNumber day
  then Some (mkDateFields true year (month - 1) day)
  else if isDayNumber year then
    if isMonthNumber year && isDayNumber month
    then Some (mkDateFields false (legacyYear day) (year - 1) month)
    else None
  else
    if isMonthNumber month && isDayNumber day
    then Some (mkDateFields false (legacyYear year) (month - 1) day)
    else None.

(** The day number of a date, counted from 1970-01-01: [MakeDay], in
    which a day past the end of its month counts into the next
    month. *)
Definition makeDay (date : DateFields) : Z :=
  dayFromYearMonth (fullYear date) (monthIndex date) + dayOfMonth date - 1.

(** [isValidDate]: the time value of a Date is a number when the Date is
    valid. *)
Definition isValidDate (dateString : string) : bool :=
  if negb (fullMatch dateRegex dateString) then false
  else match parseDate dateString with
       | Some _ => true
       | None => false
       end.

(** [isValidSSN] *)
Definition isValidSSN (ssn : string) : bool :=
  fullMatch (Seq [Rep 3 digit; Lit "-"; Rep 2 digit; Lit "-"; Rep 4 digit]) ssn
  || fullMatch (Seq [Lit "X"; Lit "X"; Lit "X"; Lit "-"; Lit "X"; Lit "X";
                     Lit "-"; Rep 4 digit]) ssn.

(** [[^\s@]] *)
Definition notSpaceNorAt (c : ascii) : bool :=
  negb (isWhiteSpace c || Ascii.eqb c "@").

(** [isValidEmail] *)
Definition isValidEmail (email : string) : bool :=
  fullMatch (Seq [PlusCls notSpaceNorAt; Lit "@"; PlusCls notSpaceNorAt;
                  Lit "."; PlusCls notSpaceNorAt]) email.

(** [isNumeric] *)
Definition isNumeric (value : string) : bool :=
  negb (isNaN (parseFloat value)) && isFinite (parseFloat value).

(** [isValidRoutingNumber] *)
Definition isValidRoutingNumber (routing : string) : bool :=
  fullMatch (Rep 9 digit) routing.

(** [isValidZip] *)
Definition isValidZip (zipCode : string) : bool :=
  fullMatch (Seq [Rep 5 digit; Opt (Seq [Lit "-"; Rep 4 digit])]) zipCode.

(** [isValidStateCode] *)
Definition isValidStateCode (stateCode : string) : bool :=
  fullMatch (Rep 2 (Cls isUpperAZ)) (toUpperCase stateCode).

(** What a rule decides about an error; the identifier, the row and
    the time stamp are added when the error is created. *)
Record ErrorBody : Type := mkErrorBody {
  body_field : string;
  body_value : string;
  body_errorType : ErrorType;
  body_message : string;
  body_suggestedFix : string
}.

(** [!value || String(value).trim() === ''] *)
Definition isMissing (value : option string) : bool :=
  negb (truthy value) || (trim (show value) =? "")%string.

(** The loops over the required fields; [kind] is "DET" or "employee". *)
Definition requiredRule (kind : string) (record : Record_) (field : string)
  : list ErrorBody :=
  if isMissing (get record field) then
    [mkErrorBody field "" REQUIRED_FIELD_MISSING
       ("Required " ++ kind ++ " field '" ++ field ++ "' is missing or empty")
       ("Please provide a value for " ++ field)]
  else [].

(** [if (record.f && !valid(record.f)) errors.push(...)] *)
Definition formatRule (record : Record_) (field : string)
    (valid : string -> bool) (message : string -> string) (fix_ : string)
  : list ErrorBody :=
  if truthy (get record field) && negb (valid (show (get record field))) then
    [mkErrorBody field (show (get record field)) INVALID_FORMAT
       (message (show (get record field))) fix_]
  else [].

Definition validPayFrequencies : list string :=
  ["Weekly"; "Bi-weekly"; "Semi-monthly"; "Monthly"].

(** The rule on the direct deposit split percentages. *)
Definition splitRule (record : Record_) : list ErrorBody :=
  if strictEq (get record "dd1_split_type") "Percent"
     && truthy (get record "dd1_split_value") then
    let v1 := show (get record "dd1_split_value") in
    let percent := parseFloat v1 in
    List.app
      (if isNaN percent || lt percent (ofInt 0) || gt percent (ofInt 100) then
         [mkErrorBody "dd1_split_value" v1 BUSINESS_LOGIC_ERROR
            ("Split percentage must be between 0 and 100, got: " ++ v1)
            "Provide a percentage between 0 and 100"]
       else [])
      (if strictEq (get record "dd2_split_type") "Percent"
          && truthy (get record "dd2_split_value") then
         let v2 := show (get record "dd2_split_value") in
         let dd2Percent := parseFloat v2 in
         if negb (isNaN dd2Percent) && negb (isNaN percent) then
           let total := add percent dd2Percent in
           if gt (abs (sub total (ofInt 100))) (ofDecimal false 1 (-2)) then
             [mkErrorBody "dd1_split_value" (v1 ++ " + " ++ v2)
                BUSINESS_LOGIC_ERROR
                ("Direct deposit split percentages must sum to 100%, got: "
                   ++ numberToString total ++ "%")
                "Adjust split values so they sum to 100%"]
           else []
         else []
       else [])
  else [].

(** The format and business rules, from the date formats to the split
    percentages; the two validators state them in the same words. *)
Definition formatRules (record : Record_) : list ErrorBody :=
  List.concat
    [ formatRule record "dob" isValidDate
        (fun v => "Date of birth must be in YYYY-MM-DD format, got: " ++ v)
        "Format as YYYY-MM-DD (e.g., 1990-05-15)";
      formatRule record "hire_date" isValidDate
        (fun v => "Hire date must be in YYYY-MM-DD format, got: " ++ v)
        "Format as YYYY-MM-DD (e.g., 2025-11-01)";
      formatRule record "ssn" isValidSSN
        (fun v => "SSN must be in XXX-XX-XXXX format, got: " ++ v)
        "Format as XXX-XX-XXXX";
      formatRule record "manager_email" isValidEmail
        (fun v => "Invalid email format: " ++ v)
        "Please provide a valid email address";
      formatRule record "home_state" isValidStateCode
        (fun v => "State code must be 2 letters, got: " ++ v)
        "Use 2-letter state code (e.g., SC, GA, NC)";
      formatRule record "work_state" isValidStateCode
        (fun v => "State code must be 2 letters, got: " ++ v)
        "Use 2-letter state code (e.g., SC, GA, NC)";
      formatRule record "home_zip" isValidZip
        (fun v => "ZIP code must be 5 or 9 digits, got: " ++ v)
        "Format as 12345 or 12345-6789";
      formatRule record "work_zip" isValidZip
        (fun v => "ZIP code must be 5 or 9 digits, got: " ++ v)
        "Format as 12345 or 12345-6789";
      formatRule record "dd1_routing_number" isValidRoutingNumber
        (fun v => "Routing number must be 9 digits, got: " ++ v)
        "Provide a 9-digit routing number";
      formatRule record "dd2_routing_number"
        (fun v => (trim v =? "")%string || isValidRoutingNumber v)
        (fun v => "Routing number must be 9 digits, got: " ++ v)
        "Provide a 9-digit routing number or leave empty";
      formatRule record "annual_salary" isNumeric
        (fun v => "Annual salary must be numeric, got: " ++ v)
        "Provide a numeric value (e.g., 120000)";
      formatRule record "flsa_status" (includes ["Exempt"; "Non-Exempt"])
        (fun v => "FLSA status must be 'Exempt' or 'Non-Exempt', got: " ++ v)
        ("Use " ++ dquote ++ "Exempt" ++ dquote ++ " or "
           ++ dquote ++ "Non-Exempt" ++ dquote);
      formatRule record "pay_frequency" (includes validPayFrequencies)
        (fun v => "Pay frequency must be one of: "
                    ++ join ", " validPayFrequencies ++ ", got: " ++ v)
        ("Use one of: " ++ join ", " validPayFrequencies);
      splitRule record ].

(** The rules of [validateEmployeeRecord], in the order of the source. *)
Definition employeeRules (record : Record_) : list ErrorBody :=
  List.concat
    [ flat_map (requiredRule "employee" record) REQUIRED_EMPLOYEE_FIELDS;
      formatRules record ].

(** The check of the record type. *)
Definition recordTypeRule (record : Record_) : list ErrorBody :=
  if negb (strictEq (get record "record_type") "DET") then
    [mkErrorBody "record_type" (orElse (get record "record_type") "")
       INVALID_FORMAT
       ("Expected record_type 'DET', got '"
          ++ show (get record "record_type") ++ "'")
       "Set record_type to 'DET' for detail records"]
  else [].

(** The rules of [validateDETRecord], in the order of the source. *)
Definition detRules (record : Record_) : list ErrorBody :=
  List.concat
    [ recordTypeRule record;
      flat_map (requiredRule "DET" record) REQUIRED_DET_FIELDS;
      formatRule record "record_sequence" isNumeric
        (fun v => "Record sequence must be numeric, got: " ++ v)
        "Provide a numeric sequence number";
      flat_map (requiredRule "employee" record) REQUIRED_EMPLOYEE_FIELDS;
      formatRules record ].

(** [headerFields.indexOf(fieldName)] *)
Fixpoint indexOf (fields : list string) (fieldName : string) : Z :=
  match fields with
  | [] => -1
  | f :: rest =>
      if (f =? fieldName)%string then 0
      else let i := indexOf rest fieldName in
           if 0 <=? i then i + 1 else -1
  end.

(** [getColumnIndex] *)
Definition getColumnIndex (headerFields : option (list string))
    (fieldName : string) : option Z :=
  match headerFields with
  | None | Some [] => None
  | Some fields =>
      let index := indexOf fields fieldName in
      if 0 <=? index then Some index else None
  end.

(** Creation of one error: the identifier is generated first, the time
    stamp last. *)
Definition createError (rowId : string) (rowIndex : Z)
    (columnIndex : string -> option Z) (b : ErrorBody) : M ProcessingError :=
  id <- ErrorTracker.generateErrorId ;;
  timestamp <- isoTimestamp ;;
  ret (mkProcessingError id rowId (rowIndex + 1) (body_field b)
         (columnIndex (body_field b)) (body_value b) (body_errorType b)
         (body_message b) (Some (body_suggestedFix b)) timestamp).

Fixpoint createErrors (rowId : string) (rowIndex : Z)
    (columnIndex : string -> option Z) (bodies : list ErrorBody)
  : M (list ProcessingError) :=
  match bodies with
  | [] => ret []
  | b :: rest =>
      e <- createError rowId rowIndex columnIndex b ;;
      es <- createErrors rowId rowIndex columnIndex rest ;;
      ret (e :: es)
  end.

(** [validateDETRecord] *)
Definition validateDETRecord (record : Record_) (rowIndex : Z)
  : M (list ProcessingError) :=
  let rowId :=
    orElse (orOpt (get record "employee_id") (get record "record_sequence"))
           ("row_" ++ intToString rowIndex) in
  createErrors rowId rowIndex (fun _ => None) (detRules record).

(** [validateEmployeeRecord] *)
Definition validateEmployeeRecord (record : Record_) (rowIndex : Z)
    (headerFields : option (list string)) : M (list ProcessingError) :=
  let rowId :=
    orElse (get record "employee_id") ("row_" ++ intToString rowIndex) in
  createErrors rowId rowIndex (getColumnIndex headerFields)
               (employeeRules record).

(** [isPayrollReady] *)
Definition isPayrollReady (record : Record_) : bool :=
  strictEq (get record "i9_status") "Completed"
  && strictEq (get record "e_verify_status") "Authorized".

End Validator.

(* ================================================================= *)
(** ** services/csvProcessor.ts *)

Module CsvProcessor.

(** [/(\d{5}(?:-\d{4})?)\s*$/] with the optional part taken, and the
    whole expression. *)
Definition zipPlus4Regex : regex :=
  Seq [Rep 5 (Cls isDigit); Lit "-"; Rep 4 (Cls isDigit); StarCls isWhiteSpace].

Definition zipRegex : regex :=
  Seq [Rep 5 (Cls isDigit); Opt (Seq [Lit "-"; Rep 4 (Cls isDigit)]);
       StarCls isWhiteSpace].

(** [s.match(/(\d{5}(?:-\d{4})?)\s*$/)], the first group: the match
    starts at the leftmost position from which the expression reaches
    the end of the string, and the optional part is taken when the
    match succeeds with it. *)
Definition zipMatch (s : string) : option string :=
  match searchToEnd zipRegex s with
  | Some m =>
      if fullMatch zipPlus4Regex m then Some (String.substring 0 10 m)
      else Some (String.substring 0 5 m)
  | None => None
  end.

(** [parts.slice(0, -2)] *)
Definition dropLastTwo (parts : list string) : list string :=
  firstn (List.length parts - 2) parts.

(** [parts[parts.length - i]] for a position inside the list. *)
Definition fromEnd (parts : list string) (i : nat) : string :=
  nth (List.length parts - i) parts "".

(** [parseAddress] *)
Definition parseAddress (addressString : string) : option ParsedAddress :=
  if (addressString =? "")%string || (trim addressString =? "")%string
  then None
  else
    let trimmed := trim addressString in
    match zipMatch trimmed with
    | None => None
    | Some zipCode =>
        let beforeZip :=
          trim (substringTo (lastIndexOf zipCode trimmed) trimmed) in
        let parts := map trim (split "," beforeZip) in
        if (List.length parts <? 2)%nat then None
        else
          Some (mkParsedAddress (join ", " (dropLastTwo parts))
                                (fromEnd parts 2) (fromEnd parts 1) zipCode)
    end.

(** Creation of one warning. *)
Definition createWarning (rowId : string) (rowIndex : Z)
    (field original message : string) : M ProcessingWarning :=
  id <- ErrorTracker.generateErrorId ;;
  timestamp <- isoTimestamp ;;
  ret (mkProcessingWarning id rowId rowIndex field original message timestamp).

(** The rule of [processMessyData] for one combined address field
    ([prefix] is "home" or "work"): the row and the caller's list of
    warnings, both as left by the rule. *)
Definition splitAddress (prefix rowId : string) (rowIndex : Z)
    (st : Record_ * list ProcessingWarning)
  : M (Record_ * list ProcessingWarning) :=
  let '(processedRow, warnings) := st in
  let combined := get processedRow (prefix ++ "_address") in
  if negb (truthy (get processedRow (prefix ++ "_street"))) && truthy combined
  then
    match parseAddress (show combined) with
    | Some parsed =>
        let row1 := set processedRow (prefix ++ "_street") (street parsed) in
        let row2 := set row1 (prefix ++ "_city") (city parsed) in
        let row3 := set row2 (prefix ++ "_state") (state parsed) in
        let row4 := set row3 (prefix ++ "_zip") (zip parsed) in
        w <- createWarning rowId rowIndex (prefix ++ "_address")
               (show (get row4 (prefix ++ "_address")))
               ("Combined address field split into " ++ prefix ++ "_street, "
                  ++ prefix ++ "_city, " ++ prefix ++ "_state, "
                  ++ prefix ++ "_zip") ;;
        ret (del row4 (prefix ++ "_address"), List.app warnings [w])
    | None => ret (del processedRow (prefix ++ "_address"), warnings)
    end
  else ret st.

(** The rule of [processMessyData] for a combined name field. *)
Definition splitName (rowId : string) (rowIndex : Z)
    (st : Record_ * list ProcessingWarning)
  : M (Record_ * list ProcessingWarning) :=
  let '(processedRow, warnings) := st in
  let combined := get processedRow "full_name" in
  if negb (truthy (get processedRow "first_name")) && truthy combined then
    let nameParts := splitWhiteSpace false (trim (show combined)) in
    if (2 <=? List.length nameParts)%nat then
      let row1 := set processedRow "first_name" (hd "" nameParts) in
      let row2 := set row1 "last_name" (join " " (tl nameParts)) in
      w <- createWarning rowId rowIndex "full_name"
             (show (get row2 "full_name"))
             "Combined name field split into first_name and last_name" ;;
      ret (del row2 "full_name", List.app warnings [w])
    else ret (del processedRow "full_name", warnings)
  else ret st.

(** [processMessyData]: the returned row together with the caller's
    list of warnings, to which the function appends. *)
Definition processMessyData (row : Record_) (rowIndex : Z)
    (warnings : list ProcessingWarning)
  : M (Record_ * list ProcessingWarning) :=
  let rowId := orElse (get row "employee_id") ("row_" ++ intToString rowIndex) in
  st1 <- splitAddress "home" rowId rowIndex (row, warnings) ;;
  st2 <- splitAddress "work" rowId rowIndex st1 ;;
  splitName rowId rowIndex st2.

(** [extractEmployeeData] *)
Definition extractEmployeeData (detRecord : Record_) : Record_ :=
  del (del (del detRecord "record_type") "record_sequence") "company_id".

(** An entry of the list of parse errors. *)
Record ParseError : Type := mkParseError {
  pe_message : string;
  pe_row : Z
}.

(** The variables that the callbacks of [processCSV] share. *)
Record Acc : Type := mkAcc {
  warnings : list ProcessingWarning;
  errors : list ParseError;
  processedRows : list Record_;
  detRecords : list Record_;
  rowCounter : Z;
  headerFields : option (list string);
  headersCaptured : bool
}.

Definition initialAcc : Acc := mkAcc [] [] [] [] 0 None false.

Definition missingFieldError (rowNumber : Z) (field : string)
    (cleanedRow : Record_) : ParseError :=
  mkParseError
    ("Row " ++ intToString rowNumber ++ ": Missing required field '" ++ field
       ++ "' in DET record. Available fields: " ++ join ", " (keys cleanedRow))
    rowNumber.

(** The [step] callback, called by the CSV reader once per data row
    with the row (its keys are the transformed headers) and the reader's
    handle, of which [cursor] is [parser.meta?.cursor].  The progress
    callback is an observer of the caller and is left out. *)
Definition step (row : Record_) (cursor : option Z) (acc : Acc) : M Acc :=
  let rowCounter' := rowCounter acc + 1 in
  let rowNumber := match cursor with Some c => c | None => rowCounter' end in
  let headerFields' :=
    if negb (headersCaptured acc) then Some (keys row) else headerFields acc in
  let recordType := option_map toUpperCase (get row "record_type") in
  if strictEq recordType "DET" then
    st <- processMessyData row rowNumber (warnings acc) ;;
    let '(cleanedRow, warnings') := st in
    let recordSequence :=
      orOpt (get cleanedRow "record_sequence") (get cleanedRow "record_sequence") in
    let companyId :=
      orOpt (get cleanedRow "company_id") (get cleanedRow "company_id") in
    let errors1 :=
      if Validator.isMissing recordSequence
      then List.app (errors acc)
                    [missingFieldError rowNumber "record_sequence" cleanedRow]
      else errors acc in
    let errors2 :=
      if Validator.isMissing companyId
      then List.app errors1 [missingFieldError rowNumber "company_id" cleanedRow]
      else errors1 in
    let detRecord :=
      set (set cleanedRow "record_sequence" (orElse recordSequence ""))
          "company_id" (orElse companyId "") in
    ret (mkAcc warnings' errors2
               (List.app (processedRows acc) [extractEmployeeData detRecord])
               (List.app (detRecords acc) [detRecord])
               rowCounter' headerFields' true)
  else
    ret (mkAcc (warnings acc) (errors acc) (processedRows acc) (detRecords acc)
               rowCounter' headerFields' true).

Fixpoint steps (rows : list (Record_ * option Z)) (acc : Acc) : M Acc :=
  match rows with
  | [] => ret acc
  | (row, cursor) :: rest => acc' <- step row cursor acc ;; steps rest acc'
  end.

(** What [processCSV] resolves to. *)
Record CsvResult : Type := mkCsvResult {
  res_rows : list Record_;
  res_detRecords : list Record_;
  res_warnings : list ProcessingWarning;
  res_errors : list ParseError;
  res_headerFields : list string
}.

Definition isEmptyFields (fields : option (list string)) : bool :=
  match fields with
  | None | Some [] => true
  | Some _ => false
  end.

(** The [complete] callback; [metaFields] is [results.meta.fields]. *)
Definition complete (metaFields : option (list string)) (acc : Acc) : CsvResult :=
  let fields1 :=
    if isEmptyFields (headerFields acc)
    then Some (match metaFields with Some f => f | None => [] end)
    else headerFields acc in
  let fields2 :=
    if isEmptyFields fields1 && (0 <? List.length (processedRows acc))%nat then
      match detRecords acc with
      | firstDetRecord :: _ => Some (keys firstDetRecord)
      | [] => fields1
      end
    else fields1 in
  mkCsvResult (processedRows acc) (detRecords acc) (warnings acc) (errors acc)
              (match fields2 with Some f => f | None => [] end).

(** [processCSV], from the rows that the CSV reader hands to [step]
    (header row consumed, empty lines skipped) to the resolved value. *)
Definition processCSV (rows : list (Record_ * option Z))
    (metaFields : option (list string)) : M CsvResult :=
  acc <- steps rows initialAcc ;;
  ret (complete metaFields acc).

End CsvProcessor.

(* ================================================================= *)
(** ** config/defaultMappings.ts *)

Module DefaultMappings.

(** [calculatePerPaycheckRate]; an absent argument reads as the string
    "undefined" in [parseFloat] and matches no case of the switch. *)
Definition calculatePerPaycheckRate (annualSalary payFrequency : option string)
  : number :=
  let salary := parseFloat (show annualSalary) in
  if isNaN salary then ofInt 0
  else if strictEq payFrequency "Weekly" then div salary (ofInt 52)
  else if strictEq payFrequency "Bi-weekly" then div salary (ofInt 26)
  else if strictEq payFrequency "Semi-monthly" then div salary (ofInt 24)
  else if strictEq payFrequency "Monthly" then div salary (ofInt 12)
  else div salary (ofInt 26).

(** The members that every object literal inherits from
    [Object.prototype].  The records of this development hold strings;
    a value that is not a string, as these members are, is held as the
    string that [String] makes of it in V8, which is how the records
    are printed, and is truthy like it. *)
Definition objectPrototype : obj string :=
  [ ("constructor", "function Object() { [native code] }");
    ("__defineGetter__", "function __defineGetter__() { [native code] }");
    ("__defineSetter__", "function __defineSetter__() { [native code] }");
    ("hasOwnProperty", "function hasOwnProperty() { [native code] }");
    ("__lookupGetter__", "function __lookupGetter__() { [native code] }");
    ("__lookupSetter__", "function __lookupSetter__() { [native code] }");
    ("isPrototypeOf", "function isPrototypeOf() { [native code] }");
    ("propertyIsEnumerable",
     "function propertyIsEnumerable() { [native code] }");
    ("toString", "function toString() { [native code] }");
    ("valueOf", "function valueOf() { [native code] }");
    ("__proto__", "[object Object]");
    ("toLocaleString", "function toLocaleString() { [native code] }") ].

(** [mapping[value] || fallback] for the tables of filing statuses,
    which are object literals: the value under a key of the table, or
    else the inherited member of that name, or else the fall-back. *)
Definition lookupOr (table : obj string) (value fallback : string) : string :=
  match get table value with
  | Some found => orElse (Some found) fallback
  | None => orElse (get objectPrototype value) fallback
  end.

Definition payRate (_value : string) (record : Record_) : string :=
  toFixed (calculatePerPaycheckRate (get record "annual_salary")
                                    (get record "pay_frequency")) 2.

Definition retirementAmount (record : Record_) : string :=
  let perPaycheck :=
    calculatePerPaycheckRate (get record "annual_salary")
                             (get record "pay_frequency") in
  let contributionPercent :=
    div (parseFloat (show (get record "retirement_contribution_percent")))
        (ofInt 100) in
  toFixed (mul perPaycheck contributionPercent) 2.

Definition hasRetirement (record : Record_) : bool :=
  truthy (get record "retirement_plan_type")
  && truthy (get record "annual_salary")
  && truthy (get record "retirement_contribution_percent").

Definition hasLoan (record : Record_) : bool :=
  truthy (get record "retirement_loan_repayment")
  && gt (parseFloat (show (get record "retirement_loan_repayment"))) (ofInt 0).

Definition adpMapping : ProviderMapping :=
  mkProviderMapping ADP
    [ mkFieldMapping "employee_id" "Employee No";
      mkFieldMapping "ssn" "SSN";
      mkFieldMapping "first_name" "FName";
      mkFieldMapping "last_name" "LName";
      mkFieldMapping "dob" "DOB";
      mkFieldMapping "home_street" "Home_Addr1";
      mkFieldMapping "home_city" "Home_City";
      mkFieldMapping "home_state" "Home_State";
      mkFieldMapping "home_zip" "Home_Zip";
      mkFieldMapping "work_street" "Work_Addr1";
      mkFieldMapping "work_city" "Work_City";
      mkFieldMapping "work_state" "Work_State";
      mkFieldMapping "work_zip" "Work_Zip";
      mkFieldMapping "hire_date" "HiredDate";
      mkFieldMapping "job_title" "JobTitle";
      mkFieldMapping "department" "Dept";
      mkFieldMapping "flsa_status" "FLSA_Status";
      mkFieldMapping "pay_frequency" "PayFreq";
      mkFieldMapping "fed_status" "Fed_W4_Status";
      mkFieldMapping "fed_allowances" "Fed_W4_Allow";
      mkFieldMapping "fed_extra_wh_per_paycheck" "Fed_W4_Extra";
      mkFieldMapping "state_code" "State_Tax_Code";
      mkFieldMapping "state_extra_wh_per_paycheck" "State_Extra_WH";
      mkFieldMapping "local_tax_code_1" "Local_Tax_Code_1";
      mkFieldMapping "dd1_routing_number" "DD1_Routing";
      mkFieldMapping "dd1_account_number" "DD1_Acct";
      mkFieldMapping "dd1_account_type" "DD1_Type";
      mkFieldMapping "dd1_split_type" "DD1_SplitType";
      mkFieldMapping "dd1_split_value" "DD1_SplitValue";
      mkFieldMapping "dd2_routing_number" "DD2_Routing";
      mkFieldMapping "dd2_account_number" "DD2_Acct";
      mkFieldMapping "dd2_account_type" "DD2_Type" ]
    [ ("Fed_W4_Status", fun value _ =>
         lookupOr [ ("Single", "S"); ("Married", "M");
                    ("Married Filing Separately", "MFS");
                    ("Head of Household", "HOH") ] value value);
      ("PayRate", payRate);
      ("Deduct_Code_1", fun _ record => orElse (get record "health_plan_name") "");
      ("Deduct_Amt_1", fun _ record =>
         orElse (get record "health_deduction_per_paycheck") "0.00");
      ("Deduct_Code_2", fun _ record =>
         orElse (get record "retirement_plan_type") "");
      ("Deduct_Amt_2", fun _ record =>
         if hasRetirement record then retirementAmount record else "0.00");
      ("Deduct_Code_3", fun _ record =>
         if hasLoan record then "401k Loan" else "");
      ("Deduct_Amt_3", fun _ record =>
         orElse (get record "retirement_loan_repayment") "0.00");
      ("Deduct_Code_4", fun _ record => orElse (get record "garnishment_type") "");
      ("Deduct_Amt_4", fun _ record =>
         orElse (get record "garnishment_amount_per_paycheck") "0.00") ].

(** [`${record.a}, ${record.b}, ${record.c} ${record.d}`.trim()] *)
Definition addressLine (record : Record_) (prefix : string) : string :=
  trim (show (get record (prefix ++ "_street")) ++ ", "
        ++ show (get record (prefix ++ "_city")) ++ ", "
        ++ show (get record (prefix ++ "_state")) ++ " "
        ++ show (get record (prefix ++ "_zip"))).

Definition quickBooksMapping : ProviderMapping :=
  mkProviderMapping QuickBooks
    [ mkFieldMapping "employee_id" "Employee #";
      mkFieldMapping "ssn" "SSN";
      mkFieldMapping "dob" "Date of Birth";
      mkFieldMapping "hire_date" "Hire Date";
      mkFieldMapping "job_title" "Job Title";
      mkFieldMapping "department" "Department";
      mkFieldMapping "flsa_status" "FLSA Status";
      mkFieldMapping "pay_frequency" "Per";
      mkFieldMapping "fed_status" "Federal Filing Status";
      mkFieldMapping "fed_allowances" "Federal Allowances";
      mkFieldMapping "fed_extra_wh_per_paycheck" "Federal Extra Withholding";
      mkFieldMapping "state_code" "State Tax (Work)";
      mkFieldMapping "state_extra_wh_per_paycheck" "State Extra Withholding";
      mkFieldMapping "local_tax_code_1" "Local Tax";
      mkFieldMapping "i9_status" "I-9 Status";
      mkFieldMapping "e_verify_status" "E-Verify Status";
      mkFieldMapping "gender" "EEO Gender";
      mkFieldMapping "ethnicity" "EEO Ethnicity" ]
    [ ("Full Name", fun _ record =>
         trim (show (get record "first_name") ++ " "
               ++ show (get record "last_name")));
      ("Home Address", fun _ record => addressLine record "home");
      ("Work Location", fun _ record => addressLine record "work");
      ("Pay Rate ($)", payRate);
      ("Federal Filing Status", fun value _ =>
         lookupOr [ ("Single", "single");
                    ("Married", "married_filing_jointly");
                    ("Married Filing Separately", "married_filing_separately");
                    ("Head of Household", "head_of_household") ]
                  value (replaceWhiteSpaceRuns "_" false (toLowerCase value)));
      ("Direct Deposit 1", fun _ record =>
         if truthy (get record "dd1_routing_number")
            && truthy (get record "dd1_account_number")
            && truthy (get record "dd1_account_type") then
           let splitInfo :=
             if strictEq (get record "dd1_split_type") "Percent"
             then show (get record "dd1_split_value") ++ "%"
             else "$" ++ show (get record "dd1_split_value") in
           show (get record "dd1_routing_number") ++ "-"
             ++ show (get record "dd1_account_number") ++ "-"
             ++ show (get record "dd1_account_type") ++ "-" ++ splitInfo
         else "");
      ("Direct Deposit 2", fun _ record =>
         if truthy (get record "dd2_routing_number")
            && truthy (get record "dd2_account_number")
            && truthy (get record "dd2_account_type") then
           show (get record "dd2_routing_number") ++ "-"
             ++ show (get record "dd2_account_number") ++ "-"
             ++ show (get record "dd2_account_type")
         else "");
      ("Health Deduction", fun _ record =>
         if truthy (get record "health_plan_name")
            && truthy (get record "health_deduction_per_paycheck")
         then show (get record "health_plan_name") ++ " - "
                ++ show (get record "health_deduction_per_paycheck")
         else "");
      ("Retirement Deduction", fun _ record =>
         if hasRetirement record then
           show (get record "retirement_plan_type") ++ " - "
             ++ show (get record "retirement_contribution_percent")
             ++ "% ($" ++ retirementAmount record ++ ")"
         else "");
      ("Retirement Loan", fun _ record =>
         if hasLoan record
         then "$" ++ show (get record "retirement_loan_repayment")
         else "");
      ("Garnishment", fun _ record =>
         if truthy (get record "garnishment_type")
            && truthy (get record "garnishment_amount_per_paycheck")
         then show (get record "garnishment_type") ++ " - $"
                ++ show (get record "garnishment_amount_per_paycheck")
         else "") ].

End DefaultMappings.

(* ================================================================= *)
(** ** services/transformer.ts *)

Module Transformer.

(** [getProviderMapping]; [stored] is the custom mapping that
    [JSON.parse] reads from [localStorage] for the provider, if any. *)
Definition getProviderMapping (stored : Provider -> option ProviderMapping)
    (p : Provider) : ProviderMapping :=
  match stored p with
  | Some custom => custom
  | None =>
      match p with
      | ADP => DefaultMappings.adpMapping
      | QuickBooks => DefaultMappings.quickBooksMapping
      end
  end.

(** One turn of the loop over the field mappings. *)
Definition applyFieldMapping (mapping : ProviderMapping) (employee : Record_)
    (out : Record_) (fieldMapping : FieldMapping) : Record_ :=
  let sourceValue := get employee (sourceField fieldMapping) in
  let target := targetField fieldMapping in
  match get (transformations mapping) target with
  | Some transformFn => set out target (transformFn (orElse sourceValue "") employee)
  | None => set out target (orElse sourceValue "")
  end.

(** The loop over the field mappings. *)
Definition firstPass (mapping : ProviderMapping) (employee : Record_) : Record_ :=
  fold_left (applyFieldMapping mapping employee) (fieldMappings mapping) [].

(** One turn of the loop over the transformations: the record, and the
    targets whose transformation the loop has called so far. *)
Definition applyTransformation (employee : Record_)
    (st : Record_ * list string)
    (entry : string * (string -> Record_ -> string))
  : Record_ * list string :=
  let '(out, called) := st in
  let '(target, transformFn) := entry in
  if negb (truthy (get out target))
  then (set out target (transformFn "" employee), List.app called [target])
  else (out, called).

(** The loop over the transformations. *)
Definition secondPass (mapping : ProviderMapping) (employee : Record_)
    (out : Record_) : Record_ * list string :=
  fold_left (applyTransformation employee) (transformations mapping) (out, []).

(** The body shared by [transformToADP] and [transformToQuickBooks]. *)
Definition transformWith (mapping : ProviderMapping) (employee : Record_)
  : Record_ :=
  fst (secondPass mapping employee (firstPass mapping employee)).

(** The targets whose transformation the second loop calls, in order. *)
Definition secondPassCalls (mapping : ProviderMapping) (employee : Record_)
  : list string :=
  snd (secondPass mapping employee (firstPass mapping employee)).

(** [transformToADP] *)
Definition transformToADP (stored : Provider -> option ProviderMapping)
    (employee : Record_) : Record_ :=
  transformWith (getProviderMapping stored ADP) employee.

(** [transformToQuickBooks] *)
Definition transformToQuickBooks (stored : Provider -> option ProviderMapping)
    (employee : Record_) : Record_ :=
  transformWith (getProviderMapping stored QuickBooks) employee.

End Transformer.

(* ================================================================= *)
(** ** Vocabulary of the properties *)

Module Spec.

Import Validator.

(** What a rule decided about an error. *)
Definition bodyOf (e : ProcessingError) : ErrorBody :=
  mkErrorBody (err_field e) (err_value e) (err_errorType e) (err_message e)
              (match err_suggestedFix e with Some f => f | None => "" end).

Definition isBusinessLogic (b : ErrorBody) : bool :=
  ErrorType_eqb (body_errorType b) BUSINESS_LOGIC_ERROR.

(** An [INVALID_FORMAT] error on the given field. *)
Definition isFormatErrorOn (field : string) (b : ErrorBody) : bool :=
  ErrorType_eqb (body_errorType b) INVALID_FORMAT
  && (body_field b =? field)%string.

(** The split percentage is a number from 0 to 100. *)
Definition inPercentRange (p : number) : bool :=
  negb (isNaN p) && negb (lt p (ofInt 0)) && negb (gt p (ofInt 100)).

(** Four digits, a dash, two digits, a dash, two digits. *)
Definition isDashed422 (s : string) : bool :=
  match s with
  | String y1 (String y2 (String y3 (String y4 (String s1
      (String m1 (String m2 (String s2 (String d1 (String d2 EmptyString))))))))) =>
      isDigit y1 && isDigit y2 && isDigit y3 && isDigit y4
      && Ascii.eqb "-" s1 && isDigit m1 && isDigit m2
      && Ascii.eqb "-" s2 && isDigit d1 && isDigit d2
  | _ => false
  end.

Definition yearOf (s : string) : Z := digitsValue 0 (String.substring 0 4 s).
Definition monthOf (s : string) : Z := digitsValue 0 (String.substring 5 2 s).
Definition dayOf (s : string) : Z := digitsValue 0 (String.substring 8 2 s).

Definition isLeapYear (y : Z) : bool :=
  ((y mod 4 =? 0) && negb (y mod 100 =? 0)) || (y mod 400 =? 0).

Definition daysInMonth (y m : Z) : Z :=
  if m =? 2 then (if isLeapYear y then 29 else 28)
  else if (m =? 4) || (m =? 6) || (m =? 9) || (m =? 11) then 30
  else 31.

(** A date of the calendar, written year-month-day. *)
Definition isCalendarDate (s : string) : bool :=
  (1 <=? monthOf s) && (monthOf s <=? 12)
  && (1 <=? dayOf s) && (dayOf s <=? daysInMonth (yearOf s) (monthOf s)).

(** The month is 01 to 12 and the day 01 to 31. *)
Definition hasDateRanges (s : string) : bool :=
  (1 <=? monthOf s) && (monthOf s <=? 12)
  && (1 <=? dayOf s) && (dayOf s <=? 31).

(** The year field is 0001 to 0012 and the month field 01 to 31: the
    strings that the legacy parser of V8 reads as month, day and
    year. *)
Definition hasLegacyReading (s : string) : bool :=
  (1 <=? yearOf s) && (yearOf s <=? 12)
  && (1 <=? monthOf s) && (monthOf s <=? 31).

(** The two percentages do not add up to 100 within 0.01:
    [Math.abs(p1 + p2 - 100) > 0.01]. *)
Definition sumOffBy (p1 p2 : number) : bool :=
  gt (abs (sub (add p1 p2) (ofInt 100))) (ofDecimal false 1 (-2)).

(** The error of the rule on the sum of the two percentages. *)
Definition splitSumBody (v1 v2 : string) : ErrorBody :=
  mkErrorBody "dd1_split_value" (v1 ++ " + " ++ v2) BUSINESS_LOGIC_ERROR
    ("Direct deposit split percentages must sum to 100%, got: "
       ++ numberToString (add (parseFloat v1) (parseFloat v2)) ++ "%")
    "Adjust split values so they sum to 100%".

(** Scenario A. *)
Definition scenarioA : Record_ :=
  [ ("dd1_split_type", "Percent"); ("dd1_split_value", "60");
    ("dd2_split_type", "Percent"); ("dd2_split_value", "45") ].

(** The error of the rule on the date of birth. *)
Definition dobBody (d : string) : ErrorBody :=
  mkErrorBody "dob" d INVALID_FORMAT
    ("Date of birth must be in YYYY-MM-DD format, got: " ++ d)
    "Format as YYYY-MM-DD (e.g., 1990-05-15)".

(** An employee all of whose fields are valid, but for the date of
    birth, which is the argument. *)
Definition employeeBornOn (dob : string) : Record_ :=
  [ ("employee_id", "E1001"); ("first_name", "Ada"); ("last_name", "Lovelace");
    ("dob", dob); ("ssn", "123-45-6789");
    ("home_street", "123 Main St"); ("home_city", "Hanahan");
    ("home_state", "SC"); ("home_zip", "29410");
    ("hire_date", "2025-11-01"); ("job_title", "Engineer");
    ("flsa_status", "Exempt"); ("annual_salary", "120000");
    ("pay_frequency", "Bi-weekly"); ("fed_status", "Single");
    ("fed_allowances", "1"); ("fed_extra_wh_per_paycheck", "0");
    ("state_code", "SC"); ("state_extra_wh_per_paycheck", "0");
    ("i9_status", "Completed"); ("e_verify_status", "Authorized");
    ("dd1_routing_number", "021000021"); ("dd1_account_number", "000123456");
    ("dd1_account_type", "Checking"); ("dd1_split_type", "Percent");
    ("dd1_split_value", "100") ].

(** Scenario B: a combined home address and an empty street. *)
Definition scenarioB : Record_ :=
  [ ("employee_id", "E1001"); ("home_street", "");
    ("home_address", "123 Main St, Hanahan, SC 29410") ].

(** The message of the warning for a combined home address. *)
Definition homeSplitMessage : string :=
  "Combined address field split into home_street, home_city, home_state, home_zip".

(** The warnings on a given field. *)
Definition warningsOn (field : string) (ws : list ProcessingWarning)
  : list ProcessingWarning :=
  filter (fun x => (warn_field x =? field)%string) ws.

(** The row passes the test of [step]: its record type, in upper
    case, is "DET". *)
Definition isDetRow (row : Record_) : bool :=
  strictEq (option_map toUpperCase (get row "record_type")) "DET".

(** A detail row whose record type is written in lower case. *)
Definition lowercaseDetRow : Record_ :=
  [ ("record_type", "det"); ("record_sequence", "1"); ("company_id", "C1");
    ("employee_id", "E1001") ].

(** A header row. *)
Definition headerRow : Record_ :=
  [ ("record_type", "HDR"); ("record_sequence", ""); ("company_id", "");
    ("employee_id", "") ].

(** The last correction, in the order of insertion, whose [errorId]
    is the given identifier. *)
Definition latestMatching (corrections : list ErrorCorrection) (id : string)
  : option ErrorCorrection :=
  fold_left (fun found c => if (errorId c =? id)%string then Some c else found)
            corrections None.







(** Pay periods in a year, by pay frequency; 26 when the frequency is
    not in the table. *)
Definition payPeriods : obj Z :=
  [ ("Weekly", 52); ("Bi-weekly", 26); ("Semi-monthly", 24); ("Monthly", 12) ].

Definition periodsPerYear (payFrequency : option string) : Z :=
  match payFrequency with
  | Some f => match get payPeriods f with Some n => n | None => 26 end
  | None => 26
  end.

(** The exact value of the magnitude of a finite number. *)
Definition magnitude (x : number) : QArith_base.Q :=
  match x with
  | S754_finite _ m e =>
      QArith_base.Qmake (fst (exactRatio m e)) (Z.to_pos (snd (exactRatio m e)))
  | _ => QArith_base.Qmake 0 1
  end.

(** Hundredths in the magnitude of a number, rounded to the nearest
    integer, a half going up: the integral part of [100 * x + 1 / 2]. *)
Definition centsHalfUp (x : number) : Z :=
  Qround.Qfloor
    (QArith_base.Qplus
       (QArith_base.Qmult (QArith_base.Qmake 100 1) (magnitude x))
       (QArith_base.Qmake 1 2)).

(** An amount of hundredths written with two decimal places. *)
Definition twoDecimals (cents : Z) : string :=
  intToString (cents / 100) ++ "."
    ++ chr (digitChar (cents / 10 mod 10)) ++ chr (digitChar (cents mod 10)).

Definition isNegative (x : number) : bool :=
  match x with
  | S754_finite s _ _ => s
  | _ => false
  end.

(** A number written with two decimal places, halves rounded up in
    magnitude. *)
Definition halfUpTwoDecimals (x : number) : string :=
  (if isNegative x then "-" else "") ++ twoDecimals (centsHalfUp x).

(** The number is finite and its magnitude is below [10 ^ 21]. *)
Definition belowTenTo21 (x : number) : bool :=
  match x with
  | S754_zero _ => true
  | S754_finite _ m e =>
      fst (exactRatio m e) <? 10 ^ 21 * snd (exactRatio m e)
  | _ => false
  end.

(** The ratio of two integers, the second positive, written with two
    decimal places, a half rounded up: what rounding the quotient of
    two decimal numbers, and not the nearest binary number, gives. *)
Definition halfUpOfRatio (n d : Z) : string :=
  twoDecimals ((2 * n * 100 + d) / (2 * d)).

(** A salary with cents whose twelfth lies half-way between two
    hundredths: 120000.06 / 12 is 10000.005. *)
Definition salaryWithCents : Record_ :=
  [ ("annual_salary", "120000.06"); ("pay_frequency", "Monthly") ].

(** Scenario C. *)
Definition scenarioC : Record_ :=
  [ ("annual_salary", "120000"); ("pay_frequency", "Bi-weekly") ].

(** A salary that passes [isNumeric] and exceeds [10 ^ 21] per pay
    period. *)
Definition hugeSalary : Record_ :=
  [ ("annual_salary", "1e23"); ("pay_frequency", "Bi-weekly") ].

(** The value that the loop over the field mappings gives to the
    target of a field mapping: the transformation of the target, if it
    has one, applied to the source value, and the source value
    otherwise. *)
Definition mappedValue (mapping : ProviderMapping) (employee : Record_)
    (fm : FieldMapping) : string :=
  let sourceValue := orElse (get employee (sourceField fm)) "" in
  match get (transformations mapping) (targetField fm) with
  | Some transformFn => transformFn sourceValue employee
  | None => sourceValue
  end.

(** The last field mapping of the list that has the given target. *)
Definition lastMappingTo (fms : list FieldMapping) (target : string)
    (found : option FieldMapping) : option FieldMapping :=
  fold_left
    (fun found fm => if (targetField fm =? target)%string then Some fm else found)
    fms found.

(** An employee without filing status. *)
Definition employeeWithoutStatus : Record_ :=
  [ ("employee_id", "E1001"); ("annual_salary", "120000");
    ("pay_frequency", "Bi-weekly") ].

(** A mapping whose transformation of a mapped target answers the empty
    string for the source value "none". *)
Definition badgeMapping : ProviderMapping :=
  mkProviderMapping ADP
    [ mkFieldMapping "badge" "Badge" ]
    [ ("Badge", fun value _ =>
         if (value =? "none")%string then "" else "B-" ++ value) ].

Definition employeeWithoutBadge : Record_ := [ ("badge", "none") ].

(** Scenario D. *)
Definition scenarioD : Record_ :=
  [ ("i9_status", "Pending_Section_2"); ("e_verify_status", "Authorized") ].

(** A world for the examples. *)
Definition sampleWorld : World :=
  mkWorld 0 (fun _ => "1762041600000") (fun _ => "2025-11-02T00:00:00.000Z")
          (fun n => "r" ++ digitsOf (Z.of_nat n)).

End Spec.

(* ================================================================= *)
(** ** services/errorTracker.ts: clearing the store *)

Module ErrorTrackerClear.
Import ErrorTracker.

(** [clearStoredErrors]: [removeItem] succeeds on a full store too. *)
Definition clearStoredErrors (st : Storage) : Storage :=
  mkStorage None (payroll_corrections st) (writable st).

(** [clearStoredCorrections] *)
Definition clearStoredCorrections (st : Storage) : Storage :=
  mkStorage (payroll_errors st) None (writable st).

End ErrorTrackerClear.

(* ================================================================= *)
(** ** utils/csvWriter.ts *)

Module CsvWriter.

(** [s.replace] of every double quote by two of them. *)
Fixpoint doubleQuotes (s : string) : string :=
  match s with
  | EmptyString => EmptyString
  | String c r =>
      if Ascii.eqb c (ascii_of_N 34)
      then String c (String c (doubleQuotes r))
      else String c (doubleQuotes r)
  end.

(** The test of [escapeCSVValue]: a comma, a quote or a line feed. *)
Definition needsQuotes (stringValue : string) : bool :=
  includesChar "," stringValue
  || includesChar (ascii_of_N 34) stringValue
  || includesChar (ascii_of_N 10) stringValue.

(** [escapeCSVValue] on a string-valued property; [None] is
    [undefined]. *)
Definition escapeCSVValue (value : option string) : string :=
  match value with
  | None => ""
  | Some stringValue =>
      if needsQuotes stringValue
      then dquote ++ doubleQuotes stringValue ++ dquote
      else stringValue
  end.

(** One line of the CSV text. *)
Definition csvLine (cells : list (option string)) : string :=
  join "," (map escapeCSVValue cells).

(** [arrayToCSV]; an empty array of headers is truthy and is used as
    given. *)
Definition arrayToCSV (data : list (obj string)) (headers : option (list string))
  : string :=
  match data with
  | [] => ""
  | first :: _ =>
      let csvHeaders :=
        match headers with Some h => h | None => keys first end in
      join (chr (ascii_of_N 10))
           (csvLine (map Some csvHeaders)
            :: map (fun row => csvLine (map (get row) csvHeaders)) data)
  end.

End CsvWriter.

(* ================================================================= *)
(** ** controllers/mappingController.ts *)

Module MappingController.

(** The keys [payroll_mapping_ADP] and [payroll_mapping_QuickBooks] of
    [localStorage], read through [JSON.parse]. *)
Definition MappingStore : Type := Provider -> option ProviderMapping.

Definition Provider_eqb (a b : Provider) : bool :=
  match a, b with
  | ADP, ADP | QuickBooks, QuickBooks => true
  | _, _ => false
  end.

(** [JSON.parse(JSON.stringify(mapping))] for a mapping whose
    transformations are functions: [JSON.stringify] leaves out every
    property whose value is a function, so that [transformations] is
    written, and read back, as the empty object. *)
Definition throughJSON (mapping : ProviderMapping) : ProviderMapping :=
  mkProviderMapping (provider mapping) (fieldMappings mapping) [].

(** [getMapping] *)
Definition getMapping (stored : MappingStore) (p : Provider) : ProviderMapping :=
  match stored p with
  | Some custom => custom
  | None =>
      match p with
      | ADP => DefaultMappings.adpMapping
      | QuickBooks => DefaultMappings.quickBooksMapping
      end
  end.

(** [saveMapping]: [None] when [setItem] throws, and the function with
    it ([writable] is false then). *)
Definition saveMapping (writable : bool) (p : Provider)
    (mapping : ProviderMapping) (stored : MappingStore) : option MappingStore :=
  if writable
  then Some (fun q => if Provider_eqb q p then Some (throughJSON mapping)
                      else stored q)
  else None.

(** [resetMapping]: the returned mapping and the store. *)
Definition resetMapping (writable : bool) (p : Provider) (stored : MappingStore)
  : option (ProviderMapping * MappingStore) :=
  let defaultMapping :=
    match p with
    | ADP => DefaultMappings.adpMapping
    | QuickBooks => DefaultMappings.quickBooksMapping
    end in
  match saveMapping writable p defaultMapping stored with
  | Some stored' => Some (defaultMapping, stored')
  | None => None
  end.

End MappingController.

(* ================================================================= *)
(** ** controllers/processController.ts *)

Module ProcessController.

Inductive LogLevel : Type := INFO | WARNING | ERROR | SUCCESS.

Record ProcessingLog : Type := mkProcessingLog {
  log_id : string;
  log_timestamp : string;
  log_level : LogLevel;
  log_message : string;
  log_employeeId : option string;
  log_row : option Z
}.

Record ProcessedEmployee : Type := mkProcessedEmployee {
  employee : Record_;
  adpRecord : Record_;
  quickBooksRecord : Record_
}.

Record SkippedEmployee : Type := mkSkippedEmployee {
  skipped : Record_;
  reason : string
}.

Record ProcessingResult : Type := mkProcessingResult {
  processedEmployees : list ProcessedEmployee;
  skippedEmployees : list SkippedEmployee;
  foundErrors : list ProcessingError;
  foundWarnings : list ProcessingWarning;
  logs : list ProcessingLog
}.

Definition emptyResult : ProcessingResult := mkProcessingResult [] [] [] [] [].

(** [addLog]: the identifier is generated first, the time stamp
    second. *)
Definition addLog (level : LogLevel) (message : string)
    (employeeId : option string) (row : option Z) (result : ProcessingResult)
  : M ProcessingResult :=
  id <- ErrorTracker.generateErrorId ;;
  timestamp <- isoTimestamp ;;
  ret (mkProcessingResult
         (processedEmployees result) (skippedEmployees result)
         (foundErrors result) (foundWarnings result)
         (List.app (logs result)
                   [mkProcessingLog id timestamp level message employeeId row])).

(** [`Employee ${employee.employee_id} (${employee.first_name}
    ${employee.last_name})`] *)
Definition employeeLabel (employee : Record_) : string :=
  "Employee " ++ show (get employee "employee_id") ++ " ("
    ++ show (get employee "first_name") ++ " "
    ++ show (get employee "last_name") ++ ")".

(** The [reason] of a skipped employee. *)
Definition skipReason (employee : Record_) : string :=
  "I-9 status: " ++ show (get employee "i9_status")
    ++ ", E-Verify status: " ++ show (get employee "e_verify_status").

(** What a call made in the [try] block comes to: it returns a value,
    or it throws, and [error] is then the [message] of what it has
    thrown, if that is an [Error]. *)
Inductive Outcome (A : Type) : Type :=
| Returned (value : A)
| Threw (error : option string).

Arguments Returned {A} value.
Arguments Threw {A} error.

(** [error instanceof Error ? error.message : 'Unknown error'] *)
Definition errorMessage (error : option string) : string :=
  match error with
  | Some message => message
  | None => "Unknown error"
  end.

(** The [catch] block of the loop, for the employee at position [i]
    (from 0): the identifier of the error is generated first, its time
    stamp last, and the line of the log is written after the error. *)
Definition failedToProcess (i : Z) (employee : Record_) (error : option string)
    (result : ProcessingResult) : M ProcessingResult :=
  let rowIndex := i + 1 in
  id <- ErrorTracker.generateErrorId ;;
  timestamp <- isoTimestamp ;;
  let errorObj :=
    mkProcessingError id
      (orElse (get employee "employee_id") ("row_" ++ intToString rowIndex))
      rowIndex "general" None "" PARSE_ERROR
      ("Failed to process employee: " ++ errorMessage error) None timestamp in
  addLog ERROR
    ("Failed to process employee " ++ show (get employee "employee_id"))
    (get employee "employee_id") (Some rowIndex)
    (mkProcessingResult
       (processedEmployees result) (skippedEmployees result)
       (List.app (foundErrors result) [errorObj])
       (foundWarnings result) (logs result)).

(** [transformToADP(employee)], then [transformToQuickBooks(employee)]:
    the two records, or what the first call that throws has thrown. *)
Definition transformBoth (toADP toQuickBooks : Record_ -> Outcome Record_)
    (employee : Record_) : Outcome (Record_ * Record_) :=
  match toADP employee with
  | Threw error => Threw error
  | Returned adp =>
      match toQuickBooks employee with
      | Threw error => Threw error
      | Returned quickBooks => Returned (adp, quickBooks)
      end
  end.

(** One turn of the loop of [processEmployees], for the employee at
    position [i] (from 0).  With records whose values are strings,
    validation, the gate and the log do not throw; what can throw in the
    [try] block are the transformers, on a stored mapping that has not
    the shape of [ProviderMapping], and the progress callback of the
    caller.  [toADP] and [toQuickBooks] are what the two transformers do
    with an employee during the run.  [onProgress] is what the callback,
    if there is one, does when it is called with [current] the given
    position counted from 1; it is called once for each employee that is
    processed, with the total, whether this is the last employee and the
    last five lines of the log, which it is taken to leave alone.  The
    pause between two turns is left out. *)
Definition processEmployee (toADP toQuickBooks : Record_ -> Outcome Record_)
    (onProgress : option (Z -> Outcome unit))
    (headerFields : option (list string)) (i : Z) (employee : Record_)
    (result : ProcessingResult) : M ProcessingResult :=
  let rowIndex := i + 1 in
  validationErrors <- Validator.validateEmployeeRecord employee i headerFields ;;
  let result1 :=
    mkProcessingResult
      (processedEmployees result) (skippedEmployees result)
      (List.app (foundErrors result) validationErrors)
      (foundWarnings result) (logs result) in
  result2 <-
    (if (0 <? List.length validationErrors)%nat then
       addLog ERROR
         ("Row " ++ intToString rowIndex ++ ", Column "
            ++ join ", " (map err_field validationErrors)
            ++ ": Validation failed - "
            ++ intToString (Z.of_nat (List.length validationErrors))
            ++ " issue(s) detected")
         (get employee "employee_id") (Some rowIndex) result1
     else ret result1) ;;
  if negb (Validator.isPayrollReady employee) then
    addLog WARNING
      (employeeLabel employee ++ ": Compliance check failed - "
         ++ skipReason employee)
      (get employee "employee_id") (Some rowIndex)
      (mkProcessingResult
         (processedEmployees result2)
         (List.app (skippedEmployees result2)
                   [mkSkippedEmployee employee (skipReason employee)])
         (foundErrors result2) (foundWarnings result2) (logs result2))
  else
    match transformBoth toADP toQuickBooks employee with
    | Threw error => failedToProcess i employee error result2
    | Returned (adp, quickBooks) =>
        let result3 :=
          mkProcessingResult
            (List.app (processedEmployees result2)
                      [mkProcessedEmployee employee adp quickBooks])
            (skippedEmployees result2)
            (foundErrors result2) (foundWarnings result2) (logs result2) in
        result4 <-
          (if (List.length validationErrors =? 0)%nat then
             addLog SUCCESS
               (employeeLabel employee ++ ": Validated and ready for export")
               (get employee "employee_id") (Some rowIndex) result3
           else
             addLog INFO
               (employeeLabel employee
                  ++ ": Transformed with validation errors - export disabled until corrected")
               (get employee "employee_id") (Some rowIndex) result3) ;;
        match onProgress with
        | None => ret result4
        | Some callback =>
            match callback (i + 1) with
            | Returned _ => ret result4
            | Threw error => failedToProcess i employee error result4
            end
        end
    end.

(** The loop of [processEmployees], from position [i] on. *)
Fixpoint processFrom (toADP toQuickBooks : Record_ -> Outcome Record_)
    (onProgress : option (Z -> Outcome unit))
    (headerFields : option (list string)) (i : Z) (employees : list Record_)
    (result : ProcessingResult) : M ProcessingResult :=
  match employees with
  | [] => ret result
  | employee :: rest =>
      result' <-
        processEmployee toADP toQuickBooks onProgress headerFields i employee
          result ;;
      processFrom toADP toQuickBooks onProgress headerFields (i + 1) rest result'
  end.

(** [processEmployees], whatever the transformers and the callback do:
    the result and the error store. *)
Definition processEmployeesWith
    (toADP toQuickBooks : Record_ -> Outcome Record_)
    (onProgress : option (Z -> Outcome unit))
    (employees : list Record_) (headerFields : option (list string))
    (st : ErrorTracker.Storage)
  : M (ProcessingResult * ErrorTracker.Storage) :=
  result0 <-
    addLog INFO
      ("Starting processing of "
         ++ intToString (Z.of_nat (List.length employees)) ++ " employees")
      None None emptyResult ;;
  result1 <-
    processFrom toADP toQuickBooks onProgress headerFields 0 employees result0 ;;
  let st' :=
    if (0 <? List.length (foundErrors result1))%nat
    then ErrorTracker.storeErrors (foundErrors result1) st
    else st in
  result2 <-
    addLog INFO
      ("Processing complete. "
         ++ intToString (Z.of_nat (List.length (processedEmployees result1)))
         ++ " employees processed, "
         ++ intToString (Z.of_nat (List.length (skippedEmployees result1)))
         ++ " employees skipped")
      None None result1 ;;
  ret (result2, st').

(** [processEmployees] without progress callback, over stored mappings
    of the shape of [ProviderMapping], the default ones when nothing is
    stored: the transformers return. *)
Definition processEmployees (employees : list Record_)
    (headerFields : option (list string))
    (stored : Provider -> option ProviderMapping) (st : ErrorTracker.Storage)
  : M (ProcessingResult * ErrorTracker.Storage) :=
  processEmployeesWith
    (fun employee => Returned (Transformer.transformToADP stored employee))
    (fun employee => Returned (Transformer.transformToQuickBooks stored employee))
    None employees headerFields st.

End ProcessController.

(* ================================================================= *)
(** ** Vocabulary of the further properties *)

Module Terms.
Import Validator.

(** The keys of [ADPRecord] in types/index.ts, in the order in which
    the default mapping fills them. *)
Definition adpColumns : list string :=
  [ "Employee No"; "SSN"; "FName"; "LName"; "DOB";
    "Home_Addr1"; "Home_City"; "Home_State"; "Home_Zip";
    "Work_Addr1"; "Work_City"; "Work_State"; "Work_Zip";
    "HiredDate"; "JobTitle"; "Dept"; "FLSA_Status"; "PayFreq";
    "Fed_W4_Status"; "Fed_W4_Allow"; "Fed_W4_Extra";
    "State_Tax_Code"; "State_Extra_WH"; "Local_Tax_Code_1";
    "DD1_Routing"; "DD1_Acct"; "DD1_Type"; "DD1_SplitType"; "DD1_SplitValue";
    "DD2_Routing"; "DD2_Acct"; "DD2_Type";
    "PayRate";
    "Deduct_Code_1"; "Deduct_Amt_1"; "Deduct_Code_2"; "Deduct_Amt_2";
    "Deduct_Code_3"; "Deduct_Amt_3"; "Deduct_Code_4"; "Deduct_Amt_4" ].

(** The keys of [QuickBooksRecord], likewise. *)
Definition quickBooksColumns : list string :=
  [ "Employee #"; "SSN"; "Date of Birth"; "Hire Date"; "Job Title";
    "Department"; "FLSA Status"; "Per"; "Federal Filing Status";
    "Federal Allowances"; "Federal Extra Withholding"; "State Tax (Work)";
    "State Extra Withholding"; "Local Tax"; "I-9 Status"; "E-Verify Status";
    "EEO Gender"; "EEO Ethnicity";
    "Full Name"; "Home Address"; "Work Location"; "Pay Rate ($)";
    "Direct Deposit 1"; "Direct Deposit 2"; "Health Deduction";
    "Retirement Deduction"; "Retirement Loan"; "Garnishment" ].

(** The keys of an object after assignments to the given keys, in
    order: a key that is there keeps its place, a new one goes last. *)
Definition assignKey (ks : list string) (k : string) : list string :=
  if includes ks k then ks else List.app ks [k].

Definition assignKeys (ks : list string) (assigned : list string) : list string :=
  fold_left assignKey assigned ks.

(** A part of an address as [parseAddress] returns it: not empty,
    without comma, and without white space around it. *)
Definition isAddressPart (s : string) : bool :=
  negb (includesChar "," s) && negb (s =? "")%string && (trim s =? s)%string.

(** A character of a ZIP code. *)
Definition isZipChar (c : ascii) : bool := isDigit c || Ascii.eqb "-" c.

(** What identifies an error for its reader: the row, the identifier
    of the row and the decision of the rule. *)
Definition located (e : ProcessingError) : Z * string * ErrorBody :=
  (err_row e, err_rowId e, Spec.bodyOf e).

(** The errors of the employees from position [i] (from 0) on: each
    on the row that counts its employee from 1. *)
Fixpoint locatedErrorsFrom (i : Z) (employees : list Record_)
  : list (Z * string * ErrorBody) :=
  match employees with
  | [] => []
  | employee :: rest =>
      List.app
        (map (fun b =>
                (i + 1,
                 orElse (get employee "employee_id") ("row_" ++ intToString i),
                 b))
             (employeeRules employee))
        (locatedErrorsFrom (i + 1) rest)
  end.

(** The lines of the log for one employee: the level and the row. *)
Definition logLinesFor (i : Z) (employee : Record_)
  : list (ProcessController.LogLevel * option Z) :=
  List.app
    (match employeeRules employee with
     | [] => []
     | _ => [(ProcessController.ERROR, Some (i + 1))]
     end)
    [(if negb (isPayrollReady employee) then ProcessController.WARNING
      else match employeeRules employee with
           | [] => ProcessController.SUCCESS
           | _ => ProcessController.INFO
           end,
      Some (i + 1))].

Fixpoint logLinesFrom (i : Z) (employees : list Record_)
  : list (ProcessController.LogLevel * option Z) :=
  match employees with
  | [] => []
  | employee :: rest =>
      List.app (logLinesFor i employee) (logLinesFrom (i + 1) rest)
  end.

(** The employee passes the gate and a transformer throws. *)
Definition failsToTransform
    (toADP toQuickBooks : Record_ -> ProcessController.Outcome Record_)
    (employee : Record_) : bool :=
  isPayrollReady employee
  && match ProcessController.transformBoth toADP toQuickBooks employee with
     | ProcessController.Threw _ => true
     | ProcessController.Returned _ => false
     end.

(** The entry of the processed employees for an employee, if the
    employee passes the gate and both transformers return. *)
Definition processedEntry
    (toADP toQuickBooks : Record_ -> ProcessController.Outcome Record_)
    (employee : Record_) : list ProcessController.ProcessedEmployee :=
  if isPayrollReady employee then
    match ProcessController.transformBoth toADP toQuickBooks employee with
    | ProcessController.Returned (adp, quickBooks) =>
        [ProcessController.mkProcessedEmployee employee adp quickBooks]
    | ProcessController.Threw _ => []
    end
  else [].

(** What is thrown in the turn of the employee at position [i] (from
    0), if anything: by a transformer, or else by the callback, once the
    employee is processed.  Nothing is, in the turn of an employee that
    the gate keeps out. *)
Definition thrownAt
    (toADP toQuickBooks : Record_ -> ProcessController.Outcome Record_)
    (onProgress : option (Z -> ProcessController.Outcome unit))
    (i : Z) (employee : Record_) : option (option string) :=
  if isPayrollReady employee then
    match ProcessController.transformBoth toADP toQuickBooks employee with
    | ProcessController.Threw error => Some error
    | ProcessController.Returned _ =>
        match onProgress with
        | Some callback =>
            match callback (i + 1) with
            | ProcessController.Threw error => Some error
            | ProcessController.Returned _ => None
            end
        | None => None
        end
    end
  else None.

(** The error that reports what was thrown in the turn of the employee
    at position [i]: its row counts from 1, and so does the name of an
    employee without identifier. *)
Definition failureAt (i : Z) (employee : Record_) (error : option string)
  : Z * string * ErrorBody :=
  (i + 1,
   orElse (get employee "employee_id") ("row_" ++ intToString (i + 1)),
   mkErrorBody "general" "" PARSE_ERROR
     ("Failed to process employee: " ++ ProcessController.errorMessage error) "").

(** The errors of a run from position [i] on: for each employee those
    of validation, then the report of what was thrown in its turn. *)
Fixpoint runErrorsFrom
    (toADP toQuickBooks : Record_ -> ProcessController.Outcome Record_)
    (onProgress : option (Z -> ProcessController.Outcome unit))
    (i : Z) (employees : list Record_) : list (Z * string * ErrorBody) :=
  match employees with
  | [] => []
  | employee :: rest =>
      List.app
        (List.app
           (locatedErrorsFrom i [employee])
           (match thrownAt toADP toQuickBooks onProgress i employee with
            | Some error => [failureAt i employee error]
            | None => []
            end))
        (runErrorsFrom toADP toQuickBooks onProgress (i + 1) rest)
  end.

(** The lines of the log for one employee of a run: the level and the
    row. *)
Definition runLogLinesFor
    (toADP toQuickBooks : Record_ -> ProcessController.Outcome Record_)
    (onProgress : option (Z -> ProcessController.Outcome unit))
    (i : Z) (employee : Record_)
  : list (ProcessController.LogLevel * option Z) :=
  List.app
    (match employeeRules employee with
     | [] => []
     | _ => [(ProcessController.ERROR, Some (i + 1))]
     end)
    (if negb (isPayrollReady employee)
     then [(ProcessController.WARNING, Some (i + 1))]
     else
       match ProcessController.transformBoth toADP toQuickBooks employee with
       | ProcessController.Threw _ => [(ProcessController.ERROR, Some (i + 1))]
       | ProcessController.Returned _ =>
           List.app
             [(match employeeRules employee with
               | [] => ProcessController.SUCCESS
               | _ => ProcessController.INFO
               end, Some (i + 1))]
             (match thrownAt toADP toQuickBooks onProgress i employee with
              | Some _ => [(ProcessController.ERROR, Some (i + 1))]
              | None => []
              end)
       end).

Fixpoint runLogLinesFrom
    (toADP toQuickBooks : Record_ -> ProcessController.Outcome Record_)
    (onProgress : option (Z -> ProcessController.Outcome unit))
    (i : Z) (employees : list Record_)
  : list (ProcessController.LogLevel * option Z) :=
  match employees with
  | [] => []
  | employee :: rest =>
      List.app (runLogLinesFor toADP toQuickBooks onProgress i employee)
               (runLogLinesFrom toADP toQuickBooks onProgress (i + 1) rest)
  end.

(** An employee without identifier that passes the gate. *)
Definition namelessEmployee : Record_ :=
  [ ("i9_status", "Completed"); ("e_verify_status", "Authorized") ].

(** A transformer that throws, as [transformToADP] does on a stored
    mapping that has no field mappings. *)
Definition brokenTransformer (employee : Record_)
  : ProcessController.Outcome Record_ :=
  ProcessController.Threw (Some "mapping.fieldMappings is not iterable").

(** A callback that throws something that is no [Error] at the second
    employee. *)
Definition brokenCallback (current : Z) : ProcessController.Outcome unit :=
  if current =? 2 then ProcessController.Threw None
  else ProcessController.Returned tt.

(** An error store that holds nothing and takes what is written. *)
Definition emptyStore : ErrorTracker.Storage :=
  ErrorTracker.mkStorage None None true.

(** The errors of type PARSE_ERROR: row, identifier of the row, field
    and message. *)
Definition parseErrors (errors : list ProcessingError)
  : list (Z * string * string * string) :=
  map (fun e => (err_row e, err_rowId e, err_field e, err_message e))
      (filter (fun e => ErrorType_eqb (err_errorType e) PARSE_ERROR) errors).

(** An error of the loop over the required fields. *)
Definition isRequiredMissing (e : ProcessingError) : bool :=
  ErrorType_eqb (err_errorType e) REQUIRED_FIELD_MISSING.

(** The property is absent, or holds nothing but white space. *)
Definition isBlank (v : option string) : bool :=
  match v with
  | None => true
  | Some s => forallChars isWhiteSpace s
  end.

(** The errors of [validateDETRecord] on the three tracking fields. *)
Definition trackingRules (record : Record_) : list ErrorBody :=
  List.concat
    [ recordTypeRule record;
      flat_map (requiredRule "DET" record) REQUIRED_DET_FIELDS;
      formatRule record "record_sequence" isNumeric
        (fun v => "Record sequence must be numeric, got: " ++ v)
        "Provide a numeric sequence number" ].

(** The column index points at the first header that is the field of
    the error; there is none when no header is. *)
Definition pointsAtField (headers : list string) (e : ProcessingError) : Prop :=
  match err_columnIndex e with
  | Some c =>
      0 <= c
      /\ nth_error headers (Z.to_nat c) = Some (err_field e)
      /\ forall j, (j < Z.to_nat c)%nat -> nth_error headers j <> Some (err_field e)
  | None => ~ In (err_field e) headers
  end.

(** The length of the first cell of a line of CSV text, as a reader
    of the format finds it: for a line that opens with a quote, up to
    the quote that closes it, a pair of quotes standing for one quote
    of the value; otherwise up to the first comma.  [quotedLength]
    counts from behind the opening quote. *)
Fixpoint quotedLength (s : string) : nat :=
  match s with
  | EmptyString => 0
  | String c r =>
      if Ascii.eqb c (ascii_of_N 34) then
        match r with
        | String d r' =>
            if Ascii.eqb d (ascii_of_N 34) then S (S (quotedLength r')) else 1
        | EmptyString => 1
        end
      else S (quotedLength r)
  end.

Fixpoint plainLength (s : string) : nat :=
  match s with
  | EmptyString => 0
  | String c r => if Ascii.eqb c "," then 0 else S (plainLength r)
  end.

(** What may follow a cell in a line: nothing, or a comma. *)
Definition endsCell (rest : string) : Prop :=
  rest = "" \/ exists r, rest = String "," r.

Definition firstCellLength (s : string) : nat :=
  match s with
  | EmptyString => 0
  | String c r =>
      if Ascii.eqb c (ascii_of_N 34) then S (quotedLength r) else plainLength s
  end.

End Terms.

(* ================================================================= *)
(** * Properties *)

Import ErrorTracker Validator CsvProcessor DefaultMappings Transformer Spec.

(** ** Objects *)

Section ObjectFacts.
Context {V : Type}.
Implicit Types (o : obj V) (k : string) (v : V).

Lemma get_set_same o k v : get (set o k v) k = Some v.
Proof.
  induction o as [|[k' v'] o IH]; simpl.
  - now rewrite String.eqb_refl.
  - destruct (k' =? k)%string eqn:E; simpl.
    + now rewrite String.eqb_refl.
    + now rewrite E.
Qed.

Lemma get_set_other o k k' v : k <> k' -> get (set o k v) k' = get o k'.
Proof.
  intros Hne. induction o as [|[k0 v0] o IH]; simpl.
  - destruct (k =? k')%string eqn:E; [apply String.eqb_eq in E; contradiction|reflexivity].
  - destruct (k0 =? k)%string eqn:E; simpl.
    + apply String.eqb_eq in E; subst k0.
      destruct (k =? k')%string eqn:E'; [apply String.eqb_eq in E'; contradiction|reflexivity].
    + now rewrite IH.
Qed.

Lemma get_del_same o k : get (del o k) k = None.
Proof.
  induction o as [|[k' v'] o IH]; simpl; [reflexivity|].
  destruct (k' =? k)%string eqn:E; simpl; [assumption|now rewrite E].
Qed.

Lemma get_del_other o k k' : k <> k' -> get (del o k) k' = get o k'.
Proof.
  intros Hne. induction o as [|[k0 v0] o IH]; simpl; [reflexivity|].
  destruct (k0 =? k)%string eqn:E; simpl.
  - apply String.eqb_eq in E; subst k0.
    destruct (k =? k')%string eqn:E'; [apply String.eqb_eq in E'; contradiction|assumption].
  - now rewrite IH.
Qed.

Lemma del_absent o k : get o k = None -> del o k = o.
Proof.
  induction o as [|[k' v'] o IH]; simpl; [reflexivity|].
  destruct (k' =? k)%string; [discriminate|].
  intros H. now rewrite IH.
Qed.

End ObjectFacts.

Lemma strictEq_true v lit : strictEq v lit = true <-> v = Some lit.
Proof.
  destruct v as [s|]; simpl.
  - rewrite String.eqb_eq. split; [now intros ->|now intros [= ->]].
  - split; discriminate.
Qed.

Lemma truthy_true v : truthy v = true <-> exists s, v = Some s /\ s <> "".
Proof.
  destruct v as [s|]; simpl.
  - destruct (s =? "")%string eqn:E; simpl.
    + apply String.eqb_eq in E. split; [discriminate|].
      intros (s' & [= <-] & Hne). contradiction.
    + apply String.eqb_neq in E. split; [|reflexivity].
      intros _. now exists s.
  - split; [discriminate|]. now intros (s & H & _).
Qed.

(** ** C1: the compliance gate *)

(** C1. For every employee or detail record, [isPayrollReady] returns
    true if and only if [i9_status] is exactly "Completed" and
    [e_verify_status] is exactly "Authorized"; every other combination,
    missing and empty fields included, returns false. *)
Theorem isPayrollReady_iff (record : Record_) :
  (isPayrollReady record = true <->
     get record "i9_status" = Some "Completed"
     /\ get record "e_verify_status" = Some "Authorized")
  /\ (isPayrollReady record = false <->
        get record "i9_status" <> Some "Completed"
        \/ get record "e_verify_status" <> Some "Authorized").
Proof.
  unfold isPayrollReady. split.
  - rewrite andb_true_iff, !strictEq_true. reflexivity.
  - rewrite andb_false_iff.
    destruct (strictEq (get record "i9_status") "Completed") eqn:E1;
      destruct (strictEq (get record "e_verify_status") "Authorized") eqn:E2;
      try apply strictEq_true in E1; try apply strictEq_true in E2.
    + split; [intros [H|H]; discriminate|]. intros [H|H]; contradiction.
    + split; [|auto]. intros _. right. intros H.
      apply strictEq_true in H. congruence.
    + split; [|auto]. intros _. left. intros H.
      apply strictEq_true in H. congruence.
    + split; [|auto]. intros _. left. intros H.
      apply strictEq_true in H. congruence.
Qed.

(** Scenario D and an employee who passes the gate. *)
Lemma isPayrollReady_iff_witness :
  isPayrollReady scenarioD = false
  /\ isPayrollReady (employeeBornOn "1990-05-15") = true.
Proof.
  split.
  - apply (proj2 (isPayrollReady_iff scenarioD)). left. discriminate.
  - apply (proj1 (isPayrollReady_iff (employeeBornOn "1990-05-15"))).
    split; reflexivity.
Defined.

(** ** C7: rows without combined fields *)

(** C7. For every row that has none of the combined fields
    [home_address], [work_address] and [full_name] (each is absent, or
    empty, which the source does not tell apart), [processMessyData]
    returns a row equal to its input and appends no warning to the
    caller's list; it does not read the clock or the random generator
    either. *)
Theorem processMessyData_canonical_noop
    (row : Record_) (rowIndex : Z) (ws : list ProcessingWarning) (w : World) :
  truthy (get row "home_address") = false ->
  truthy (get row "work_address") = false ->
  truthy (get row "full_name") = false ->
  processMessyData row rowIndex ws w = ((row, ws), w).
Proof.
  intros Hh Hw Hn.
  unfold processMessyData, bind, splitAddress, splitName.
  cbn [String.append].
  rewrite Hh, andb_false_r. unfold ret at 1.
  rewrite Hw, andb_false_r. unfold ret at 1.
  rewrite Hn, andb_false_r. reflexivity.
Qed.

(** A row in canonical form. *)
Lemma processMessyData_canonical_noop_witness :
  processMessyData (employeeBornOn "1990-05-15") 3 [] sampleWorld
  = ((employeeBornOn "1990-05-15", []), sampleWorld).
Proof. apply processMessyData_canonical_noop; reflexivity. Defined.

(** ** The validators: which rule yields which error *)

Lemma filter_none {A : Type} (p : A -> bool) (l : list A) :
  (forall x, In x l -> p x = false) -> filter p l = [].
Proof.
  induction l as [|a l IH]; simpl; intros H; [reflexivity|].
  rewrite (H a (or_introl eq_refl)). apply IH. intros x Hx. apply H. now right.
Qed.

Lemma filter_all {A : Type} (p : A -> bool) (l : list A) :
  (forall x, In x l -> p x = true) -> filter p l = l.
Proof.
  induction l as [|a l IH]; simpl; intros H; [reflexivity|].
  rewrite (H a (or_introl eq_refl)). f_equal. apply IH.
  intros x Hx. apply H. now right.
Qed.

Lemma formatRule_In record field valid message fix_ b :
  In b (formatRule record field valid message fix_) ->
  body_field b = field /\ body_errorType b = INVALID_FORMAT.
Proof.
  unfold formatRule.
  destruct (truthy (get record field) && negb (valid (show (get record field))));
    simpl; [|contradiction].
  intros [<-|[]]. now split.
Qed.

Lemma recordTypeRule_In record b :
  In b (recordTypeRule record) ->
  body_field b = "record_type" /\ body_errorType b = INVALID_FORMAT.
Proof.
  unfold recordTypeRule.
  destruct (negb (strictEq (get record "record_type") "DET")); simpl;
    [|contradiction].
  intros [<-|[]]. now split.
Qed.

Lemma requiredRule_In kind record field b :
  In b (requiredRule kind record field) ->
  body_errorType b = REQUIRED_FIELD_MISSING.
Proof.
  unfold requiredRule. destruct (isMissing (get record field)); simpl;
    [|contradiction].
  now intros [<-|[]].
Qed.

Lemma requiredRules_In kind record fields b :
  In b (flat_map (requiredRule kind record) fields) ->
  body_errorType b = REQUIRED_FIELD_MISSING.
Proof.
  rewrite in_flat_map. intros (f & _ & H). now apply requiredRule_In in H.
Qed.

Lemma splitRule_In record b :
  In b (splitRule record) ->
  body_field b = "dd1_split_value" /\ body_errorType b = BUSINESS_LOGIC_ERROR.
Proof.
  unfold splitRule.
  destruct (strictEq (get record "dd1_split_type") "Percent"
            && truthy (get record "dd1_split_value")); [|contradiction].
  cbv zeta. rewrite in_app_iff. intros [H|H].
  - destruct (isNaN _ || _ || _); [|contradiction].
    destruct H as [<-|[]]. now split.
  - destruct (strictEq (get record "dd2_split_type") "Percent"
              && truthy (get record "dd2_split_value")); [|contradiction].
    destruct (negb _ && negb _); [|contradiction].
    destruct (gt _ _); [|contradiction].
    destruct H as [<-|[]]. now split.
Qed.

(** The errors that the validators return carry the bodies that the
    rules decided, in the same order. *)
Lemma createErrors_bodies rowId rowIndex columnIndex bodies w :
  map bodyOf (fst (createErrors rowId rowIndex columnIndex bodies w)) = bodies.
Proof.
  revert w. induction bodies as [|b bodies IH]; intros w; [reflexivity|].
  simpl. unfold bind, createError, bind, generateErrorId, isoTimestamp, ret.
  simpl.
  specialize (IH (advance (advance w))).
  destruct (createErrors rowId rowIndex columnIndex bodies (advance (advance w)))
    as [es w'] eqn:E.
  simpl in *. rewrite IH. now destruct b.
Qed.

Lemma validateEmployeeRecord_bodies record rowIndex headers w :
  map bodyOf (fst (validateEmployeeRecord record rowIndex headers w))
  = employeeRules record.
Proof. apply createErrors_bodies. Qed.

Lemma validateDETRecord_bodies record rowIndex w :
  map bodyOf (fst (validateDETRecord record rowIndex w)) = detRules record.
Proof. apply createErrors_bodies. Qed.

(** Only the split rule yields business logic errors. *)
Ltac drop_rule lemma :=
  rewrite filter_none;
  [|let b := fresh "b" in let Hb := fresh "Hb" in
    intros b Hb; apply lemma in Hb;
    match type of Hb with
    | _ /\ _ => destruct Hb as [_ Hb]
    | _ => idtac
    end;
    unfold isBusinessLogic; rewrite Hb; reflexivity].

Lemma formatRules_business record :
  filter isBusinessLogic (formatRules record) = splitRule record.
Proof.
  unfold formatRules. rewrite <- concat_filter_map. cbn [map].
  rewrite (filter_all _ (splitRule record)).
  2:{ intros b Hb. apply splitRule_In in Hb as [_ Hb].
      unfold isBusinessLogic. now rewrite Hb. }
  repeat drop_rule formatRule_In.
  cbn [List.concat app]. apply app_nil_r.
Qed.

Lemma employeeRules_business record :
  filter isBusinessLogic (employeeRules record) = splitRule record.
Proof.
  unfold employeeRules. rewrite <- concat_filter_map. cbn [map].
  rewrite formatRules_business.
  drop_rule requiredRules_In.
  cbn [List.concat app]. apply app_nil_r.
Qed.

Lemma detRules_business record :
  filter isBusinessLogic (detRules record) = splitRule record.
Proof.
  unfold detRules. rewrite <- concat_filter_map. cbn [map].
  rewrite formatRules_business.
  drop_rule recordTypeRule_In.
  drop_rule requiredRules_In. drop_rule formatRule_In.
  drop_rule requiredRules_In.
  cbn [List.concat app]. apply app_nil_r.
Qed.

(** ** C2: the sum of the split percentages *)

Lemma parseFloat_notNaN_nonempty v :
  isNaN (parseFloat v) = false -> truthy (Some v) = true.
Proof.
  destruct v; [discriminate|reflexivity].
Qed.

Lemma splitRule_percent record v1 v2 :
  get record "dd1_split_type" = Some "Percent" ->
  get record "dd2_split_type" = Some "Percent" ->
  get record "dd1_split_value" = Some v1 ->
  get record "dd2_split_value" = Some v2 ->
  inPercentRange (parseFloat v1) = true ->
  isNaN (parseFloat v2) = false ->
  splitRule record =
  if sumOffBy (parseFloat v1) (parseFloat v2) then [splitSumBody v1 v2] else [].
Proof.
  intros T1 T2 V1 V2 R1 N2.
  unfold inPercentRange in R1.
  apply andb_true_iff in R1 as [R1 Hgt].
  apply andb_true_iff in R1 as [N1 Hlt].
  apply negb_true_iff in N1, Hlt, Hgt.
  unfold splitRule. rewrite T1, T2, V1, V2.
  cbn [strictEq show]. rewrite !String.eqb_refl.
  rewrite (parseFloat_notNaN_nonempty _ N1), (parseFloat_notNaN_nonempty _ N2).
  cbn [andb]. rewrite N1, N2, Hlt, Hgt. cbn [orb negb andb app].
  reflexivity.
Qed.

(** C2. For every record whose two split types are "Percent" with
    numeric split values in the range 0 to 100, both validators return a
    business logic error for the sum of the splits if and only if
    [abs(p1 + p2 - 100) > 0.01], in the arithmetic of the numbers of the
    program; it is then their only business logic error, on the field
    [dd1_split_value].  In particular the values 60 and 45 yield exactly
    one such error, whose message cites the total 105%. *)
Theorem split_sum_rule
    (record : Record_) (rowIndex : Z) (headers : option (list string))
    (w : World) (v1 v2 : string) :
  get record "dd1_split_type" = Some "Percent" ->
  get record "dd2_split_type" = Some "Percent" ->
  get record "dd1_split_value" = Some v1 ->
  get record "dd2_split_value" = Some v2 ->
  inPercentRange (parseFloat v1) = true ->
  inPercentRange (parseFloat v2) = true ->
  let found :=
    filter isBusinessLogic
      (map bodyOf (fst (validateEmployeeRecord record rowIndex headers w))) in
  let foundDet :=
    filter isBusinessLogic
      (map bodyOf (fst (validateDETRecord record rowIndex w))) in
  found = (if sumOffBy (parseFloat v1) (parseFloat v2)
           then [splitSumBody v1 v2] else [])
  /\ foundDet = found
  /\ (In (splitSumBody v1 v2) found
      <-> sumOffBy (parseFloat v1) (parseFloat v2) = true)
  /\ (v1 = "60" -> v2 = "45" ->
      found =
      [mkErrorBody "dd1_split_value" "60 + 45" BUSINESS_LOGIC_ERROR
         "Direct deposit split percentages must sum to 100%, got: 105%"
         "Adjust split values so they sum to 100%"]).
Proof.
  intros T1 T2 V1 V2 R1 R2 found foundDet.
  assert (N2 : isNaN (parseFloat v2) = false).
  { unfold inPercentRange in R2.
    apply andb_true_iff in R2 as [R2 _]. apply andb_true_iff in R2 as [R2 _].
    now apply negb_true_iff in R2. }
  assert (Hf : found = if sumOffBy (parseFloat v1) (parseFloat v2)
                       then [splitSumBody v1 v2] else []).
  { unfold found.
    rewrite validateEmployeeRecord_bodies, employeeRules_business.
    now apply splitRule_percent. }
  assert (Hd : foundDet = found).
  { rewrite Hf. unfold foundDet.
    rewrite validateDETRecord_bodies, detRules_business.
    now apply splitRule_percent. }
  repeat split; try assumption.
  - rewrite Hf. destruct (sumOffBy _ _); [reflexivity|intros []].
  - intros Hs. rewrite Hf, Hs. now left.
  - intros -> ->. rewrite Hf. vm_compute. reflexivity.
Qed.

(** Scenario A, on the row that has exactly the four fields; and the
    same row with 40 in place of 45, which has no such error. *)
Lemma split_sum_rule_witness :
  filter isBusinessLogic
    (map bodyOf (fst (validateEmployeeRecord scenarioA 0 None sampleWorld)))
  = [mkErrorBody "dd1_split_value" "60 + 45" BUSINESS_LOGIC_ERROR
       "Direct deposit split percentages must sum to 100%, got: 105%"
       "Adjust split values so they sum to 100%"]
  /\ filter isBusinessLogic
       (map bodyOf (fst (validateDETRecord scenarioA 0 sampleWorld)))
     = [mkErrorBody "dd1_split_value" "60 + 45" BUSINESS_LOGIC_ERROR
          "Direct deposit split percentages must sum to 100%, got: 105%"
          "Adjust split values so they sum to 100%"]
  /\ filter isBusinessLogic
       (map bodyOf
          (fst (validateEmployeeRecord (set scenarioA "dd2_split_value" "40")
                  0 None sampleWorld)))
     = [].
Proof.
  assert (R1 : inPercentRange (parseFloat "60") = true) by (vm_compute; reflexivity).
  assert (R2 : inPercentRange (parseFloat "45") = true) by (vm_compute; reflexivity).
  assert (R3 : inPercentRange (parseFloat "40") = true) by (vm_compute; reflexivity).
  destruct (split_sum_rule scenarioA 0 None sampleWorld "60" "45"
              eq_refl eq_refl eq_refl eq_refl R1 R2) as (_ & Hd & _ & Hs).
  destruct (split_sum_rule (set scenarioA "dd2_split_value" "40") 0 None
              sampleWorld "60" "40" eq_refl eq_refl eq_refl eq_refl R1 R3)
    as (Hnone & _).
  split; [apply Hs; reflexivity|].
  split; [rewrite Hd; apply Hs; reflexivity|].
  rewrite Hnone. vm_compute. reflexivity.
Defined.

(** ** The validators: the format errors on one field *)

Lemma formatRule_formatOn f record g valid message fix_ :
  filter (isFormatErrorOn f) (formatRule record g valid message fix_)
  = if (g =? f)%string then formatRule record g valid message fix_ else [].
Proof.
  destruct (g =? f)%string eqn:E.
  - apply filter_all. intros b Hb. apply formatRule_In in Hb as [Hf Ht].
    unfold isFormatErrorOn. now rewrite Hf, Ht, E.
  - apply filter_none. intros b Hb. apply formatRule_In in Hb as [Hf Ht].
    unfold isFormatErrorOn. rewrite Hf, E. apply andb_false_r.
Qed.

Lemma recordTypeRule_formatOn f record :
  filter (isFormatErrorOn f) (recordTypeRule record)
  = if ("record_type" =? f)%string then recordTypeRule record else [].
Proof.
  destruct ("record_type" =? f)%string eqn:E.
  - apply filter_all. intros b Hb. apply recordTypeRule_In in Hb as [Hf Ht].
    unfold isFormatErrorOn. now rewrite Hf, Ht, E.
  - apply filter_none. intros b Hb. apply recordTypeRule_In in Hb as [Hf Ht].
    unfold isFormatErrorOn. rewrite Hf, E. apply andb_false_r.
Qed.

Lemma requiredRules_formatOn f kind record fields :
  filter (isFormatErrorOn f) (flat_map (requiredRule kind record) fields) = [].
Proof.
  apply filter_none. intros b Hb. apply requiredRules_In in Hb.
  unfold isFormatErrorOn. now rewrite Hb.
Qed.

Lemma splitRule_formatOn f record :
  filter (isFormatErrorOn f) (splitRule record) = [].
Proof.
  apply filter_none. intros b Hb. apply splitRule_In in Hb as [_ Hb].
  unfold isFormatErrorOn. now rewrite Hb.
Qed.

(** Reduces the selection of the format errors on a literal field to
    the rule of that field. *)
Ltac select_field :=
  unfold employeeRules, detRules;
  rewrite <- ?concat_filter_map; cbn [map];
  unfold formatRules;
  rewrite <- ?concat_filter_map; cbn [map];
  rewrite ?formatRule_formatOn, ?recordTypeRule_formatOn,
    ?requiredRules_formatOn, ?splitRule_formatOn;
  cbn [String.eqb Ascii.eqb Bool.eqb List.concat app];
  rewrite ?app_nil_r.

Lemma employeeRules_dob record :
  filter (isFormatErrorOn "dob") (employeeRules record)
  = formatRule record "dob" isValidDate
      (fun v => "Date of birth must be in YYYY-MM-DD format, got: " ++ v)
      "Format as YYYY-MM-DD (e.g., 1990-05-15)".
Proof. select_field. reflexivity. Qed.

Lemma detRules_dob record :
  filter (isFormatErrorOn "dob") (detRules record)
  = formatRule record "dob" isValidDate
      (fun v => "Date of birth must be in YYYY-MM-DD format, got: " ++ v)
      "Format as YYYY-MM-DD (e.g., 1990-05-15)".
Proof. select_field. reflexivity. Qed.

Lemma employeeRules_annual_salary record :
  filter (isFormatErrorOn "annual_salary") (employeeRules record)
  = formatRule record "annual_salary" isNumeric
      (fun v => "Annual salary must be numeric, got: " ++ v)
      "Provide a numeric value (e.g., 120000)".
Proof. select_field. reflexivity. Qed.

Lemma detRules_annual_salary record :
  filter (isFormatErrorOn "annual_salary") (detRules record)
  = formatRule record "annual_salary" isNumeric
      (fun v => "Annual salary must be numeric, got: " ++ v)
      "Provide a numeric value (e.g., 120000)".
Proof. select_field. reflexivity. Qed.

Lemma detRules_record_sequence record :
  filter (isFormatErrorOn "record_sequence") (detRules record)
  = formatRule record "record_sequence" isNumeric
      (fun v => "Record sequence must be numeric, got: " ++ v)
      "Provide a numeric sequence number".
Proof. select_field. reflexivity. Qed.

Lemma formatRule_present record field valid message fix_ v :
  get record field = Some v -> v <> "" ->
  formatRule record field valid message fix_
  = if valid v then [] else [mkErrorBody field v INVALID_FORMAT (message v) fix_].
Proof.
  intros Hg Hv. unfold formatRule. rewrite Hg. cbn [truthy show].
  apply String.eqb_neq in Hv. rewrite Hv. cbn [negb andb].
  now destruct (valid v).
Qed.

(** ** C6: the format of the date of birth *)

(** The regular expression of [isValidDate] accepts the strings made of
    four digits, a dash, two digits, a dash and two digits. *)
Lemma dateRegex_dashed422 s : fullMatch dateRegex s = isDashed422 s.
Proof.
  unfold fullMatch, dateRegex, isDashed422.
  cbn -[isDigit Ascii.eqb].
  repeat (destruct s as [|? s];
          [cbn -[isDigit Ascii.eqb]; rewrite ?andb_false_r; reflexivity|]).
  destruct s; cbn -[isDigit Ascii.eqb];
    rewrite ?andb_false_r, ?andb_true_r, ?andb_assoc; reflexivity.
Qed.

Lemma isValidDate_spec s :
  isValidDate s = isDashed422 s && (hasDateRanges s || hasLegacyReading s).
Proof.
  unfold isValidDate, parseDate, hasDateRanges, hasLegacyReading,
    isMonthNumber, isDayNumber, yearOf, monthOf, dayOf.
  rewrite dateRegex_dashed422.
  destruct (isDashed422 s); cbn [negb andb]; [|reflexivity].
  set (y := digitsValue 0 (String.substring 0 4 s)).
  set (m := digitsValue 0 (String.substring 5 2 s)).
  set (d := digitsValue 0 (String.substring 8 2 s)).
  destruct (1 <=? m) eqn:M1, (m <=? 12) eqn:M12, (1 <=? d) eqn:D1,
           (d <=? 31) eqn:D31, (1 <=? y) eqn:Y1, (y <=? 31) eqn:Y31,
           (y <=? 12) eqn:Y12, (m <=? 31) eqn:M31;
    cbn [andb orb]; try reflexivity;
    rewrite ?Z.leb_le, ?Z.leb_gt in *; lia.
Qed.

Lemma calendarDate_hasDateRanges s :
  isCalendarDate s = true -> hasDateRanges s = true.
Proof.
  unfold isCalendarDate, hasDateRanges, daysInMonth.
  rewrite !andb_true_iff, !Z.leb_le. intros [[[H1 H2] H3] H4].
  repeat split; try assumption.
  destruct (monthOf s =? 2); [destruct (isLeapYear _); lia|].
  destruct (_ || _); lia.
Qed.

(** C6. What the validators do with a date of birth.  For every
    record with a non-empty [dob], both return an [INVALID_FORMAT] error
    on [dob], with the original string as its value, if and only if
    [dob] fails the pattern of four, two and two digits separated by
    dashes, or [new Date] does not read it: its month is not 01 to 12
    or its day not 01 to 31, and its year and month fields are not a
    month from 0001 to 0012 followed by a day from 01 to 31, which V8
    reads as month, day and year.  A date of the calendar is never
    rejected, and "13/45/2025" yields exactly one such error with the
    value "13/45/2025".  But strings with the pattern that are not dates
    of the calendar are accepted: "2025-02-30" yields no error, because
    [new Date] carries the day into the next month, and neither does
    "0001-13-01", which is read as the 13th of January 2001. *)
Theorem dob_format_rule
    (record : Record_) (rowIndex : Z) (headers : option (list string))
    (w : World) (d : string) :
  get record "dob" = Some d ->
  d <> "" ->
  let found :=
    filter (isFormatErrorOn "dob")
      (map bodyOf (fst (validateEmployeeRecord record rowIndex headers w))) in
  let foundDet :=
    filter (isFormatErrorOn "dob")
      (map bodyOf (fst (validateDETRecord record rowIndex w))) in
  found = (if isDashed422 d && (hasDateRanges d || hasLegacyReading d)
           then [] else [dobBody d])
  /\ foundDet = found
  /\ (In (dobBody d) found
      <-> isDashed422 d && (hasDateRanges d || hasLegacyReading d) = false)
  /\ (isDashed422 d && isCalendarDate d = true -> found = [])
  /\ (d = "13/45/2025" -> found = [dobBody "13/45/2025"])
  /\ (d = "2025-02-30" ->
      isDashed422 d = true /\ isCalendarDate d = false /\ found = []
      /\ option_map makeDay (parseDate d)
         = option_map makeDay (parseDate "2025-03-02"))
  /\ (d = "0001-13-01" ->
      isDashed422 d = true /\ isCalendarDate d = false /\ found = []
      /\ parseDate d = Some (mkDateFields false 2001 0 13)).
Proof.
  intros Hg Hd found foundDet.
  assert (Hf : found = if isDashed422 d && (hasDateRanges d || hasLegacyReading d)
                       then [] else [dobBody d]).
  { unfold found.
    rewrite validateEmployeeRecord_bodies, employeeRules_dob.
    rewrite (formatRule_present _ _ _ _ _ d Hg Hd), isValidDate_spec.
    reflexivity. }
  assert (Hdet : foundDet = found).
  { rewrite Hf. unfold foundDet.
    rewrite validateDETRecord_bodies, detRules_dob.
    rewrite (formatRule_present _ _ _ _ _ d Hg Hd), isValidDate_spec.
    reflexivity. }
  split; [exact Hf|]. split; [exact Hdet|].
  split; [|split; [|split; [|split]]].
  - rewrite Hf. destruct (_ && _); [|now split; [|left]].
    split; [intros []|discriminate].
  - intros Hc. rewrite Hf.
    apply andb_true_iff in Hc as [H1 H2].
    now rewrite H1, (calendarDate_hasDateRanges _ H2).
  - intros ->. rewrite Hf. reflexivity.
  - intros ->. rewrite Hf. repeat split.
  - intros ->. rewrite Hf. repeat split.
Qed.

(** Scenario E on an employee whose other fields are all valid, where
    the validator returns one error and no other; and the same employee
    born on "2025-02-30" or on "0001-13-01", for whom it returns none. *)
Lemma dob_format_rule_witness :
  map bodyOf
    (fst (validateEmployeeRecord (employeeBornOn "13/45/2025") 0 None sampleWorld))
  = [dobBody "13/45/2025"]
  /\ filter (isFormatErrorOn "dob")
       (map bodyOf
          (fst (validateEmployeeRecord (employeeBornOn "13/45/2025") 0 None
                  sampleWorld)))
     = [dobBody "13/45/2025"]
  /\ isCalendarDate "2025-02-30" = false
  /\ fst (validateEmployeeRecord (employeeBornOn "2025-02-30") 0 None sampleWorld)
     = []
  /\ filter (isFormatErrorOn "dob")
       (map bodyOf
          (fst (validateDETRecord (employeeBornOn "2025-02-30") 0 sampleWorld)))
     = []
  /\ isCalendarDate "0001-13-01" = false
  /\ fst (validateEmployeeRecord (employeeBornOn "0001-13-01") 0 None sampleWorld)
     = [].
Proof.
  assert (Hne : "13/45/2025" <> "") by discriminate.
  assert (Hne' : "2025-02-30" <> "") by discriminate.
  pose proof (dob_format_rule (employeeBornOn "13/45/2025") 0 None sampleWorld
                "13/45/2025" eq_refl Hne) as HE.
  pose proof (dob_format_rule (employeeBornOn "2025-02-30") 0 None sampleWorld
                "2025-02-30" eq_refl Hne') as HF.
  cbv zeta in HE, HF.
  destruct HE as (_ & _ & _ & _ & HE & _).
  destruct HF as (_ & HFdet & _ & _ & _ & HF & _).
  destruct (HF eq_refl) as (_ & Hcal & Hnone & _).
  split; [vm_compute; reflexivity|].
  split; [apply HE; reflexivity|].
  split; [exact Hcal|].
  split; [vm_compute; reflexivity|].
  split; [rewrite HFdet; exact Hnone|].
  split; vm_compute; reflexivity.
Defined.

(** ** C10: numeric checks read a numeric prefix *)

Lemma digit_facts c :
  isDigit c = true ->
  isWhiteSpace c = false
  /\ (forall r, spanSign (String c r) = (false, String c r))
  /\ (forall r, isPrefixOf "Infinity" (String c r) = false).
Proof.
  destruct c as [[] [] [] [] [] [] [] []]; try discriminate;
    intros _; repeat split.
Qed.

Lemma spanDigits_prefix ds c rest :
  forallChars isDigit ds = true ->
  isDigit c = false ->
  spanDigits (ds ++ String c rest) = (ds, String c rest).
Proof.
  intros Hds Hc. induction ds as [|d ds IH].
  - cbn [String.append spanDigits]. now rewrite Hc.
  - cbn [forallChars] in Hds. apply andb_true_iff in Hds as [Hd Hds].
    cbn [String.append spanDigits]. now rewrite Hd, IH.
Qed.

Lemma spanDigits_all ds :
  forallChars isDigit ds = true -> spanDigits ds = (ds, "").
Proof.
  intros Hds. induction ds as [|d ds IH]; [reflexivity|].
  cbn [forallChars] in Hds. apply andb_true_iff in Hds as [Hd Hds].
  cbn [spanDigits]. now rewrite Hd, IH.
Qed.

Lemma string_app_nil_r (s : string) : s ++ "" = s.
Proof. induction s as [|c s IH]; cbn; [reflexivity|now rewrite IH]. Qed.

(** [parseFloat] stops at the first character that cannot continue a
    number. *)
Lemma parseFloat_digit_prefix ds c rest :
  ds <> "" ->
  forallChars isDigit ds = true ->
  isDigit c = false -> c <> "."%char -> c <> "e"%char -> c <> "E"%char ->
  parseFloat (ds ++ String c rest) = parseFloat ds.
Proof.
  intros Hne Hds Hc Hdot He HE.
  destruct ds as [|d ds]; [contradiction|].
  pose proof Hds as Hd. cbn [forallChars] in Hd.
  apply andb_true_iff in Hd as [Hd _].
  destruct (digit_facts d Hd) as (Hws & Hsign & Hinf).
  unfold parseFloat.
  change (String d ds ++ String c rest) with (String d (ds ++ String c rest)).
  cbn [trimStart]. rewrite Hws, !Hsign, !Hinf.
  change (String d (ds ++ String c rest)) with (String d ds ++ String c rest).
  rewrite (spanDigits_prefix _ _ _ Hds Hc), (spanDigits_all _ Hds).
  assert (Hfrac : match String c rest with
                  | String "." r => spanDigits r
                  | _ => ("", String c rest)
                  end = ("", String c rest)).
  { destruct c as [[] [] [] [] [] [] [] []]; try reflexivity. now elim Hdot. }
  rewrite Hfrac.
  assert (Hexp : parseExponent (String c rest) = 0).
  { unfold parseExponent.
    destruct (Ascii.eqb_spec c "e"); [contradiction|].
    destruct (Ascii.eqb_spec c "E"); [contradiction|]. reflexivity. }
  rewrite Hexp. reflexivity.
Qed.

(** C10. There are strings that are not numbers and pass the numeric
    checks: [isNumeric] is true of "12abc" and of "7xyz", because
    [parseFloat] reads the leading "12" and "7" only (it reads any
    leading digits and ignores what follows a character that cannot
    continue the number); so neither validator returns an
    [INVALID_FORMAT] error on an [annual_salary] of "12abc", nor
    [validateDETRecord] on a [record_sequence] of "7xyz". *)
Theorem isNumeric_accepts_numeric_prefix :
  isNumeric "12abc" = true
  /\ isNumeric "7xyz" = true
  /\ forallChars isDigit "12abc" = false
  /\ forallChars isDigit "7xyz" = false
  /\ parseFloat "12abc" = parseFloat "12"
  /\ parseFloat "7xyz" = parseFloat "7"
  /\ (forall ds c rest,
        ds <> "" -> forallChars isDigit ds = true ->
        isDigit c = false -> c <> "."%char -> c <> "e"%char -> c <> "E"%char ->
        parseFloat (ds ++ String c rest) = parseFloat ds
        /\ isNumeric (ds ++ String c rest) = isNumeric ds)
  /\ (forall record rowIndex headers w,
        get record "annual_salary" = Some "12abc" ->
        filter (isFormatErrorOn "annual_salary")
          (map bodyOf (fst (validateEmployeeRecord record rowIndex headers w)))
        = []
        /\ filter (isFormatErrorOn "annual_salary")
             (map bodyOf (fst (validateDETRecord record rowIndex w)))
           = [])
  /\ (forall record rowIndex w,
        get record "record_sequence" = Some "7xyz" ->
        filter (isFormatErrorOn "record_sequence")
          (map bodyOf (fst (validateDETRecord record rowIndex w)))
        = []).
Proof.
  assert (N1 : isNumeric "12abc" = true) by (vm_compute; reflexivity).
  assert (N2 : isNumeric "7xyz" = true) by (vm_compute; reflexivity).
  split; [exact N1|]. split; [exact N2|].
  split; [reflexivity|]. split; [reflexivity|].
  split; [vm_compute; reflexivity|]. split; [vm_compute; reflexivity|].
  split.
  { intros ds c rest H1 H2 H3 H4 H5 H6. unfold isNumeric.
    now rewrite (parseFloat_digit_prefix ds c rest H1 H2 H3 H4 H5 H6). }
  split.
  - intros record rowIndex headers w H. split.
    + rewrite validateEmployeeRecord_bodies, employeeRules_annual_salary.
      rewrite (formatRule_present _ _ _ _ _ "12abc" H); [|discriminate].
      now rewrite N1.
    + rewrite validateDETRecord_bodies, detRules_annual_salary.
      rewrite (formatRule_present _ _ _ _ _ "12abc" H); [|discriminate].
      now rewrite N1.
  - intros record rowIndex w H.
    rewrite validateDETRecord_bodies, detRules_record_sequence.
    rewrite (formatRule_present _ _ _ _ _ "7xyz" H); [|discriminate].
    now rewrite N2.
Qed.

(** An employee valid in every other field and paid "12abc" passes
    [validateEmployeeRecord] without any error. *)
Lemma isNumeric_accepts_numeric_prefix_witness :
  fst (validateEmployeeRecord
         (set (employeeBornOn "1990-05-15") "annual_salary" "12abc")
         0 None sampleWorld) = []
  /\ filter (isFormatErrorOn "annual_salary")
       (map bodyOf
          (fst (validateEmployeeRecord
                  (set (employeeBornOn "1990-05-15") "annual_salary" "12abc")
                  0 None sampleWorld))) = [].
Proof.
  split.
  - vm_compute. reflexivity.
  - destruct isNumeric_accepts_numeric_prefix
      as (_ & _ & _ & _ & _ & _ & _ & Hsalary & _).
    apply (Hsalary _ 0 None sampleWorld). vm_compute. reflexivity.
Defined.

(** ** C5: combined home address *)

(** The rule for the work address leaves the other fields alone and
    appends at most a warning on [work_address]. *)
Lemma splitAddress_work_frame rowId rowIndex
    (st : Record_ * list ProcessingWarning) w :
  let out := fst (splitAddress "work" rowId rowIndex st w) in
  (forall k, k <> "work_street" -> k <> "work_city" -> k <> "work_state" ->
             k <> "work_zip" -> k <> "work_address" ->
             get (fst out) k = get (fst st) k)
  /\ exists extra, snd out = (snd st ++ extra)%list
                   /\ warningsOn "home_address" extra = [].
Proof.
  destruct st as [row ws]. unfold splitAddress. cbn [String.append fst snd].
  destruct (negb (truthy (get row "work_street")) && truthy (get row "work_address")).
  - destruct (parseAddress (show (get row "work_address"))) as [p|].
    + unfold bind, createWarning, bind, generateErrorId, isoTimestamp, ret.
      cbn [fst snd]. split.
      * intros k H1 H2 H3 H4 H5.
        rewrite get_del_other, !get_set_other by congruence. reflexivity.
      * eexists. split; [reflexivity|]. reflexivity.
    + unfold ret. cbn [fst snd]. split.
      * intros k H1 H2 H3 H4 H5. now rewrite get_del_other by congruence.
      * exists []. now rewrite app_nil_r.
  - unfold ret. cbn [fst snd]. split; [reflexivity|].
    exists []. now rewrite app_nil_r.
Qed.

(** So does the rule for the combined name. *)
Lemma splitName_frame rowId rowIndex
    (st : Record_ * list ProcessingWarning) w :
  let out := fst (splitName rowId rowIndex st w) in
  (forall k, k <> "first_name" -> k <> "last_name" -> k <> "full_name" ->
             get (fst out) k = get (fst st) k)
  /\ exists extra, snd out = (snd st ++ extra)%list
                   /\ warningsOn "home_address" extra = [].
Proof.
  destruct st as [row ws]. unfold splitName. cbn [fst snd].
  destruct (negb (truthy (get row "first_name")) && truthy (get row "full_name")).
  - destruct (2 <=? List.length _)%nat.
    + unfold bind, createWarning, bind, generateErrorId, isoTimestamp, ret.
      cbn [fst snd]. split.
      * intros k H1 H2 H3.
        rewrite get_del_other, !get_set_other by congruence. reflexivity.
      * eexists. split; [reflexivity|]. reflexivity.
    + unfold ret. cbn [fst snd]. split.
      * intros k H1 H2 H3. now rewrite get_del_other by congruence.
      * exists []. now rewrite app_nil_r.
  - unfold ret. cbn [fst snd]. split; [reflexivity|].
    exists []. now rewrite app_nil_r.
Qed.

(** The rule for the home address, when the street is empty and the
    combined field is present. *)
Lemma splitAddress_home rowId rowIndex
    (row : Record_) (ws : list ProcessingWarning) w a :
  truthy (get row "home_street") = false ->
  get row "home_address" = Some a ->
  a <> "" ->
  let out := fst (splitAddress "home" rowId rowIndex (row, ws) w) in
  get (fst out) "home_address" = None
  /\ match parseAddress a with
     | Some p =>
         get (fst out) "home_street" = Some (street p)
         /\ get (fst out) "home_city" = Some (city p)
         /\ get (fst out) "home_state" = Some (state p)
         /\ get (fst out) "home_zip" = Some (zip p)
         /\ exists wn, snd out = (ws ++ [wn])%list
                       /\ warn_field wn = "home_address"
                       /\ warn_originalValue wn = a
                       /\ warn_message wn = homeSplitMessage
                       /\ warn_row wn = rowIndex
     | None =>
         (forall k, k <> "home_address" -> get (fst out) k = get row k)
         /\ snd out = ws
     end.
Proof.
  intros Hs Ha Hne. unfold splitAddress. cbn [String.append].
  assert (Ht : truthy (get row "home_address") = true).
  { rewrite Ha. cbn. apply String.eqb_neq in Hne. now rewrite Hne. }
  rewrite Hs, Ht, Ha. cbn [negb andb show].
  destruct (parseAddress a) as [p|].
  - unfold bind, createWarning, bind, generateErrorId, isoTimestamp, ret.
    cbn [fst snd]. split; [apply get_del_same|].
    rewrite !get_del_other by discriminate.
    rewrite get_set_other by discriminate.
    rewrite get_set_other by discriminate.
    rewrite get_set_other by discriminate.
    rewrite get_set_same.
    rewrite get_set_other by discriminate.
    rewrite get_set_other by discriminate.
    rewrite get_set_same.
    rewrite get_set_other by discriminate.
    rewrite !get_set_same.
    repeat split.
    eexists. split; [reflexivity|]. cbn.
    rewrite !get_set_other by discriminate. rewrite Ha. now repeat split.
  - unfold ret. cbn [fst snd]. split; [apply get_del_same|].
    split; [|reflexivity].
    intros k Hk. now rewrite get_del_other by congruence.
Qed.

Lemma splitAddress_home_frame rowId rowIndex
    (st : Record_ * list ProcessingWarning) w k :
  k <> "home_street" -> k <> "home_city" -> k <> "home_state" ->
  k <> "home_zip" -> k <> "home_address" ->
  get (fst (fst (splitAddress "home" rowId rowIndex st w))) k = get (fst st) k.
Proof.
  intros H1 H2 H3 H4 H5.
  destruct st as [row ws]. unfold splitAddress. cbn [String.append fst snd].
  destruct (negb (truthy (get row "home_street")) && truthy (get row "home_address")).
  - destruct (parseAddress (show (get row "home_address"))) as [p|].
    + unfold bind, createWarning, bind, generateErrorId, isoTimestamp, ret.
      cbn [fst snd].
      rewrite get_del_other, !get_set_other by congruence. reflexivity.
    + unfold ret. cbn [fst snd]. now rewrite get_del_other by congruence.
  - reflexivity.
Qed.

Lemma splitAddress_absent prefix rowId rowIndex
    (row : Record_) (ws : list ProcessingWarning) w :
  get row (prefix ++ "_address") = None ->
  splitAddress prefix rowId rowIndex (row, ws) w = ((row, ws), w).
Proof.
  intros H. unfold splitAddress. rewrite H. cbn [truthy].
  now rewrite andb_false_r.
Qed.

Lemma splitName_absent rowId rowIndex
    (row : Record_) (ws : list ProcessingWarning) w :
  get row "full_name" = None ->
  splitName rowId rowIndex (row, ws) w = ((row, ws), w).
Proof.
  intros H. unfold splitName. rewrite H. cbn [truthy].
  now rewrite andb_false_r.
Qed.

Lemma starK_atEnd p s : starK p s atEnd = forallChars p s.
Proof.
  induction s as [|c s IH]; [reflexivity|].
  cbn [starK forallChars atEnd orb]. now rewrite IH.
Qed.

Lemma starK_atEnd' p s : starK p s (fun s' => atEnd s') = forallChars p s.
Proof. apply starK_atEnd. Qed.

Lemma searchToEnd_sound r s m :
  searchToEnd r s = Some m ->
  fullMatch r m = true /\ exists before, s = before ++ m.
Proof.
  induction s as [|c s IH]; cbn [searchToEnd].
  - destruct (fullMatch r "") eqn:E; [|discriminate].
    intros [= <-]. split; [assumption|]. now exists "".
  - destruct (fullMatch r (String c s)) eqn:E.
    + intros [= <-]. split; [assumption|]. now exists "".
    + intros H. destruct (IH H) as [Hm [before ->]].
      split; [assumption|]. now exists (String c before).
Qed.

Lemma substring_0_0 s : String.substring 0 0 s = "".
Proof. now destruct s. Qed.

Ltac split_andb :=
  repeat match goal with
         | H : _ && _ = true |- _ =>
             apply andb_true_iff in H; destruct H
         end.

Ltac rewrite_true :=
  repeat match goal with
         | H : ?b = true |- _ => rewrite H; clear H
         end.

Lemma zipPlus4_shape m :
  fullMatch zipPlus4Regex m = true ->
  isValidZip (String.substring 0 10 m) = true
  /\ exists after, m = String.substring 0 10 m ++ after
                   /\ forallChars isWhiteSpace after = true.
Proof.
  unfold fullMatch, zipPlus4Regex, isValidZip.
  do 10 (destruct m as [|? m];
         [intros H; cbn -[isDigit isWhiteSpace Ascii.eqb] in H;
          rewrite ?andb_false_r in H; discriminate|]).
  cbn -[isDigit isWhiteSpace Ascii.eqb].
  rewrite starK_atEnd', substring_0_0.
  intros H. split_andb. split.
  - rewrite_true. reflexivity.
  - exists m. split; [reflexivity|assumption].
Qed.

Lemma zip5_shape m :
  fullMatch zipRegex m = true ->
  fullMatch zipPlus4Regex m = false ->
  isValidZip (String.substring 0 5 m) = true
  /\ exists after, m = String.substring 0 5 m ++ after
                   /\ forallChars isWhiteSpace after = true.
Proof.
  unfold fullMatch, zipRegex, zipPlus4Regex, isValidZip.
  do 5 (destruct m as [|? m];
         [intros H; cbn -[isDigit isWhiteSpace Ascii.eqb] in H;
          rewrite ?andb_false_r in H; discriminate|]).
  cbn -[isDigit isWhiteSpace Ascii.eqb].
  rewrite substring_0_0.
  match goal with
  | |- context [?X || starK isWhiteSpace m _] => generalize X
  end.
  intros x H E. split_andb.
  repeat match goal with
         | H : ?b = true |- _ => rewrite H in *; clear H
         end.
  cbn [andb] in E. subst x. cbn [orb] in *.
  split; [reflexivity|].
  exists m. split; [reflexivity|].
  match goal with H : starK _ _ _ = true |- _ => now rewrite starK_atEnd' in H end.
Qed.

(** The ZIP code that [parseAddress] finds is five digits, or five
    digits, a dash and four digits, and only white space follows it. *)
Lemma zipMatch_shape s z :
  zipMatch s = Some z ->
  isValidZip z = true
  /\ exists before after,
       s = before ++ z ++ after /\ forallChars isWhiteSpace after = true.
Proof.
  unfold zipMatch.
  destruct (searchToEnd zipRegex s) as [m|] eqn:E; [|discriminate].
  apply searchToEnd_sound in E as [Hm [before ->]].
  destruct (fullMatch zipPlus4Regex m) eqn:E4; intros [= <-].
  - destruct (zipPlus4_shape m E4) as [Hz (after & Ha & Hw)].
    split; [assumption|]. exists before, after. now rewrite <- Ha.
  - destruct (zip5_shape m Hm E4) as [Hz (after & Ha & Hw)].
    split; [assumption|]. exists before, after. now rewrite <- Ha.
Qed.

(** What [parseAddress] returns when it returns an address. *)
Lemma parseAddress_Some a p :
  parseAddress a = Some p ->
  isValidZip (zip p) = true
  /\ exists parts,
       parts = map trim (split ","
                 (trim (substringTo (lastIndexOf (zip p) (trim a)) (trim a))))
       /\ (2 <= List.length parts)%nat
       /\ state p = nth (List.length parts - 1) parts ""
       /\ city p = nth (List.length parts - 2) parts ""
       /\ street p = join ", " (firstn (List.length parts - 2) parts).
Proof.
  unfold parseAddress.
  destruct ((a =? "")%string || (trim a =? "")%string); [discriminate|].
  destruct (zipMatch (trim a)) as [z|] eqn:E; [|discriminate].
  destruct (List.length _ <? 2)%nat eqn:El; [discriminate|].
  intros [= <-]. cbn [zip state city street].
  split; [now apply zipMatch_shape in E|].
  eexists. split; [reflexivity|].
  apply Nat.ltb_ge in El. now repeat split.
Qed.

(** *** Strings that end with a ZIP code *)

Lemma string_length_app (a b : string) :
  String.length (a ++ b) = (String.length a + String.length b)%nat.
Proof. induction a as [|c a IH]; cbn; [reflexivity|now rewrite IH]. Qed.

Lemma substring_all (a : string) : String.substring 0 (String.length a) a = a.
Proof. induction a as [|c a IH]; cbn; [reflexivity|now rewrite IH]. Qed.

Lemma substring_app_left (a b : string) :
  String.substring 0 (String.length a) (a ++ b) = a.
Proof.
  induction a as [|c a IH]; cbn; [now destruct b|now rewrite IH].
Qed.

Lemma substring_app_right (a b : string) :
  String.substring (String.length a) (String.length b) (a ++ b) = b.
Proof.
  induction a as [|c a IH]; cbn; [apply substring_all|assumption].
Qed.

Lemma string_app_assoc (a b c : string) : (a ++ b) ++ c = a ++ b ++ c.
Proof. induction a as [|x a IH]; cbn; [reflexivity|now rewrite IH]. Qed.

Lemma forallChars_app p a b :
  forallChars p (a ++ b) = forallChars p a && forallChars p b.
Proof.
  induction a as [|c a IH]; [reflexivity|].
  cbn [String.append forallChars]. now rewrite IH, andb_assoc.
Qed.

Lemma trimEnd_blank s : forallChars isWhiteSpace s = true -> trimEnd s = "".
Proof.
  induction s as [|c s IH]; [reflexivity|].
  cbn [forallChars]. intros H. apply andb_prop in H. destruct H as [Hc Hs].
  cbn [trimEnd]. now rewrite (IH Hs), Hc.
Qed.

Lemma trimEnd_app_blank a b :
  forallChars isWhiteSpace b = true -> trimEnd (a ++ b) = trimEnd a.
Proof.
  intros Hb. induction a as [|c a IH].
  - cbn [String.append trimEnd]. now apply trimEnd_blank.
  - cbn [String.append trimEnd]. now rewrite IH.
Qed.

Lemma string_app_empty (a b : string) : a ++ b = "" -> b = "".
Proof. destruct a; [trivial|discriminate]. Qed.

Lemma trimEnd_app_fixed a b :
  b <> "" -> trimEnd b = b -> trimEnd (a ++ b) = a ++ b.
Proof.
  intros Hne Hb. induction a as [|c a IH]; [exact Hb|].
  cbn [String.append trimEnd]. rewrite IH.
  destruct (a ++ b) eqn:E; [|reflexivity].
  apply string_app_empty in E. contradiction.
Qed.

Lemma trimEnd_unspaced s :
  forallChars (fun c => negb (isWhiteSpace c)) s = true -> trimEnd s = s.
Proof.
  induction s as [|c s IH]; [reflexivity|].
  cbn [forallChars]. intros H. apply andb_prop in H. destruct H as [Hc Hs].
  apply negb_true_iff in Hc. cbn [trimEnd]. rewrite (IH Hs).
  destruct s; [now rewrite Hc|reflexivity].
Qed.

Lemma prefix_too_long p s :
  (String.length s < String.length p)%nat -> isPrefixOf p s = false.
Proof.
  intros H. unfold isPrefixOf. destruct (String.prefix p s) eqn:E; [|reflexivity].
  apply String.prefix_correct in E. apply (f_equal String.length) in E.
  revert E H. generalize (String.length p). intros n.
  revert n. induction s as [|c s IH]; intros [|n] E H; cbn in *; try lia.
  injection E as E. apply (IH n E). lia.
Qed.

Lemma lastIndexOf_short p s :
  (String.length s < String.length p)%nat -> lastIndexOf p s = -1.
Proof.
  induction s as [|c s IH]; intros H.
  - cbn [lastIndexOf]. now rewrite prefix_too_long.
  - cbn [lastIndexOf]. rewrite IH by (cbn [String.length] in H; lia).
    change (0 <=? -1) with false. cbn iota zeta. now rewrite prefix_too_long.
Qed.

Lemma prefix_refl s : isPrefixOf s s = true.
Proof.
  unfold isPrefixOf. apply String.prefix_correct. apply substring_all.
Qed.

(** A string that ends with [p] has its last [p] at the end. *)
Lemma lastIndexOf_suffix p a :
  p <> "" -> lastIndexOf p (a ++ p) = Z.of_nat (String.length a).
Proof.
  intros Hp. induction a as [|c a IH].
  - destruct p as [|d p]; [contradiction|].
    cbn [String.append lastIndexOf String.length].
    rewrite lastIndexOf_short by (cbn [String.length]; lia).
    change (0 <=? -1) with false. cbn iota zeta. now rewrite prefix_refl.
  - cbn [String.append lastIndexOf]. rewrite IH.
    replace (0 <=? Z.of_nat (String.length a)) with true
      by (symmetry; apply Z.leb_le; lia).
    cbn [String.length]. lia.
Qed.

Lemma isZipChar_unspaced c : Terms.isZipChar c = true -> isWhiteSpace c = false.
Proof.
  unfold Terms.isZipChar. intros H. apply orb_prop in H. destruct H as [H|H].
  - now apply digit_facts.
  - apply Ascii.eqb_eq in H. now subst.
Qed.

(** What the validator of ZIP codes accepts, for the reader of
    addresses. *)
Lemma isValidZip_shape z :
  isValidZip z = true ->
  fullMatch zipRegex z = true
  /\ (if fullMatch zipPlus4Regex z then String.substring 0 10 z
      else String.substring 0 5 z) = z
  /\ forallChars Terms.isZipChar z = true
  /\ z <> "".
Proof.
  unfold isValidZip, fullMatch, zipRegex, zipPlus4Regex, Terms.isZipChar.
  do 5 (destruct z as [|? z];
        [intros H; cbn -[isDigit isWhiteSpace Ascii.eqb] in H;
         rewrite ?andb_false_r in H; discriminate|]).
  destruct z as [|? z].
  - cbn -[isDigit isWhiteSpace Ascii.eqb]. intros H. split_andb. rewrite_true.
    cbn. repeat split; try reflexivity; discriminate.
  - do 4 (destruct z as [|? z];
          [intros H; cbn -[isDigit isWhiteSpace Ascii.eqb] in H;
           rewrite ?andb_false_r in H; discriminate|]).
    destruct z as [|? z].
    + cbn -[isDigit isWhiteSpace Ascii.eqb]. rewrite ?orb_false_r.
      intros H. split_andb. rewrite_true.
      cbn. rewrite ?orb_true_r. repeat split; try reflexivity; discriminate.
    + intros H. cbn -[isDigit isWhiteSpace Ascii.eqb] in H.
      rewrite ?andb_false_r, ?orb_false_r in H. discriminate.
Qed.

Lemma zipChars_unspaced z :
  forallChars Terms.isZipChar z = true ->
  forallChars (fun c => negb (isWhiteSpace c)) z = true.
Proof.
  induction z as [|c z IH]; [reflexivity|].
  cbn [forallChars]. intros H. apply andb_prop in H. destruct H as [Hc Hz].
  now rewrite (isZipChar_unspaced c Hc), IH.
Qed.

Lemma trimEnd_idem s : trimEnd (trimEnd s) = trimEnd s.
Proof.
  induction s as [|c s IH]; [reflexivity|].
  cbn [trimEnd]. destruct (trimEnd s) as [|d t] eqn:E.
  - destruct (isWhiteSpace c) eqn:W; [reflexivity|].
    cbn [chr trimEnd]. now rewrite W.
  - cbn [trimEnd] in *. now rewrite IH.
Qed.

(** The validator of ZIP codes accepts strings of five or ten
    characters; the first is a digit, the sixth of ten a dash. *)
Lemma isValidZip_chars z :
  isValidZip z = true ->
  (exists d, String.get 0 z = Some d /\ isDigit d = true)
  /\ (String.length z = 5%nat
      \/ (String.length z = 10%nat /\ String.get 5 z = Some "-"%char)).
Proof.
  unfold isValidZip, fullMatch.
  do 5 (destruct z as [|? z];
        [intros H; cbn -[isDigit isWhiteSpace Ascii.eqb] in H;
         rewrite ?andb_false_r in H; discriminate|]).
  destruct z as [|? z].
  - cbn -[isDigit isWhiteSpace Ascii.eqb]. intros H. split_andb.
    split; [eauto|now left].
  - do 4 (destruct z as [|? z];
          [intros H; cbn -[isDigit isWhiteSpace Ascii.eqb] in H;
           rewrite ?andb_false_r in H; discriminate|]).
    destruct z as [|? z].
    + cbn -[isDigit isWhiteSpace Ascii.eqb]. rewrite ?orb_false_r.
      intros H. split_andb. split; [eauto|right].
      split; [reflexivity|].
      match goal with H : Ascii.eqb _ _ = true |- _ => apply Ascii.eqb_eq in H; now subst end.
    + intros H. cbn -[isDigit isWhiteSpace Ascii.eqb] in H.
      rewrite ?andb_false_r, ?orb_false_r in H. discriminate.
Qed.

(** No ZIP code goes on with another one. *)
Lemma isValidZip_no_extension y z :
  y <> "" -> isValidZip z = true -> isValidZip (y ++ z) = false.
Proof.
  intros Hy Hz. destruct (isValidZip (y ++ z)) eqn:E; [|reflexivity].
  exfalso.
  destruct (isValidZip_chars z Hz) as [(d & Hd & Hdigit) Hlen].
  destruct (isValidZip_chars _ E) as [_ Hlen'].
  rewrite string_length_app in Hlen'.
  assert (Hy' : (1 <= String.length y)%nat).
  { destruct y; [contradiction|cbn; lia]. }
  assert (H5 : String.length y = 5%nat) by lia.
  destruct Hlen' as [Hl|[_ Hdash]]; [lia|].
  rewrite (append_correct2 y z 0), H5 in Hd.
  cbn [Nat.add] in Hd. rewrite Hd in Hdash. injection Hdash as ->.
  discriminate.
Qed.

(** The expression of the ZIP code matches no string that ends with a
    ZIP code, except the ZIP code itself. *)
Lemma zipRegex_only_at_end y z :
  y <> "" -> isValidZip z = true -> fullMatch zipRegex (y ++ z) = false.
Proof.
  intros Hy Hz. destruct (isValidZip_shape z Hz) as (_ & _ & Hchars & Hne).
  destruct (fullMatch zipRegex (y ++ z)) eqn:E; [|reflexivity].
  exfalso.
  assert (Hshape : exists z' after,
             isValidZip z' = true
             /\ y ++ z = z' ++ after
             /\ forallChars isWhiteSpace after = true).
  { destruct (fullMatch zipPlus4Regex (y ++ z)) eqn:E4.
    - destruct (zipPlus4_shape _ E4) as (H1 & after & H2 & H3). eauto.
    - destruct (zip5_shape _ E E4) as (H1 & after & H2 & H3). eauto. }
  destruct Hshape as (z' & after & Hz' & Heq & Hafter).
  destruct (isValidZip_shape z' Hz') as (_ & _ & Hchars' & _).
  apply (f_equal trimEnd) in Heq.
  rewrite (trimEnd_app_blank z' after Hafter) in Heq.
  rewrite (trimEnd_unspaced z' (zipChars_unspaced z' Hchars')) in Heq.
  rewrite (trimEnd_app_fixed y z Hne
             (trimEnd_unspaced z (zipChars_unspaced z Hchars))) in Heq.
  rewrite <- Heq, (isValidZip_no_extension y z Hy Hz) in Hz'. discriminate.
Qed.

(** In a string that ends with a ZIP code, the reader of addresses
    finds that ZIP code. *)
Lemma zipMatch_at_end before z :
  isValidZip z = true -> zipMatch (before ++ z) = Some z.
Proof.
  intros Hz. destruct (isValidZip_shape z Hz) as (Hfull & Hsub & _ & Hne).
  unfold zipMatch.
  assert (Hs : searchToEnd zipRegex (before ++ z) = Some z).
  { induction before as [|c x IH].
    - destruct z as [|d z]; [contradiction|].
      cbn [String.append searchToEnd]. now rewrite Hfull.
    - cbn [String.append searchToEnd].
      change (String c (x ++ z)) with (String c x ++ z).
      rewrite (zipRegex_only_at_end (String c x) z) by (assumption || discriminate).
      exact IH. }
  rewrite Hs. destruct (fullMatch zipPlus4Regex z); now rewrite Hsub.
Qed.

Lemma trim_fixed s : trimEnd (trim s) = trim s.
Proof. unfold trim. apply trimEnd_idem. Qed.

(** The ZIP code that the reader of addresses finds in a trimmed string
    is the end of that string. *)
Lemma zipMatch_trimmed s z :
  zipMatch (trim s) = Some z ->
  isValidZip z = true /\ exists before, trim s = before ++ z.
Proof.
  intros H. destruct (zipMatch_shape _ _ H) as (Hz & before & after & Heq & Hafter).
  split; [assumption|]. exists before.
  destruct (isValidZip_shape z Hz) as (_ & _ & Hchars & Hne).
  rewrite <- (trim_fixed s), Heq, <- string_app_assoc.
  rewrite (trimEnd_app_blank (before ++ z) after Hafter).
  apply trimEnd_app_fixed; [assumption|].
  now apply trimEnd_unspaced, zipChars_unspaced.
Qed.

(** [parseAddress], for a string that ends, white space apart, with a
    ZIP code. *)
Lemma parseAddress_at_zip a before z :
  trim a = before ++ z ->
  isValidZip z = true ->
  let parts := map trim (split "," (trim before)) in
  parseAddress a =
  if (2 <=? List.length parts)%nat
  then Some (mkParsedAddress (join ", " (firstn (List.length parts - 2) parts))
               (nth (List.length parts - 2) parts "")
               (nth (List.length parts - 1) parts "") z)
  else None.
Proof.
  intros Ht Hz parts.
  destruct (isValidZip_shape z Hz) as (_ & _ & _ & Hne).
  unfold parseAddress.
  assert (Hnonempty : ((a =? "")%string || (trim a =? "")%string) = false).
  { apply orb_false_intro; apply String.eqb_neq; intros E.
    - rewrite E in Ht. cbn in Ht. symmetry in Ht.
      apply string_app_empty in Ht. contradiction.
    - rewrite E in Ht. symmetry in Ht.
      apply string_app_empty in Ht. contradiction. }
  rewrite Hnonempty, Ht, (zipMatch_at_end before z Hz).
  rewrite (lastIndexOf_suffix z before Hne).
  unfold substringTo. rewrite Nat2Z.id, substring_app_left.
  fold parts. unfold dropLastTwo, fromEnd.
  destruct (List.length parts) as [|[|n]] eqn:El; reflexivity.
Qed.

Lemma parseAddress_without_zip a :
  (forall before z, trim a = before ++ z -> isValidZip z = false) ->
  parseAddress a = None.
Proof.
  intros H. unfold parseAddress.
  destruct ((a =? "")%string || (trim a =? "")%string); [reflexivity|].
  destruct (zipMatch (trim a)) as [z|] eqn:E; [|reflexivity].
  destruct (zipMatch_trimmed _ _ E) as [Hz [before Hb]].
  rewrite (H before z Hb) in Hz. discriminate.
Qed.

(** An empty combined field counts as absent: the rule does not fire
    and the row keeps the key. *)
Lemma splitAddress_empty_combined prefix rowId rowIndex
    (row : Record_) (ws : list ProcessingWarning) w :
  get row (prefix ++ "_address") = Some "" ->
  splitAddress prefix rowId rowIndex (row, ws) w = ((row, ws), w).
Proof.
  intros H. unfold splitAddress. rewrite H. cbn [truthy String.eqb negb].
  now rewrite andb_false_r.
Qed.

Lemma warningsOn_app field ws1 ws2 :
  warningsOn field (ws1 ++ ws2) = (warningsOn field ws1 ++ warningsOn field ws2)%list.
Proof. apply filter_app. Qed.

(** C5. For every row whose [home_street] is empty and whose
    [home_address] is present (a non-empty string), [processMessyData]
    returns a row without the key [home_address], whether the address
    parses or not.  When it parses, the four fields [home_street],
    [home_city], [home_state] and [home_zip] hold the parsed parts and
    exactly one warning on [home_address] is appended to the caller's
    list; when it does not, the other fields of the home address are as
    in the input and no such warning is appended.  Without the other
    combined fields the warning is the only one appended.  Which
    addresses parse, and into what: if the address, white space around
    it apart, ends with five digits, or five digits, a dash and four
    digits, these are the ZIP code, and the text before them, trimmed
    and split at its commas into trimmed parts, gives the rest: with
    two parts or more the address parses, the last part is the state,
    the one before it the city, and the parts before, joined with ", ",
    the street; with one part it does not parse.  An address that does
    not end in that way does not parse either.  In particular
    "123 Main St, Hanahan, SC 29410" parses into "123 Main St",
    "Hanahan", "SC" and "29410". *)
Theorem home_address_split
    (row : Record_) (rowIndex : Z) (ws : list ProcessingWarning) (w : World)
    (a : string) :
  truthy (get row "home_street") = false ->
  get row "home_address" = Some a ->
  a <> "" ->
  let out := fst (processMessyData row rowIndex ws w) in
  get (fst out) "home_address" = None
  /\ (exists added,
        snd out = (ws ++ added)%list
        /\ match parseAddress a with
           | Some p =>
               get (fst out) "home_street" = Some (street p)
               /\ get (fst out) "home_city" = Some (city p)
               /\ get (fst out) "home_state" = Some (state p)
               /\ get (fst out) "home_zip" = Some (zip p)
               /\ exists wn,
                    warningsOn "home_address" added = [wn]
                    /\ warn_originalValue wn = a
                    /\ warn_message wn = homeSplitMessage
                    /\ (get row "work_address" = None ->
                        get row "full_name" = None -> added = [wn])
           | None =>
               get (fst out) "home_street" = get row "home_street"
               /\ get (fst out) "home_city" = get row "home_city"
               /\ get (fst out) "home_state" = get row "home_state"
               /\ get (fst out) "home_zip" = get row "home_zip"
               /\ warningsOn "home_address" added = []
               /\ (get row "work_address" = None ->
                   get row "full_name" = None -> added = [])
           end)
  /\ (forall p,
        parseAddress a = Some p ->
        isValidZip (zip p) = true
        /\ exists parts,
             parts = map trim (split ","
                       (trim (substringTo (lastIndexOf (zip p) (trim a)) (trim a))))
             /\ (2 <= List.length parts)%nat
             /\ state p = nth (List.length parts - 1) parts ""
             /\ city p = nth (List.length parts - 2) parts ""
             /\ street p = join ", " (firstn (List.length parts - 2) parts))
  /\ (forall before z,
        trim a = before ++ z ->
        isValidZip z = true ->
        let parts := map trim (split "," (trim before)) in
        parseAddress a =
        if (2 <=? List.length parts)%nat
        then Some (mkParsedAddress
                     (join ", " (firstn (List.length parts - 2) parts))
                     (nth (List.length parts - 2) parts "")
                     (nth (List.length parts - 1) parts "") z)
        else None)
  /\ ((forall before z, trim a = before ++ z -> isValidZip z = false) ->
      parseAddress a = None)
  /\ (forall before z,
        trim a = before ++ z ->
        isValidZip z = true ->
        let parts := map trim (split "," (trim before)) in
        exists added,
          snd out = (ws ++ added)%list
          /\ if (2 <=? List.length parts)%nat
             then get (fst out) "home_street"
                  = Some (join ", " (firstn (List.length parts - 2) parts))
                  /\ get (fst out) "home_city"
                     = Some (nth (List.length parts - 2) parts "")
                  /\ get (fst out) "home_state"
                     = Some (nth (List.length parts - 1) parts "")
                  /\ get (fst out) "home_zip" = Some z
                  /\ List.length (warningsOn "home_address" added) = 1%nat
             else get (fst out) "home_street" = get row "home_street"
                  /\ get (fst out) "home_city" = get row "home_city"
                  /\ get (fst out) "home_state" = get row "home_state"
                  /\ get (fst out) "home_zip" = get row "home_zip"
                  /\ warningsOn "home_address" added = [])
  /\ (a = "123 Main St, Hanahan, SC 29410" ->
      parseAddress a = Some (mkParsedAddress "123 Main St" "Hanahan" "SC" "29410")).
Proof.
  intros Hs Ha Hne out.
  set (rowId := orElse (get row "employee_id") ("row_" ++ intToString rowIndex)).
  pose proof (splitAddress_home rowId rowIndex row ws w a Hs Ha Hne) as Hhome.
  pose proof (fun k => splitAddress_home_frame rowId rowIndex (row, ws) w k) as Hhf.
  cbv zeta in Hhome. cbn [fst] in Hhf.
  destruct (splitAddress "home" rowId rowIndex (row, ws) w) as [[r1 ws1] w1] eqn:E1.
  cbn [fst snd] in Hhome, Hhf.
  pose proof (splitAddress_work_frame rowId rowIndex (r1, ws1) w1) as Hwork.
  cbv zeta in Hwork.
  destruct (splitAddress "work" rowId rowIndex (r1, ws1) w1) as [[r2 ws2] w2] eqn:E2.
  cbn [fst snd] in Hwork. destruct Hwork as [Hwf (x2 & Hw2 & Hx2)].
  pose proof (splitName_frame rowId rowIndex (r2, ws2) w2) as Hname.
  cbv zeta in Hname.
  destruct (splitName rowId rowIndex (r2, ws2) w2) as [[r3 ws3] w3] eqn:E3.
  cbn [fst snd] in Hname. destruct Hname as [Hnf (x3 & Hw3 & Hx3)].
  assert (Hout : out = (r3, ws3)).
  { unfold out, processMessyData, bind. fold rowId. now rewrite E1, E2, E3. }
  rewrite Hout. cbn [fst snd]. clear out Hout.
  assert (Hkeep : forall k, k <> "work_street" -> k <> "work_city" ->
                            k <> "work_state" -> k <> "work_zip" ->
                            k <> "work_address" -> k <> "first_name" ->
                            k <> "last_name" -> k <> "full_name" ->
                            get r3 k = get r1 k).
  { intros k; intros. rewrite Hnf, Hwf by assumption. reflexivity. }
  assert (Hrest : get row "work_address" = None -> get row "full_name" = None ->
                  ws3 = ws1).
  { intros Hwa Hfn.
    rewrite <- (Hhf "work_address") in Hwa by discriminate.
    rewrite <- (Hhf "full_name") in Hfn by discriminate.
    rewrite (splitAddress_absent "work" rowId rowIndex r1 ws1 w1 Hwa) in E2.
    injection E2 as <- <- <-.
    rewrite (splitName_absent rowId rowIndex r1 ws1 w1 Hfn) in E3.
    now injection E3 as <- <- <-. }
  destruct Hhome as [Hdel Hhome].
  split; [rewrite Hkeep by discriminate; exact Hdel|].
  assert (Hmain :
    exists added,
      ws3 = (ws ++ added)%list
      /\ match parseAddress a with
         | Some p =>
             get r3 "home_street" = Some (street p)
             /\ get r3 "home_city" = Some (city p)
             /\ get r3 "home_state" = Some (state p)
             /\ get r3 "home_zip" = Some (zip p)
             /\ exists wn,
                  warningsOn "home_address" added = [wn]
                  /\ warn_originalValue wn = a
                  /\ warn_message wn = homeSplitMessage
                  /\ (get row "work_address" = None ->
                      get row "full_name" = None -> added = [wn])
         | None =>
             get r3 "home_street" = get row "home_street"
             /\ get r3 "home_city" = get row "home_city"
             /\ get r3 "home_state" = get row "home_state"
             /\ get r3 "home_zip" = get row "home_zip"
             /\ warningsOn "home_address" added = []
             /\ (get row "work_address" = None ->
                 get row "full_name" = None -> added = [])
         end).
  { destruct (parseAddress a) as [p|].
    + destruct Hhome as (H1 & H2 & H3 & H4 & wn & Hws1 & Hf & Ho & Hm & _).
      exists (wn :: x2 ++ x3)%list. split.
      { rewrite Hw3, Hw2, Hws1, <- !app_assoc. reflexivity. }
      rewrite !Hkeep by discriminate. repeat split; try assumption.
      exists wn. split; [|repeat split; try assumption].
      * change (wn :: x2 ++ x3)%list with ([wn] ++ x2 ++ x3)%list.
        rewrite !warningsOn_app, Hx2, Hx3. cbn. now rewrite Hf.
      * intros Hwa Hfn. specialize (Hrest Hwa Hfn).
        rewrite Hw3, Hw2, <- app_assoc in Hrest.
        rewrite <- (app_nil_r ws1) in Hrest at 2.
        apply app_inv_head in Hrest.
        apply app_eq_nil in Hrest as [-> ->]. reflexivity.
    + destruct Hhome as [Hsame Hws1]. subst ws1.
      exists (x2 ++ x3)%list. split.
      { rewrite Hw3, Hw2, <- app_assoc. reflexivity. }
      rewrite !Hkeep by discriminate.
      rewrite !Hsame by discriminate. repeat split.
      * now rewrite warningsOn_app, Hx2, Hx3.
      * intros Hwa Hfn. specialize (Hrest Hwa Hfn).
        rewrite Hw3, Hw2, <- app_assoc in Hrest.
        rewrite <- (app_nil_r ws) in Hrest at 2.
        now apply app_inv_head in Hrest. }
  split; [exact Hmain|].
  split; [apply parseAddress_Some|].
  split; [intros before z; apply parseAddress_at_zip|].
  split; [apply parseAddress_without_zip|].
  split.
  - intros before z Ht Hz.
    pose proof (parseAddress_at_zip a before z Ht Hz) as Hp.
    cbv zeta in Hp. rewrite Hp in Hmain. clear Hp.
    set (parts := map trim (split "," (trim before))) in *.
    destruct Hmain as (added & Hadd & Hm). exists added.
    split; [exact Hadd|].
    destruct (2 <=? List.length parts)%nat.
    + destruct Hm as (H1 & H2 & H3 & H4 & wn & Hw & _).
      cbn [street city state zip] in H1, H2, H3, H4.
      repeat split; try assumption. now rewrite Hw.
    + destruct Hm as (H1 & H2 & H3 & H4 & Hw & _). now repeat split.
  - intros ->. vm_compute. reflexivity.
Qed.

(** Scenario B, and an address with a single part before the ZIP
    code. *)
Lemma home_address_split_witness :
  let out := fst (processMessyData scenarioB 1 [] sampleWorld) in
  let out' :=
    fst (processMessyData [("home_address", "Hanahan 29410")] 1 [] sampleWorld) in
  fst out = [ ("employee_id", "E1001"); ("home_street", "123 Main St");
              ("home_city", "Hanahan"); ("home_state", "SC");
              ("home_zip", "29410") ]
  /\ get (fst out) "home_address" = None
  /\ map warn_field (snd out) = ["home_address"]
  /\ map warn_originalValue (snd out) = ["123 Main St, Hanahan, SC 29410"]
  /\ parseAddress "123 Main St, Hanahan, SC 29410"
     = Some (mkParsedAddress "123 Main St" "Hanahan" "SC" "29410")
  /\ parseAddress "Hanahan 29410" = None
  /\ out' = ([], []).
Proof.
  assert (Hne : "123 Main St, Hanahan, SC 29410" <> "") by discriminate.
  assert (Hne' : "Hanahan 29410" <> "") by discriminate.
  pose proof (home_address_split scenarioB 1 [] sampleWorld
                "123 Main St, Hanahan, SC 29410" eq_refl eq_refl Hne) as H.
  pose proof (home_address_split [("home_address", "Hanahan 29410")] 1 []
                sampleWorld "Hanahan 29410" eq_refl eq_refl Hne') as H'.
  cbv zeta in H, H'.
  destruct H as (Hdel & _ & _ & Hzip & _).
  destruct H' as (_ & _ & _ & Hzip' & _).
  cbv zeta. split; [vm_compute; reflexivity|].
  split; [exact Hdel|].
  split; [vm_compute; reflexivity|].
  split; [vm_compute; reflexivity|].
  split; [exact (Hzip "123 Main St, Hanahan, SC " "29410" eq_refl eq_refl)|].
  split; [exact (Hzip' "Hanahan " "29410" eq_refl eq_refl)|].
  vm_compute. reflexivity.
Defined.

(** ** C4: which rows the parser promotes *)

Lemma processMessyData_frame (row : Record_) rowIndex
    (ws : list ProcessingWarning) w k :
  k <> "home_street" -> k <> "home_city" -> k <> "home_state" ->
  k <> "home_zip" -> k <> "home_address" ->
  k <> "work_street" -> k <> "work_city" -> k <> "work_state" ->
  k <> "work_zip" -> k <> "work_address" ->
  k <> "first_name" -> k <> "last_name" -> k <> "full_name" ->
  get (fst (fst (processMessyData row rowIndex ws w))) k = get row k.
Proof.
  intros.
  unfold processMessyData, bind.
  set (rowId := orElse (get row "employee_id") ("row_" ++ intToString rowIndex)).
  pose proof (splitAddress_home_frame rowId rowIndex (row, ws) w k) as F1.
  destruct (splitAddress "home" rowId rowIndex (row, ws) w) as [st1 w1].
  pose proof (proj1 (splitAddress_work_frame rowId rowIndex st1 w1) k) as F2.
  destruct (splitAddress "work" rowId rowIndex st1 w1) as [st2 w2].
  pose proof (proj1 (splitName_frame rowId rowIndex st2 w2) k) as F3.
  destruct (splitName rowId rowIndex st2 w2) as [st3 w3].
  cbn [fst snd] in *.
  rewrite F3, F2, F1 by assumption. reflexivity.
Qed.

Lemma step_det row cursor acc w :
  isDetRow row = true ->
  exists det,
    detRecords (fst (step row cursor acc w)) = (detRecords acc ++ [det])%list
    /\ processedRows (fst (step row cursor acc w))
       = (processedRows acc ++ [extractEmployeeData det])%list
    /\ get det "record_type" = get row "record_type".
Proof.
  intros Hd. unfold step. unfold isDetRow in Hd. rewrite Hd.
  unfold bind.
  set (n := match cursor with Some c => c | None => rowCounter acc + 1 end).
  pose proof (processMessyData_frame row n (warnings acc) w "record_type") as Hf.
  destruct (processMessyData row n (warnings acc) w) as [[cleaned ws'] w'].
  cbn [fst snd] in Hf. unfold ret. cbn [fst detRecords processedRows].
  eexists. split; [reflexivity|]. split; [reflexivity|].
  rewrite !get_set_other by discriminate.
  apply Hf; discriminate.
Qed.

Lemma step_other row cursor acc w :
  isDetRow row = false ->
  detRecords (fst (step row cursor acc w)) = detRecords acc
  /\ processedRows (fst (step row cursor acc w)) = processedRows acc
  /\ errors (fst (step row cursor acc w)) = errors acc
  /\ warnings (fst (step row cursor acc w)) = warnings acc
  /\ snd (step row cursor acc w) = w.
Proof.
  intros Hd. unfold step. unfold isDetRow in Hd. rewrite Hd.
  unfold ret. cbn. now repeat split.
Qed.

Lemma steps_det_records rows acc w :
  map (fun det => get det "record_type") (detRecords (fst (steps rows acc w)))
  = (map (fun det => get det "record_type") (detRecords acc)
     ++ map (fun rc => get (fst rc) "record_type")
            (filter (fun rc => isDetRow (fst rc)) rows))%list
  /\ List.length (processedRows (fst (steps rows acc w)))
     = (List.length (processedRows acc)
        + List.length (filter (fun rc => isDetRow (fst rc)) rows))%nat.
Proof.
  revert acc w. induction rows as [|[row cursor] rows IH]; intros acc w.
  - cbn. rewrite app_nil_r. split; [reflexivity|lia].
  - cbn [steps]. unfold bind.
    pose proof (step_det row cursor acc w) as Hdet.
    pose proof (step_other row cursor acc w) as Hoth.
    destruct (step row cursor acc w) as [acc1 w1]. cbn [fst snd] in *.
    specialize (IH acc1 w1). destruct IH as [IH1 IH2].
    rewrite IH1, IH2. cbn [filter fst].
    destruct (isDetRow row).
    + destruct (Hdet eq_refl) as (det & -> & -> & Hrt).
      rewrite map_app, !length_app. cbn [map List.length]. rewrite Hrt.
      split; [now rewrite <- app_assoc|lia].
    + destruct (Hoth eq_refl) as (-> & -> & _). split; reflexivity.
Qed.

Lemma steps_no_det rows acc w :
  filter (fun rc => isDetRow (fst rc)) rows = [] ->
  errors (fst (steps rows acc w)) = errors acc
  /\ warnings (fst (steps rows acc w)) = warnings acc
  /\ snd (steps rows acc w) = w.
Proof.
  revert acc w. induction rows as [|[row cursor] rows IH]; intros acc w Hf.
  - now repeat split.
  - cbn [filter fst] in Hf. destruct (isDetRow row) eqn:Hd; [discriminate|].
    cbn [steps]. unfold bind.
    pose proof (step_other row cursor acc w Hd) as (_ & _ & He & Hw & Hs).
    destruct (step row cursor acc w) as [acc1 w1]. cbn [fst snd] in *.
    subst w1. destruct (IH acc1 w Hf) as (-> & -> & ->).
    now rewrite He, Hw.
Qed.

(** C4, as the parser has it.  For every parsed row, [step] promotes
    the row into the sequences of detail and employee records if and only
    if its [record_type], put in upper case, equals "DET": the comparison
    ignores the case of the letters.  Every other row, a row without
    [record_type] included, leaves the two sequences, the parse errors and
    the warnings as they were.  Hence the detail records that [processCSV]
    returns are, in order, those rows. *)
Theorem processCSV_promotes_det_rows :
  (forall row,
      isDetRow row = true
      <-> exists t, get row "record_type" = Some t /\ toUpperCase t = "DET")
  /\ (forall row cursor acc w,
         isDetRow row = true ->
         exists det,
           detRecords (fst (step row cursor acc w)) = (detRecords acc ++ [det])%list
           /\ processedRows (fst (step row cursor acc w))
              = (processedRows acc ++ [extractEmployeeData det])%list
           /\ get det "record_type" = get row "record_type")
  /\ (forall row cursor acc w,
         isDetRow row = false ->
         detRecords (fst (step row cursor acc w)) = detRecords acc
         /\ processedRows (fst (step row cursor acc w)) = processedRows acc
         /\ errors (fst (step row cursor acc w)) = errors acc
         /\ warnings (fst (step row cursor acc w)) = warnings acc)
  /\ (forall rows metaFields w,
         let result := fst (processCSV rows metaFields w) in
         map (fun det => get det "record_type") (res_detRecords result)
         = map (fun rc => get (fst rc) "record_type")
               (filter (fun rc => isDetRow (fst rc)) rows)
         /\ List.length (res_rows result)
            = List.length (filter (fun rc => isDetRow (fst rc)) rows)
         /\ (filter (fun rc => isDetRow (fst rc)) rows = [] ->
             res_errors result = [] /\ res_warnings result = [])).
Proof.
  split; [|split; [|split]].
  - intros row. unfold isDetRow. rewrite strictEq_true.
    destruct (get row "record_type") as [t|]; cbn [option_map].
    + split.
      * intros [= H]. now exists t.
      * intros (t' & [= <-] & H). now rewrite H.
    + split; [discriminate|]. now intros (t & H & _).
  - apply step_det.
  - intros row cursor acc w Hd.
    destruct (step_other row cursor acc w Hd) as (H1 & H2 & H3 & H4 & _).
    now repeat split.
  - intros rows metaFields w result. unfold result, processCSV, bind.
    pose proof (steps_det_records rows initialAcc w) as [H1 H2].
    pose proof (steps_no_det rows initialAcc w) as H3.
    destruct (steps rows initialAcc w) as [acc w']. cbn [fst snd] in *.
    unfold ret, complete. cbn [fst res_detRecords res_rows res_errors res_warnings].
    repeat split; try assumption.
    + now destruct (H3 H) as (-> & _).
    + now destruct (H3 H) as (_ & -> & _).
Qed.

(** A file of one header row and one detail row: the detail row alone
    is promoted. *)
Lemma processCSV_promotes_det_rows_witness :
  let rows := [ (headerRow, None); (set lowercaseDetRow "record_type" "DET", None) ] in
  let result := fst (processCSV rows None sampleWorld) in
  map (fun det => get det "record_type") (res_detRecords result) = [Some "DET"]
  /\ res_rows result = [ [("employee_id", "E1001")] ]
  /\ res_errors result = [].
Proof.
  cbv zeta.
  destruct processCSV_promotes_det_rows as (_ & _ & _ & H).
  specialize (H [ (headerRow, None); (set lowercaseDetRow "record_type" "DET", None) ]
                None sampleWorld).
  cbv zeta in H. destruct H as (H & _).
  split; [exact H|]. split; vm_compute; reflexivity.
Defined.

(** Against C4 as the specification states it: a row whose
    [record_type] is "det", which is not the string "DET", is promoted. *)
Lemma lowercase_det_row_promoted :
  get lowercaseDetRow "record_type" <> Some "DET"
  /\ res_detRecords (fst (processCSV [(lowercaseDetRow, None)] None sampleWorld))
     = [lowercaseDetRow]
  /\ res_rows (fst (processCSV [(lowercaseDetRow, None)] None sampleWorld))
     = [ [("employee_id", "E1001")] ].
Proof.
  split; [discriminate|]. split; vm_compute; reflexivity.
Qed.

(** ** C9: the latest correction in the report *)

Lemma latestMatching_snoc corrections c id :
  latestMatching (corrections ++ [c]) id
  = if (errorId c =? id)%string then Some c else latestMatching corrections id.
Proof. unfold latestMatching. now rewrite fold_left_app. Qed.

(** The report picks the last matching correction. *)
Lemma latestCorrection_latestMatching corrections error :
  latestCorrection corrections error = latestMatching corrections (err_id error).
Proof.
  unfold latestCorrection.
  induction corrections as [|c corrections IH] using rev_ind; [reflexivity|].
  rewrite latestMatching_snoc, filter_app. cbn [filter].
  destruct (errorId c =? err_id error)%string.
  - rewrite length_app. cbn [List.length].
    replace (0 <? Z.of_nat (_ + 1)) with true by (symmetry; apply Z.ltb_lt; lia).
    rewrite Nat.add_sub.
    rewrite nth_error_app2 by apply Nat.le_refl.
    now rewrite Nat.sub_diag.
  - now rewrite app_nil_r.
Qed.






(** ** C8: the pay rate per paycheck *)

(** Enough fuel gives the digits, whatever the fuel. *)
Lemma digitsFuel_enough f1 f2 n :
  0 <= n -> n < 2 ^ Z.of_nat (S f1) -> n < 2 ^ Z.of_nat (S f2) ->
  digitsFuel (S f1) n = digitsFuel (S f2) n.
Proof.
  revert f2 n. induction f1 as [|f1 IH]; intros f2 n H0 H1 H2.
  - cbn [digitsFuel]. change (2 ^ Z.of_nat 1) with 2 in H1.
    replace (n <? 10) with true by (symmetry; apply Z.ltb_lt; lia).
    reflexivity.
  - cbn [digitsFuel]. destruct (n <? 10) eqn:E; [reflexivity|].
    apply Z.ltb_ge in E. f_equal.
    rewrite Nat2Z.inj_succ, Z.pow_succ_r in H1, H2 by lia.
    destruct f2 as [|f2].
    { change (2 ^ Z.of_nat 0) with 1 in H2. lia. }
    apply IH.
    + apply Z.div_pos; lia.
    + apply Z.div_lt_upper_bound; lia.
    + apply Z.div_lt_upper_bound; lia.
Qed.

Lemma digitsOf_small n : 0 <= n < 10 -> digitsOf n = chr (digitChar n).
Proof.
  intros H. unfold digitsOf. cbn [digitsFuel].
  now replace (n <? 10) with true by (symmetry; apply Z.ltb_lt; lia).
Qed.

Lemma digitsOf_step n :
  10 <= n -> digitsOf n = digitsOf (n / 10) ++ chr (digitChar (n mod 10)).
Proof.
  intros H. unfold digitsOf. cbn [digitsFuel].
  replace (n <? 10) with false by (symmetry; apply Z.ltb_ge; lia).
  f_equal.
  assert (Hlog : 3 <= Z.log2 n) by (apply Z.log2_le_pow2; lia).
  assert (Hn : n < 2 ^ Z.succ (Z.log2 n)) by (apply Z.log2_spec; lia).
  assert (Hq : 0 < n / 10) by (apply Z.div_str_pos; lia).
  assert (Hq2 : n / 10 < 2 ^ Z.succ (Z.log2 (n / 10))) by (apply Z.log2_spec; lia).
  destruct (Z.to_nat (Z.log2 n)) as [|f] eqn:Ef; [lia|].
  apply digitsFuel_enough.
  - lia.
  - rewrite <- Ef, Z2Nat.id by lia.
    rewrite Z.pow_succ_r in Hn by lia.
    apply Z.div_lt_upper_bound; lia.
  - rewrite Nat2Z.inj_succ, Z2Nat.id by (apply Z.log2_nonneg). exact Hq2.
Qed.

Lemma digitsOf_length n : 0 <= n -> (1 <= String.length (digitsOf n))%nat.
Proof.
  intros H. destruct (Z.lt_ge_cases n 10).
  - rewrite digitsOf_small by lia. cbn. lia.
  - rewrite digitsOf_step, string_length_app by lia. cbn. lia.
Qed.

(** The digits that [toFixed] prints for [n] hundredths. *)
Lemma fixedDigits_two_decimals n :
  0 <= n -> fixedDigits n 2 = twoDecimals n.
Proof.
  intros H0. unfold fixedDigits, twoDecimals, intToString.
  replace (n / 100 <? 0) with false
    by (symmetry; apply Z.ltb_ge; apply Z.div_pos; lia).
  destruct (Z.lt_ge_cases n 10) as [H1|H1].
  - rewrite (digitsOf_small n) by lia.
    rewrite (Z.div_small n 100), (Z.div_small n 10), (Z.mod_small n 10) by lia.
    reflexivity.
  - destruct (Z.lt_ge_cases n 100) as [H2|H2].
    + rewrite (digitsOf_step n) by lia.
      assert (Hq : 0 <= n / 10 < 10).
      { split; [apply Z.div_pos; lia|apply Z.div_lt_upper_bound; lia]. }
      rewrite (digitsOf_small (n / 10)) by lia.
      rewrite (Z.div_small n 100), (Z.mod_small (n / 10) 10) by lia.
      reflexivity.
    + rewrite (digitsOf_step n) by lia.
      assert (Hq : 10 <= n / 10) by (apply Z.div_le_lower_bound; lia).
      rewrite (digitsOf_step (n / 10)) by lia.
      rewrite Z.div_div by lia. change (10 * 10) with 100.
      set (hi := digitsOf (n / 100)).
      set (lo := chr (digitChar (n / 10 mod 10)) ++ chr (digitChar (n mod 10))).
      assert (Hhi : (1 <= String.length hi)%nat).
      { apply digitsOf_length. apply Z.div_pos; lia. }
      rewrite string_app_assoc. fold lo.
      assert (Hlen : String.length (hi ++ lo) = (String.length hi + 2)%nat)
        by (rewrite string_length_app; reflexivity).
      rewrite Hlen.
      replace (3 - (String.length hi + 2))%nat with 0%nat by lia.
      cbn [zeros String.append]. rewrite Hlen.
      replace (String.length hi + 2 - 2)%nat with (String.length hi) by lia.
      rewrite substring_app_left.
      change 2%nat with (String.length lo) at 1.
      rewrite substring_app_right. reflexivity.
Qed.

Lemma centsHalfUp_finite s m e :
  centsHalfUp (S754_finite s m e)
  = (2 * fst (exactRatio m e) * 10 ^ Z.of_nat 2 + snd (exactRatio m e))
    / (2 * snd (exactRatio m e))
  /\ 0 < snd (exactRatio m e)
  /\ 0 < fst (exactRatio m e).
Proof.
  unfold centsHalfUp, magnitude, exactRatio.
  destruct (0 <=? e) eqn:E; cbv beta iota; cbn [fst snd].
  - apply Z.leb_le in E. split; [|split; [lia|]].
    + unfold Qround.Qfloor, QArith_base.Qplus, QArith_base.Qmult.
      cbn [QArith_base.Qnum QArith_base.Qden].
      change (Z.pos (1 * Z.to_pos 1 * 2)) with 2.
      change (Z.pos (1 * Z.to_pos 1)) with 1.
      change (10 ^ Z.of_nat 2) with 100.
      f_equal; lia.
    + apply Z.mul_pos_pos; [lia|]. apply Z.pow_pos_nonneg; lia.
  - apply Z.leb_gt in E.
    assert (Hp : 0 < 2 ^ (- e)) by (apply Z.pow_pos_nonneg; lia).
    split; [|split; [assumption|lia]].
    unfold Qround.Qfloor, QArith_base.Qplus, QArith_base.Qmult. cbn [QArith_base.Qnum QArith_base.Qden].
    rewrite !Pos2Z.inj_mul, Z2Pos.id by assumption.
    change (10 ^ Z.of_nat 2) with 100.
    f_equal; lia.
Qed.

(** Below [10 ^ 21], [toFixed] with two digits prints the number with two
    decimal places, a half rounded up in magnitude. *)
Lemma toFixed_half_up x :
  belowTenTo21 x = true -> toFixed x 2 = halfUpTwoDecimals x.
Proof.
  destruct x as [s|s| |s m e]; cbn [belowTenTo21]; try discriminate.
  - intros _. reflexivity.
  - intros Hb. unfold toFixed, halfUpTwoDecimals. cbn [isNegative].
    destruct (centsHalfUp_finite s m e) as (Hc & Hd & Hn).
    destruct (exactRatio m e) as [num den]. cbn [fst snd] in *.
    replace (10 ^ 21 * den <=? num) with false
      by (symmetry; apply Z.leb_gt; now apply Z.ltb_lt).
    rewrite Hc. f_equal. apply fixedDigits_two_decimals.
    apply Z.div_pos; [|lia].
    assert (0 < 10 ^ Z.of_nat 2) by (apply Z.pow_pos_nonneg; lia). nia.
Qed.

(** [calculatePerPaycheckRate] divides by the pay periods of the table. *)
Lemma calculatePerPaycheckRate_periods annualSalary payFrequency :
  calculatePerPaycheckRate annualSalary payFrequency
  = if isNaN (parseFloat (show annualSalary)) then ofInt 0
    else div (parseFloat (show annualSalary))
             (ofInt (periodsPerYear payFrequency)).
Proof.
  unfold calculatePerPaycheckRate, periodsPerYear.
  destruct (isNaN _); [reflexivity|].
  destruct payFrequency as [f|]; [|reflexivity].
  cbn [strictEq payPeriods get].
  destruct (f =? "Weekly")%string eqn:E1.
  { apply String.eqb_eq in E1. now subst f. }
  rewrite (String.eqb_sym "Weekly" f), E1.
  destruct (f =? "Bi-weekly")%string eqn:E2.
  { apply String.eqb_eq in E2. now subst f. }
  rewrite (String.eqb_sym "Bi-weekly" f), E2.
  destruct (f =? "Semi-monthly")%string eqn:E3.
  { apply String.eqb_eq in E3. now subst f. }
  rewrite (String.eqb_sym "Semi-monthly" f), E3.
  destruct (f =? "Monthly")%string eqn:E4.
  { apply String.eqb_eq in E4. now subst f. }
  rewrite (String.eqb_sym "Monthly" f), E4. reflexivity.
Qed.

(** C8, as the mappings have it.  For every record, the pay rate
    transformation of both providers prints, with [toFixed(2)], the
    number nearest to the annual salary divided by 52 for "Weekly", 26
    for "Bi-weekly", 24 for "Semi-monthly", 12 for "Monthly" and 26 for
    any other frequency, and prints 0 when the salary does not parse.
    Whenever that number is below [10 ^ 21] in magnitude the result has
    two decimal places, and is the exact value of the number, a half
    rounded up in magnitude; otherwise the result is the number as
    [String] prints it, in exponent notation or as "Infinity".  A
    salary of "120000" paid "Bi-weekly" gives "4615.38".  The rounding
    is that of the binary number, not of the decimal quotient: a salary
    of "120000.06" paid "Monthly", a twelfth of which is 10000.005,
    gives "10000.00" where the decimal quotient rounds to "10000.01". *)
Theorem payRate_two_decimals (record : Record_) (value : string) :
  let salary := parseFloat (show (get record "annual_salary")) in
  let rate :=
    if isNaN salary then ofInt 0
    else div salary (ofInt (periodsPerYear (get record "pay_frequency"))) in
  get (transformations adpMapping) "PayRate" = Some payRate
  /\ get (transformations quickBooksMapping) "Pay Rate ($)" = Some payRate
  /\ payRate value record = toFixed rate 2
  /\ (belowTenTo21 rate = true -> payRate value record = halfUpTwoDecimals rate)
  /\ (belowTenTo21 rate = false -> payRate value record = numberToString rate)
  /\ (isNaN salary = true -> payRate value record = "0.00")
  /\ (get record "annual_salary" = Some "120000" ->
      get record "pay_frequency" = Some "Bi-weekly" ->
      payRate value record = "4615.38")
  /\ (get record "annual_salary" = Some "120000.06" ->
      get record "pay_frequency" = Some "Monthly" ->
      payRate value record = "10000.00"
      /\ halfUpOfRatio 12000006 (100 * 12) = "10000.01").
Proof.
  intros salary rate.
  assert (Hrate : payRate value record = toFixed rate 2).
  { unfold payRate. now rewrite calculatePerPaycheckRate_periods. }
  split; [reflexivity|]. split; [reflexivity|]. split; [exact Hrate|].
  split; [|split; [|split; [|split]]].
  - intros Hb. rewrite Hrate. now apply toFixed_half_up.
  - intros Hb. rewrite Hrate. clear Hrate. unfold toFixed, belowTenTo21 in *.
    destruct rate as [sz|si| |s m e]; try reflexivity; [discriminate|].
    destruct (exactRatio m e) as [num den]. cbn [fst snd] in Hb.
    apply Z.ltb_ge in Hb. apply Z.leb_le in Hb. now rewrite Hb.
  - intros Hn. rewrite Hrate. unfold rate. now rewrite Hn.
  - intros Hs Hf. rewrite Hrate. unfold rate, salary. rewrite Hs, Hf.
    vm_compute. reflexivity.
  - intros Hs Hf. rewrite Hrate. unfold rate, salary. rewrite Hs, Hf.
    vm_compute. split; reflexivity.
Qed.

(** Scenario C, also through [transformToADP] and
    [transformToQuickBooks] with the default mappings, and the salary
    with cents. *)
Lemma payRate_two_decimals_witness :
  payRate "" scenarioC = "4615.38"
  /\ halfUpTwoDecimals (div (parseFloat "120000") (ofInt 26)) = "4615.38"
  /\ get (transformToADP (fun _ => None) scenarioC) "PayRate" = Some "4615.38"
  /\ get (transformToQuickBooks (fun _ => None) scenarioC) "Pay Rate ($)"
     = Some "4615.38"
  /\ payRate "" salaryWithCents = "10000.00"
  /\ halfUpTwoDecimals (div (parseFloat "120000.06") (ofInt 12)) = "10000.00"
  /\ halfUpOfRatio 12000006 (100 * 12) = "10000.01".
Proof.
  destruct (payRate_two_decimals scenarioC "") as (_ & _ & _ & _ & _ & _ & H & _).
  destruct (payRate_two_decimals salaryWithCents "")
    as (_ & _ & _ & _ & _ & _ & _ & H').
  destruct (H' eq_refl eq_refl) as [H1 H2].
  split; [apply H; reflexivity|].
  split; [vm_compute; reflexivity|].
  split; [vm_compute; reflexivity|].
  split; [vm_compute; reflexivity|].
  split; [exact H1|].
  split; [vm_compute; reflexivity|exact H2].
Defined.

(** Against C8 as the specification states it: a salary of "1e23",
    which the validators accept as numeric, paid "Bi-weekly" is not
    printed with two decimal places. *)
Lemma payRate_huge_salary_not_two_decimals :
  isNumeric "1e23" = true
  /\ payRate "" hugeSalary = "3.8461538461538457e+21"
  /\ halfUpTwoDecimals
       (div (parseFloat "1e23") (ofInt (periodsPerYear (Some "Bi-weekly"))))
     = "3846153846153845669888.00"
  /\ get (transformToADP (fun _ => None) hugeSalary) "PayRate"
     = Some "3.8461538461538457e+21".
Proof. vm_compute. repeat split; reflexivity. Qed.

(** ** C3: the two loops of the transformer *)

Section TransformerFacts.
Variable mapping : ProviderMapping.
Variable employee : Record_.

(** After the first loop a target holds the value of the last field
    mapping to it: a transformation wins over the copied value. *)
Lemma firstPass_fold fms (out : Record_) found t :
  get out t = option_map (mappedValue mapping employee) found ->
  get (fold_left (applyFieldMapping mapping employee) fms out) t
  = option_map (mappedValue mapping employee) (lastMappingTo fms t found).
Proof.
  revert out found. induction fms as [|fm fms IH]; intros out found Hout.
  - exact Hout.
  - cbn [fold_left lastMappingTo]. apply IH.
    unfold applyFieldMapping, mappedValue.
    destruct (targetField fm =? t)%string eqn:E.
    + apply String.eqb_eq in E. subst t. cbn [option_map].
      destruct (get (transformations mapping) (targetField fm));
        apply get_set_same.
    + apply String.eqb_neq in E.
      destruct (get (transformations mapping) (targetField fm));
        now rewrite get_set_other.
Qed.

Lemma firstPass_get t :
  get (firstPass mapping employee) t
  = option_map (mappedValue mapping employee)
               (lastMappingTo (fieldMappings mapping) t None).
Proof. unfold firstPass. now apply firstPass_fold. Qed.

(** A turn of the second loop touches the key of its entry only. *)
Lemma secondPass_fold_other (trs : obj (string -> Record_ -> string))
    (st : Record_ * list string) t :
  (forall entry, In entry trs -> fst entry <> t) ->
  get (fst (fold_left (applyTransformation employee) trs st)) t = get (fst st) t
  /\ (In t (snd (fold_left (applyTransformation employee) trs st))
      <-> In t (snd st)).
Proof.
  revert st. induction trs as [|[k f] trs IH]; intros [out called] Hk.
  - split; reflexivity.
  - cbn [fold_left].
    assert (Hne : k <> t) by (apply (Hk (k, f)); now left).
    assert (Hrest : forall entry, In entry trs -> fst entry <> t)
      by (intros entry Hin; apply Hk; now right).
    destruct (IH (applyTransformation employee (out, called) (k, f)) Hrest)
      as [IH1 IH2].
    rewrite IH1, IH2. unfold applyTransformation.
    destruct (negb (truthy (get out k))); cbn [fst snd].
    + rewrite get_set_other by assumption. split; [reflexivity|].
      rewrite in_app_iff. cbn [In]. intuition congruence.
    + split; reflexivity.
Qed.

(** What the second loop leaves under a key, and which transformations
    it calls: those whose target is missing or empty after the first
    loop. *)
Lemma secondPass_fold (trs : obj (string -> Record_ -> string))
    (st : Record_ * list string) t :
  NoDup (keys trs) ->
  get (fst (fold_left (applyTransformation employee) trs st)) t
  = (if truthy (get (fst st) t) then get (fst st) t
     else match get trs t with
          | Some f => Some (f "" employee)
          | None => get (fst st) t
          end)
  /\ (In t (snd (fold_left (applyTransformation employee) trs st))
      <-> In t (snd st)
          \/ (has trs t = true /\ truthy (get (fst st) t) = false)).
Proof.
  revert st. induction trs as [|[k f] trs IH]; intros [out called] Hnd.
  - cbn [fold_left fst snd get has]. split.
    + now destruct (truthy (get out t)).
    + intuition discriminate.
  - cbn [keys map fst] in Hnd. inversion Hnd as [|? ? Hnotin Hnd']; subst.
    cbn [fold_left]. unfold has. cbn [get].
    destruct (k =? t)%string eqn:E.
    + apply String.eqb_eq in E. subst k.
      assert (Hrest : forall entry, In entry trs -> fst entry <> t).
      { intros entry Hin Heq. apply Hnotin. subst t. now apply in_map. }
      destruct (secondPass_fold_other trs
                  (applyTransformation employee (out, called) (t, f)) t Hrest)
        as [H1 H2].
      rewrite H1, H2. unfold applyTransformation. cbn [fst snd].
      destruct (truthy (get out t)); cbn [negb fst snd].
      * split; [reflexivity|]. intuition discriminate.
      * rewrite get_set_same. split; [reflexivity|].
        rewrite in_app_iff. cbn [In]. intuition.
    + apply String.eqb_neq in E.
      destruct (IH (applyTransformation employee (out, called) (k, f)) Hnd')
        as [IH1 IH2].
      rewrite IH1, IH2. unfold applyTransformation, has.
      destruct (negb (truthy (get out k))); cbn [fst snd].
      * rewrite get_set_other by assumption. split; [reflexivity|].
        rewrite in_app_iff. cbn [In]. intuition congruence.
      * split; reflexivity.
Qed.

End TransformerFacts.

(** C3, what the code does.  For every mapping whose transformations
    have distinct keys and every employee: after the first loop each
    target holds the value of the last field mapping to it, the
    transformation of the target applied to the source value when there
    is one and the source value otherwise; the second loop then calls,
    with an empty source value, the transformation of every key whose
    value is at that point missing or empty, and stores the result. Keys
    absent from the field mappings are among them, and so is every
    mapped target for which the first loop produced the empty string:
    with the default ADP mapping and an employee without [fed_status]
    the transformation of [Fed_W4_Status], a mapped target, is called a
    second time, and with [badgeMapping] the value of the first loop is
    overwritten. *)
Theorem second_pass_reapplies_on_empty :
  (forall mapping employee t,
      NoDup (keys (transformations mapping)) ->
      get (firstPass mapping employee) t
      = option_map (mappedValue mapping employee)
                   (lastMappingTo (fieldMappings mapping) t None)
      /\ get (transformWith mapping employee) t
         = (if truthy (get (firstPass mapping employee) t)
            then get (firstPass mapping employee) t
            else match get (transformations mapping) t with
                 | Some f => Some (f "" employee)
                 | None => get (firstPass mapping employee) t
                 end)
      /\ (In t (secondPassCalls mapping employee)
          <-> has (transformations mapping) t = true
              /\ truthy (get (firstPass mapping employee) t) = false))
  /\ (In "Fed_W4_Status" (map targetField (fieldMappings adpMapping))
      /\ get (firstPass adpMapping employeeWithoutStatus) "Fed_W4_Status"
         = Some ""
      /\ In "Fed_W4_Status" (secondPassCalls adpMapping employeeWithoutStatus))
  /\ (mappedValue badgeMapping employeeWithoutBadge (mkFieldMapping "badge" "Badge")
      = ""
      /\ secondPassCalls badgeMapping employeeWithoutBadge = ["Badge"]
      /\ transformWith badgeMapping employeeWithoutBadge = [("Badge", "B-")]).
Proof.
  split; [|split].
  - intros mapping employee t Hnd.
    split; [apply firstPass_get|].
    unfold transformWith, secondPassCalls, secondPass.
    destruct (secondPass_fold employee (transformations mapping)
                (firstPass mapping employee, []) t Hnd) as [H1 H2].
    cbn [fst snd] in H1, H2. split; [exact H1|].
    rewrite H2. cbn [In]. intuition.
  - split; [|split].
    + vm_compute. tauto.
    + vm_compute. reflexivity.
    + vm_compute. tauto.
  - repeat split; vm_compute; reflexivity.
Qed.

(** The default ADP mapping on an employee without filing status. *)
Lemma second_pass_reapplies_on_empty_witness :
  NoDup (keys (transformations adpMapping))
  /\ (In "Fed_W4_Status" (secondPassCalls adpMapping employeeWithoutStatus)
      <-> has (transformations adpMapping) "Fed_W4_Status" = true
          /\ truthy (get (firstPass adpMapping employeeWithoutStatus)
                         "Fed_W4_Status") = false).
Proof.
  assert (Hnd : NoDup (keys (transformations adpMapping))).
  { cbn. repeat (constructor; [cbn; intuition discriminate|]). constructor. }
  split; [exact Hnd|].
  apply (proj1 second_pass_reapplies_on_empty adpMapping employeeWithoutStatus
           "Fed_W4_Status" Hnd).
Defined.

(* ================================================================= *)
(** * Further properties *)

Import ErrorTracker Validator CsvProcessor DefaultMappings Transformer Spec.
Import ErrorTrackerClear CsvWriter MappingController ProcessController Terms.

(** ** The processing run *)

Lemma createErrors_located rowId rowIndex columnIndex bodies w :
  map located (fst (createErrors rowId rowIndex columnIndex bodies w))
  = map (fun b => (rowIndex + 1, rowId, b)) bodies.
Proof.
  revert w. induction bodies as [|b bodies IH]; intros w; [reflexivity|].
  cbn [createErrors]. unfold bind at 1. unfold createError at 1.
  unfold bind, generateErrorId, isoTimestamp, ret.
  cbn [fst snd].
  match goal with
  | |- context [createErrors rowId rowIndex columnIndex bodies ?w'] =>
      specialize (IH w');
      destruct (createErrors rowId rowIndex columnIndex bodies w') as [es w'']
  end.
  cbn [fst map] in *. rewrite IH. unfold located at 1, bodyOf. cbn.
  now destruct b.
Qed.

Lemma createErrors_length rowId rowIndex columnIndex bodies w :
  List.length (fst (createErrors rowId rowIndex columnIndex bodies w))
  = List.length bodies.
Proof.
  rewrite <- (length_map bodyOf). now rewrite createErrors_bodies.
Qed.

Lemma addLog_keeps level message employeeId row result w :
  let r := fst (addLog level message employeeId row result w) in
  processedEmployees r = processedEmployees result
  /\ skippedEmployees r = skippedEmployees result
  /\ foundErrors r = foundErrors result
  /\ foundWarnings r = foundWarnings result
  /\ map (fun l => (log_level l, log_row l)) (logs r)
     = (map (fun l => (log_level l, log_row l)) (logs result)
          ++ [(level, row)])%list.
Proof. cbn. rewrite map_app. now repeat split. Qed.

(** What the [catch] block adds to the result. *)
Lemma failedToProcess_adds i e error result w :
  let r := fst (failedToProcess i e error result w) in
  processedEmployees r = processedEmployees result
  /\ skippedEmployees r = skippedEmployees result
  /\ map located (foundErrors r)
     = (map located (foundErrors result) ++ [failureAt i e error])%list
  /\ foundWarnings r = foundWarnings result
  /\ map (fun l => (log_level l, log_row l)) (logs r)
     = (map (fun l => (log_level l, log_row l)) (logs result)
          ++ [(ERROR, Some (i + 1))])%list.
Proof. cbn. rewrite !map_app. now repeat split. Qed.

(** What one turn of the loop adds to the result. *)
Lemma processEmployee_adds toADP toQB onProgress headers i e result w :
  let r := fst (processEmployee toADP toQB onProgress headers i e result w) in
  processedEmployees r
  = (processedEmployees result ++ processedEntry toADP toQB e)%list
  /\ skippedEmployees r
     = (skippedEmployees result
          ++ if isPayrollReady e then []
             else [mkSkippedEmployee e (skipReason e)])%list
  /\ map located (foundErrors r)
     = (map located (foundErrors result)
          ++ runErrorsFrom toADP toQB onProgress i [e])%list
  /\ foundWarnings r = foundWarnings result
  /\ map (fun l => (log_level l, log_row l)) (logs r)
     = (map (fun l => (log_level l, log_row l)) (logs result)
          ++ runLogLinesFor toADP toQB onProgress i e)%list.
Proof.
  intros r. subst r. unfold processEmployee, bind.
  assert (Hloc : map located (fst (validateEmployeeRecord e i headers w))
                 = locatedErrorsFrom i [e]).
  { cbn [locatedErrorsFrom]. rewrite app_nil_r. apply createErrors_located. }
  assert (Hlen : List.length (fst (validateEmployeeRecord e i headers w))
                 = List.length (employeeRules e)).
  { apply createErrors_length. }
  destruct (validateEmployeeRecord e i headers w) as [errs w1].
  cbn [fst snd] in *.
  cbn [runErrorsFrom]. rewrite app_nil_r, <- Hloc.
  unfold runLogLinesFor, processedEntry, thrownAt.
  assert (Herr : (0 <? List.length errs)%nat
                 = match employeeRules e with [] => false | _ => true end).
  { rewrite Hlen. now destruct (employeeRules e). }
  assert (Hzero : (List.length errs =? 0)%nat
                  = match employeeRules e with [] => true | _ => false end).
  { rewrite Hlen. now destruct (employeeRules e). }
  rewrite Herr, Hzero. clear Herr Hzero Hlen Hloc.
  destruct (isPayrollReady e); cbn [negb].
  - destruct (transformBoth toADP toQB e) as [[adp qb]|error].
    + destruct onProgress as [callback|]; [destruct (callback (i + 1))|];
        destruct (employeeRules e);
        cbn; rewrite ?app_nil_r, ?map_app, <- ?app_assoc; cbn;
        repeat split; reflexivity.
    + destruct (employeeRules e);
        cbn; rewrite ?app_nil_r, ?map_app, <- ?app_assoc; cbn;
        repeat split; reflexivity.
  - destruct (employeeRules e);
      cbn; rewrite ?app_nil_r, ?map_app, <- ?app_assoc; cbn;
      repeat split; reflexivity.
Qed.

(** What the loop adds to the result. *)
Lemma processFrom_adds toADP toQB onProgress headers employees :
  forall i result w,
  let r := fst (processFrom toADP toQB onProgress headers i employees result w) in
  processedEmployees r
  = (processedEmployees result
       ++ flat_map (processedEntry toADP toQB) employees)%list
  /\ skippedEmployees r
     = (skippedEmployees result
          ++ map (fun e => mkSkippedEmployee e (skipReason e))
                 (filter (fun e => negb (isPayrollReady e)) employees))%list
  /\ map located (foundErrors r)
     = (map located (foundErrors result)
          ++ runErrorsFrom toADP toQB onProgress i employees)%list
  /\ foundWarnings r = foundWarnings result
  /\ map (fun l => (log_level l, log_row l)) (logs r)
     = (map (fun l => (log_level l, log_row l)) (logs result)
          ++ runLogLinesFrom toADP toQB onProgress i employees)%list.
Proof.
  induction employees as [|e employees IH]; intros i result w.
  - cbn. now rewrite !app_nil_r.
  - cbn [processFrom]. unfold bind.
    pose proof (processEmployee_adds toADP toQB onProgress headers i e result w)
      as H.
    destruct (processEmployee toADP toQB onProgress headers i e result w)
      as [r1 w1].
    cbn [fst] in H. destruct H as (H1 & H2 & H3 & H4 & H5).
    specialize (IH (i + 1) r1 w1). cbn zeta in IH.
    destruct IH as (I1 & I2 & I3 & I4 & I5).
    cbn zeta. rewrite I1, I2, I3, I4, I5, H1, H2, H3, H4, H5.
    cbn [filter flat_map runErrorsFrom runLogLinesFrom].
    rewrite ?app_nil_r, <- !app_assoc.
    destruct (isPayrollReady e); cbn [negb map app]; repeat split; reflexivity.
Qed.

(** What a run returns, from what its loop adds. *)
Lemma processEmployeesWith_result toADP toQB onProgress employees headers st w :
  let run := fst (processEmployeesWith toADP toQB onProgress employees headers
                    st w) in
  let r := fst run in
  let st' := snd run in
  processedEmployees r = flat_map (processedEntry toADP toQB) employees
  /\ skippedEmployees r
     = map (fun e => mkSkippedEmployee e (skipReason e))
           (filter (fun e => negb (isPayrollReady e)) employees)
  /\ map located (foundErrors r) = runErrorsFrom toADP toQB onProgress 0 employees
  /\ foundWarnings r = []
  /\ map (fun l => (log_level l, log_row l)) (logs r)
     = ((INFO, None) :: runLogLinesFrom toADP toQB onProgress 0 employees
          ++ [(INFO, None)])%list
  /\ st' = if (0 <? List.length (foundErrors r))%nat
           then storeErrors (foundErrors r) st else st.
Proof.
  cbn zeta. unfold processEmployeesWith, bind.
  match goal with
  | |- context [addLog INFO ?m None None emptyResult w] =>
      pose proof (addLog_keeps INFO m None None emptyResult w) as H0;
      destruct (addLog INFO m None None emptyResult w) as [r0 w0]
  end.
  cbn [fst] in H0. destruct H0 as (A1 & A2 & A3 & A4 & A5).
  pose proof (processFrom_adds toADP toQB onProgress headers employees 0 r0 w0)
    as H1.
  destruct (processFrom toADP toQB onProgress headers 0 employees r0 w0)
    as [r1 w1].
  cbn [fst] in H1. destruct H1 as (B1 & B2 & B3 & B4 & B5).
  match goal with
  | |- context [addLog INFO ?m None None r1 w1] =>
      pose proof (addLog_keeps INFO m None None r1 w1) as H2;
      destruct (addLog INFO m None None r1 w1) as [r2 w2]
  end.
  cbn [fst] in H2. destruct H2 as (C1 & C2 & C3 & C4 & C5).
  unfold ret. cbn [fst snd].
  rewrite C1, C2, C3, C4, C5, B1, B2, B3, B4, B5, A1, A2, A3, A4, A5.
  cbn. repeat split; reflexivity.
Qed.

(** Transformers that return, and no callback: nothing is thrown. *)
Lemma processedEntry_returned (f g : Record_ -> Record_) employees :
  flat_map (processedEntry (fun e => Returned (f e)) (fun e => Returned (g e)))
           employees
  = map (fun e => mkProcessedEmployee e (f e) (g e))
        (filter isPayrollReady employees).
Proof.
  induction employees as [|e es IH]; [reflexivity|].
  cbn [flat_map filter]. rewrite IH. unfold processedEntry, transformBoth.
  now destruct (isPayrollReady e).
Qed.

Lemma runErrorsFrom_returned (f g : Record_ -> Record_) employees : forall i,
  runErrorsFrom (fun e => Returned (f e)) (fun e => Returned (g e)) None
                i employees
  = locatedErrorsFrom i employees.
Proof.
  induction employees as [|e es IH]; intros i; [reflexivity|].
  cbn [runErrorsFrom locatedErrorsFrom]. rewrite IH.
  unfold thrownAt, transformBoth.
  destruct (isPayrollReady e); now rewrite !app_nil_r.
Qed.

Lemma runLogLinesFrom_returned (f g : Record_ -> Record_) employees : forall i,
  runLogLinesFrom (fun e => Returned (f e)) (fun e => Returned (g e)) None
                  i employees
  = logLinesFrom i employees.
Proof.
  induction employees as [|e es IH]; intros i; [reflexivity|].
  cbn [runLogLinesFrom logLinesFrom]. rewrite IH. f_equal.
  unfold runLogLinesFor, logLinesFor, thrownAt, transformBoth.
  destruct (isPayrollReady e); cbn [negb]; now rewrite ?app_nil_r.
Qed.

(** What [processEmployees] returns when the transformers return. *)
Lemma processEmployees_result employees headers stored st w :
  let r := fst (fst (processEmployees employees headers stored st w)) in
  let st' := snd (fst (processEmployees employees headers stored st w)) in
  processedEmployees r
  = map (fun e => mkProcessedEmployee e (transformToADP stored e)
                                      (transformToQuickBooks stored e))
        (filter isPayrollReady employees)
  /\ skippedEmployees r
     = map (fun e => mkSkippedEmployee e (skipReason e))
           (filter (fun e => negb (isPayrollReady e)) employees)
  /\ map located (foundErrors r) = locatedErrorsFrom 0 employees
  /\ foundWarnings r = []
  /\ map (fun l => (log_level l, log_row l)) (logs r)
     = ((INFO, None) :: logLinesFrom 0 employees ++ [(INFO, None)])%list
  /\ st' = if (0 <? List.length (foundErrors r))%nat
           then storeErrors (foundErrors r) st else st.
Proof.
  cbn zeta. unfold processEmployees.
  destruct (processEmployeesWith_result
              (fun e => Returned (transformToADP stored e))
              (fun e => Returned (transformToQuickBooks stored e))
              None employees headers st w) as (H1 & H2 & H3 & H4 & H5 & H6).
  rewrite processedEntry_returned in H1.
  rewrite runErrorsFrom_returned in H3.
  rewrite runLogLinesFrom_returned in H5.
  now repeat split.
Qed.

Lemma gate_partition (throws : Record_ -> bool) (employees : list Record_) :
  (List.length (filter (fun e => isPayrollReady e && negb (throws e)) employees)
   + List.length (filter (fun e => negb (isPayrollReady e)) employees)
   + List.length (filter (fun e => isPayrollReady e && throws e) employees)
   = List.length employees)%nat.
Proof.
  induction employees as [|e es IH]; [reflexivity|].
  cbn [filter].
  destruct (isPayrollReady e), (throws e); cbn [negb andb List.length]; lia.
Qed.

Lemma processedEntry_length toADP toQB employees :
  List.length (flat_map (processedEntry toADP toQB) employees)
  = List.length
      (filter (fun e => isPayrollReady e && negb (failsToTransform toADP toQB e))
              employees).
Proof.
  induction employees as [|e es IH]; [reflexivity|].
  cbn [flat_map filter]. rewrite length_app, IH.
  unfold processedEntry, failsToTransform.
  destruct (isPayrollReady e); [|reflexivity].
  now destruct (transformBoth toADP toQB e) as [[adp qb]|error].
Qed.

Lemma failsToTransform_gate toADP toQB employees :
  filter (fun e => isPayrollReady e && failsToTransform toADP toQB e) employees
  = filter (failsToTransform toADP toQB) employees.
Proof.
  apply filter_ext. intros e. unfold failsToTransform.
  now destruct (isPayrollReady e).
Qed.

(** X1.  [processEmployees] sorts the employees by the compliance
    gate and by what the transformers do.  Whatever the transformers and
    the progress callback do, the processed employees are, in order,
    those for which [isPayrollReady] holds and both transformers return,
    each with the two records returned; the skipped ones are those for
    which [isPayrollReady] fails, each with the reason that prints the
    two statuses; an employee that passes the gate and for which a
    transformer throws is neither processed nor skipped; and the run
    reports no warning.  Validation errors keep no employee out of the
    processed ones, nor does a callback that throws.  Over stored
    mappings of the shape of [ProviderMapping] the transformers return,
    and every employee is either processed or skipped. *)
Theorem processEmployees_sorts_by_gate
    (employees : list Record_) (headers : option (list string))
    (st : Storage) (w : World) :
  (forall toADP toQuickBooks onProgress,
     let r := fst (fst (processEmployeesWith toADP toQuickBooks onProgress
                          employees headers st w)) in
     processedEmployees r
     = flat_map (processedEntry toADP toQuickBooks) employees
     /\ skippedEmployees r
        = map (fun e => mkSkippedEmployee e (skipReason e))
              (filter (fun e => negb (isPayrollReady e)) employees)
     /\ (List.length (processedEmployees r) + List.length (skippedEmployees r)
         + List.length (filter (failsToTransform toADP toQuickBooks) employees)
         = List.length employees)%nat
     /\ foundWarnings r = [])
  /\ (forall stored : Provider -> option ProviderMapping,
        let r := fst (fst (processEmployees employees headers stored st w)) in
        processedEmployees r
        = map (fun e => mkProcessedEmployee e (transformToADP stored e)
                                            (transformToQuickBooks stored e))
              (filter isPayrollReady employees)
        /\ skippedEmployees r
           = map (fun e => mkSkippedEmployee e (skipReason e))
                 (filter (fun e => negb (isPayrollReady e)) employees)
        /\ (List.length (processedEmployees r)
            + List.length (skippedEmployees r)
            = List.length employees)%nat
        /\ foundWarnings r = []).
Proof.
  split.
  - intros toADP toQB onProgress. cbn zeta.
    destruct (processEmployeesWith_result toADP toQB onProgress employees
                headers st w) as (H1 & H2 & _ & H4 & _).
    rewrite H1, H2, H4, length_map, processedEntry_length.
    rewrite <- failsToTransform_gate.
    repeat split. apply gate_partition.
  - intros stored. cbn zeta.
    destruct (processEmployees_result employees headers stored st w)
      as (H1 & H2 & _ & H4 & _).
    rewrite H1, H2, H4, !length_map. repeat split.
    pose proof (gate_partition (fun _ => false) employees) as P.
    cbn [negb] in P.
    rewrite (filter_ext (fun e => isPayrollReady e && true) isPayrollReady) in P
      by (intros e; apply andb_true_r).
    rewrite (filter_ext (fun e => isPayrollReady e && false) (fun _ => false)) in P
      by (intros e; apply andb_false_r).
    assert (Hnone : filter (fun _ : Record_ => false) employees = []).
    { clear. induction employees; [reflexivity|assumption]. }
    rewrite Hnone in P. cbn [List.length] in P. lia.
Qed.

(** A run over one employee that passes the gate, with transformers
    that throw, and the run over the same employee with the default
    mappings. *)
Lemma processEmployees_sorts_by_gate_witness :
  let r := fst (fst (processEmployeesWith brokenTransformer brokenTransformer
                       None [namelessEmployee] None emptyStore sampleWorld)) in
  let r' := fst (fst (processEmployees [namelessEmployee] None (fun _ => None)
                        emptyStore sampleWorld)) in
  processedEmployees r = [] /\ skippedEmployees r = []
  /\ map employee (processedEmployees r') = [namelessEmployee].
Proof.
  cbv zeta.
  destruct (processEmployees_sorts_by_gate [namelessEmployee] None emptyStore
              sampleWorld) as [H H'].
  destruct (H brokenTransformer brokenTransformer None) as (H1 & H2 & _).
  destruct (H' (fun _ => None)) as (H3 & _).
  split; [exact H1|]. split; [exact H2|].
  rewrite H3. reflexivity.
Defined.

(** X2.  The errors that [processEmployees] returns are, in the order
    of the employees, skipped ones included, the validation errors of
    each employee, followed by one error of type PARSE_ERROR on the field
    [general] when something was thrown in the turn of the employee, by
    a transformer or by the progress callback.  Each error carries the
    row that counts its employee from 1, the row of the lines of the
    log, and the identifier of the employee.  An employee without
    identifier is named after its position, which validation counts from
    0 and the report of what was thrown from 1: for the first row the
    validation errors read "row_0", the other error "row_1".  Over stored
    mappings of the shape of [ProviderMapping] and without callback the
    errors are those of validation alone. *)
Theorem processEmployees_errors_located
    (employees : list Record_) (headers : option (list string))
    (st : Storage) (w : World) :
  (forall toADP toQuickBooks onProgress,
     let r := fst (fst (processEmployeesWith toADP toQuickBooks onProgress
                          employees headers st w)) in
     map located (foundErrors r)
     = runErrorsFrom toADP toQuickBooks onProgress 0 employees
     /\ (forall e rest error,
           employees = e :: rest -> get e "employee_id" = None ->
           thrownAt toADP toQuickBooks onProgress 0 e = Some error ->
           (forall x, In x (firstn (List.length (employeeRules e))
                                   (foundErrors r)) ->
                      err_row x = 1 /\ err_rowId x = "row_0")
           /\ exists x,
                nth_error (foundErrors r) (List.length (employeeRules e))
                = Some x
                /\ err_row x = 1 /\ err_rowId x = "row_1"
                /\ err_field x = "general" /\ err_value x = ""
                /\ err_errorType x = PARSE_ERROR
                /\ err_message x
                   = "Failed to process employee: " ++ errorMessage error))
  /\ (forall stored : Provider -> option ProviderMapping,
        let r := fst (fst (processEmployees employees headers stored st w)) in
        map located (foundErrors r) = locatedErrorsFrom 0 employees
        /\ map bodyOf (foundErrors r) = flat_map employeeRules employees
        /\ (forall e rest,
              employees = e :: rest -> get e "employee_id" = None ->
              forall x, In x (firstn (List.length (employeeRules e))
                                     (foundErrors r)) ->
                        err_row x = 1 /\ err_rowId x = "row_0")).
Proof.
  assert (Hfirst : forall (errs : list ProcessingError) e tail,
             get e "employee_id" = None ->
             map located errs
             = (map (fun b => (0 + 1,
                               orElse (get e "employee_id")
                                      ("row_" ++ intToString 0), b))
                    (employeeRules e) ++ tail)%list ->
             forall x, In x (firstn (List.length (employeeRules e)) errs) ->
                       err_row x = 1 /\ err_rowId x = "row_0").
  { intros errs e tail Hid H3 x Hx.
    rewrite Hid in H3. cbn [orElse] in H3.
    apply (in_map located) in Hx. rewrite <- firstn_map, H3 in Hx.
    rewrite firstn_app, length_map, Nat.sub_diag in Hx.
    cbn [firstn] in Hx. rewrite app_nil_r in Hx.
    rewrite <- (length_map (fun b : ErrorBody => (0 + 1, "row_" ++ intToString 0, b)))
      in Hx.
    rewrite firstn_all in Hx. apply in_map_iff in Hx.
    destruct Hx as (b & Hb & _). unfold located in Hb.
    injection Hb as <- <- _. split; reflexivity. }
  split.
  - intros toADP toQB onProgress. cbn zeta.
    destruct (processEmployeesWith_result toADP toQB onProgress employees
                headers st w) as (_ & _ & H3 & _).
    split; [exact H3|].
    intros e rest error -> Hid Hthrown.
    cbn [runErrorsFrom locatedErrorsFrom] in H3.
    rewrite Hthrown, app_nil_r, <- !app_assoc in H3.
    split; [exact (Hfirst _ e _ Hid H3)|].
    assert (Hnth : nth_error (map located
                     (foundErrors (fst (fst (processEmployeesWith toADP toQB
                        onProgress (e :: rest) headers st w)))))
                     (List.length (employeeRules e))
                   = Some (failureAt 0 e error)).
    { rewrite H3.
      rewrite nth_error_app2 by (rewrite length_map; lia).
      rewrite length_map, Nat.sub_diag. reflexivity. }
    rewrite nth_error_map in Hnth.
    destruct (nth_error _ (List.length (employeeRules e))) as [x|];
      [|discriminate].
    exists x. split; [reflexivity|].
    cbn [option_map] in Hnth.
    unfold located, failureAt, bodyOf in Hnth.
    rewrite Hid in Hnth. cbn [orElse] in Hnth.
    injection Hnth as Hrow HrowId Hfield Hvalue Htype Hmessage _.
    repeat split; assumption.
  - intros stored. cbn zeta.
    destruct (processEmployees_result employees headers stored st w)
      as (_ & _ & H3 & _).
    split; [exact H3|]. split.
    + assert (Hb : forall l, map bodyOf l = map snd (map located l)).
      { intros l. rewrite map_map. reflexivity. }
      rewrite Hb, H3. generalize 0. clear.
      induction employees as [|e es IH]; intros i; [reflexivity|].
      cbn [locatedErrorsFrom flat_map]. rewrite map_app, map_map. cbn [snd].
      now rewrite map_id, IH.
    + intros e rest -> Hid.
      exact (Hfirst _ e (locatedErrorsFrom (0 + 1) rest) Hid H3).
Qed.

(** A run over one employee without identifier, with transformers that
    throw, and a run over two employees with the default mappings and a
    callback that throws at the second. *)
Lemma processEmployees_errors_located_witness :
  let r := fst (fst (processEmployeesWith brokenTransformer brokenTransformer
                       None [namelessEmployee] None emptyStore sampleWorld)) in
  let r' :=
    fst (fst (processEmployeesWith
                (fun e => Returned (transformToADP (fun _ => None) e))
                (fun e => Returned (transformToQuickBooks (fun _ => None) e))
                (Some brokenCallback)
                [employeeBornOn "1990-05-15"; employeeBornOn "1990-05-15"]
                None emptyStore sampleWorld)) in
  map located (foundErrors r)
  = runErrorsFrom brokenTransformer brokenTransformer None 0 [namelessEmployee]
  /\ parseErrors (foundErrors r)
     = [(1, "row_1", "general",
         "Failed to process employee: mapping.fieldMappings is not iterable")]
  /\ parseErrors (foundErrors r')
     = [(2, "E1001", "general", "Failed to process employee: Unknown error")]
  /\ List.length (processedEmployees r') = 2%nat.
Proof.
  cbv zeta.
  destruct (processEmployees_errors_located [namelessEmployee] None emptyStore
              sampleWorld) as [H _].
  destruct (H brokenTransformer brokenTransformer None) as [H1 _].
  split; [exact H1|].
  split; [vm_compute; reflexivity|].
  split; vm_compute; reflexivity.
Defined.

(** X3.  The log of a run: a first line and a last line of level INFO
    without row, and between them, for each employee in order, a line of
    level ERROR when validation found something, then: a line of level
    WARNING when the gate fails; a line of level ERROR, and no other,
    when the gate passes and a transformer throws; otherwise one line,
    of level SUCCESS without validation error and of level INFO with
    some, followed by a line of level ERROR when the progress callback
    throws.  Every line of an employee carries the row counted from 1.
    Over stored mappings of the shape of [ProviderMapping] and without
    callback, each employee has, after the line of validation if any,
    exactly one line: WARNING, SUCCESS or INFO. *)
Theorem processEmployees_log_lines
    (employees : list Record_) (headers : option (list string))
    (st : Storage) (w : World) :
  (forall toADP toQuickBooks onProgress,
     let r := fst (fst (processEmployeesWith toADP toQuickBooks onProgress
                          employees headers st w)) in
     map (fun l => (log_level l, log_row l)) (logs r)
     = ((INFO, None)
          :: runLogLinesFrom toADP toQuickBooks onProgress 0 employees
          ++ [(INFO, None)])%list)
  /\ (forall stored : Provider -> option ProviderMapping,
        let r := fst (fst (processEmployees employees headers stored st w)) in
        map (fun l => (log_level l, log_row l)) (logs r)
        = ((INFO, None) :: logLinesFrom 0 employees ++ [(INFO, None)])%list).
Proof.
  split.
  - intros toADP toQB onProgress. cbn zeta.
    now destruct (processEmployeesWith_result toADP toQB onProgress employees
                    headers st w) as (_ & _ & _ & _ & H5 & _).
  - intros stored. cbn zeta.
    now destruct (processEmployees_result employees headers stored st w)
      as (_ & _ & _ & _ & H5 & _).
Qed.

(** The log of a run over one employee, with transformers that throw:
    the line of validation and the line of the failure; and of a run
    over two valid employees with a callback that throws at the
    second. *)
Lemma processEmployees_log_lines_witness :
  let r := fst (fst (processEmployeesWith brokenTransformer brokenTransformer
                       None [namelessEmployee] None emptyStore sampleWorld)) in
  let r' :=
    fst (fst (processEmployeesWith
                (fun e => Returned (transformToADP (fun _ => None) e))
                (fun e => Returned (transformToQuickBooks (fun _ => None) e))
                (Some brokenCallback)
                [employeeBornOn "1990-05-15"; employeeBornOn "1990-05-15"]
                None emptyStore sampleWorld)) in
  map (fun l => (log_level l, log_row l)) (logs r)
  = [(INFO, None); (ERROR, Some 1); (ERROR, Some 1); (INFO, None)]
  /\ map log_message (logs r)
     = [ "Starting processing of 1 employees";
         nth 1 (map log_message (logs r)) "";
         "Failed to process employee undefined";
         "Processing complete. 0 employees processed, 0 employees skipped" ]
  /\ map (fun l => (log_level l, log_row l)) (logs r')
     = [(INFO, None); (SUCCESS, Some 1); (SUCCESS, Some 2); (ERROR, Some 2);
        (INFO, None)].
Proof.
  cbv zeta.
  destruct (processEmployees_log_lines [namelessEmployee] None emptyStore
              sampleWorld) as [H _].
  split; [rewrite (H brokenTransformer brokenTransformer None);
          vm_compute; reflexivity|].
  split; vm_compute; reflexivity.
Defined.

(** X4.  A run appends its errors to the stored ones of earlier runs
    and leaves the stored corrections alone; when the store refuses the
    write, or the run found no error, the store is as it was. *)
Theorem processEmployees_stores_errors
    (employees : list Record_) (headers : option (list string))
    (stored : Provider -> option ProviderMapping) (st : Storage) (w : World) :
  let r := fst (fst (processEmployees employees headers stored st w)) in
  let st' := snd (fst (processEmployees employees headers stored st w)) in
  (writable st = true ->
   getStoredErrors st' = (getStoredErrors st ++ foundErrors r)%list)
  /\ (writable st = false -> st' = st)
  /\ (foundErrors r = [] -> st' = st)
  /\ getStoredCorrections st' = getStoredCorrections st.
Proof.
  cbn zeta.
  destruct (processEmployees_result employees headers stored st w)
    as (_ & _ & _ & _ & _ & H6).
  rewrite H6. clear H6.
  set (r := fst (fst (processEmployees employees headers stored st w))).
  unfold storeErrors.
  destruct (foundErrors r) as [|x xs]; cbn [List.length Nat.ltb Nat.leb].
  - rewrite app_nil_r. now repeat split.
  - repeat split.
    + intros ->. reflexivity.
    + intros ->. reflexivity.
    + discriminate.
    + now destruct (writable st).
Qed.

(** ** The validators *)

Lemma trimEnd_nonempty c r : isWhiteSpace c = false -> trimEnd (String c r) <> "".
Proof.
  intros Hc. cbn [trimEnd]. destruct (trimEnd r); [|discriminate].
  rewrite Hc. discriminate.
Qed.

Lemma trim_empty s : trim s = "" <-> forallChars isWhiteSpace s = true.
Proof.
  unfold trim. induction s as [|c r IH]; [now split|].
  cbn [trimStart forallChars]. destruct (isWhiteSpace c) eqn:Hc.
  - exact IH.
  - cbn [andb]. split; [|discriminate].
    intros H. now apply trimEnd_nonempty in H.
Qed.

Lemma isMissing_blank v : isMissing v = isBlank v.
Proof.
  unfold isMissing, isBlank. destruct v as [s|]; [|reflexivity].
  cbn [truthy show]. destruct (trim s =? "")%string eqn:E.
  - rewrite orb_true_r. symmetry. apply trim_empty. now apply String.eqb_eq.
  - rewrite orb_false_r. apply String.eqb_neq in E.
    destruct s as [|c r]; [now elim E|]. cbn [String.eqb negb].
    destruct (forallChars isWhiteSpace (String c r)) eqn:F; [|reflexivity].
    apply trim_empty in F. contradiction.
Qed.

Lemma requiredRules_fields kind record fields :
  map body_field (flat_map (requiredRule kind record) fields)
  = filter (fun f => isMissing (get record f)) fields.
Proof.
  induction fields as [|f fields IH]; [reflexivity|].
  cbn [flat_map filter]. rewrite map_app, IH. unfold requiredRule at 1.
  now destruct (isMissing (get record f)).
Qed.

Lemma formatRules_not_required record b :
  In b (formatRules record) -> body_errorType b <> REQUIRED_FIELD_MISSING.
Proof.
  unfold formatRules. cbn [List.concat]. intros H.
  repeat (apply in_app_or in H; destruct H as [H|H];
          [first [ apply formatRule_In in H | apply splitRule_In in H ];
           destruct H as [_ H]; rewrite H; discriminate|]).
  destruct H.
Qed.

Lemma filter_map_comm {A B : Type} (p : B -> bool) (f : A -> B) (l : list A) :
  filter p (map f l) = map f (filter (fun a => p (f a)) l).
Proof.
  induction l as [|a l IH]; [reflexivity|].
  cbn [map filter]. rewrite IH. now destruct (p (f a)).
Qed.

Lemma required_of_bodies (errs : list ProcessingError) :
  map err_field (filter isRequiredMissing errs)
  = map body_field
        (filter (fun b => ErrorType_eqb (body_errorType b) REQUIRED_FIELD_MISSING)
                (map bodyOf errs)).
Proof. rewrite filter_map_comm, map_map. reflexivity. Qed.

(** X5.  The errors of type REQUIRED_FIELD_MISSING that the validators
    return name, in the order of the lists of required fields, exactly
    the required fields that are blank: absent, or made of white space
    only, the empty string included.  For a detail record the three
    tracking fields come first. *)
Theorem required_errors_name_blank_fields
    (record : Record_) (rowIndex : Z) (headers : option (list string))
    (w : World) :
  map err_field
      (filter isRequiredMissing
              (fst (validateEmployeeRecord record rowIndex headers w)))
  = filter (fun f => isBlank (get record f)) REQUIRED_EMPLOYEE_FIELDS
  /\ map err_field
         (filter isRequiredMissing (fst (validateDETRecord record rowIndex w)))
     = filter (fun f => isBlank (get record f))
              (REQUIRED_DET_FIELDS ++ REQUIRED_EMPLOYEE_FIELDS)%list.
Proof.
  assert (Hext : forall fields,
             filter (fun f => isMissing (get record f)) fields
             = filter (fun f => isBlank (get record f)) fields).
  { intros fields. apply filter_ext. intros f. apply isMissing_blank. }
  assert (Hfmt : forall valid message fix_ field,
             filter (fun b => ErrorType_eqb (body_errorType b) REQUIRED_FIELD_MISSING)
                    (formatRule record field valid message fix_) = []).
  { intros. apply filter_none. intros b Hb. apply formatRule_In in Hb.
    destruct Hb as [_ ->]. reflexivity. }
  assert (Hfmts :
            filter (fun b => ErrorType_eqb (body_errorType b) REQUIRED_FIELD_MISSING)
                   (formatRules record) = []).
  { apply filter_none. intros b Hb. apply formatRules_not_required in Hb.
    now destruct (body_errorType b). }
  assert (Hreq : forall kind fields,
             filter (fun b => ErrorType_eqb (body_errorType b) REQUIRED_FIELD_MISSING)
                    (flat_map (requiredRule kind record) fields)
             = flat_map (requiredRule kind record) fields).
  { intros. apply filter_all. intros b Hb. apply requiredRules_In in Hb.
    now rewrite Hb. }
  split.
  - rewrite required_of_bodies, validateEmployeeRecord_bodies.
    unfold employeeRules. cbn [List.concat]. rewrite !filter_app, Hfmts, Hreq.
    cbn [filter]. rewrite !app_nil_r, requiredRules_fields. apply Hext.
  - rewrite required_of_bodies, validateDETRecord_bodies.
    unfold detRules. cbn [List.concat].
    rewrite !filter_app, Hfmts, !Hreq, Hfmt.
    rewrite (filter_none _ (recordTypeRule record)).
    2:{ intros b Hb. apply recordTypeRule_In in Hb. destruct Hb as [_ ->].
        reflexivity. }
    cbn [filter app]. rewrite !app_nil_r, map_app, !requiredRules_fields.
    rewrite <- !filter_app. apply Hext.
Qed.

Lemma indexOf_spec fields f :
  (0 <= indexOf fields f ->
   nth_error fields (Z.to_nat (indexOf fields f)) = Some f
   /\ forall j, (j < Z.to_nat (indexOf fields f))%nat -> nth_error fields j <> Some f)
  /\ (indexOf fields f < 0 -> ~ In f fields)
  /\ -1 <= indexOf fields f.
Proof.
  induction fields as [|g fields IH].
  - cbn. repeat split; try lia; try (intros _ []).
  - cbn [indexOf]. destruct (g =? f)%string eqn:E.
    + apply String.eqb_eq in E. subst g. repeat split; lia.
    + apply String.eqb_neq in E. destruct IH as (IH1 & IH2 & IH3).
      destruct (0 <=? indexOf fields f) eqn:Hi.
      * apply Z.leb_le in Hi. destruct (IH1 Hi) as [Hn Hfirst].
        repeat split; try lia.
        -- rewrite Z2Nat.inj_add by lia. rewrite Nat.add_comm. exact Hn.
        -- intros j Hj. rewrite Z2Nat.inj_add in Hj by lia.
           destruct j as [|j]; cbn [nth_error]; [congruence|].
           apply Hfirst. cbn in Hj. lia.
      * apply Z.leb_gt in Hi. repeat split; try lia.
        intros _ [Hg|Hin]; [contradiction|]. now apply IH2.
Qed.

Lemma createErrors_columns rowId rowIndex columnIndex bodies w :
  Forall (fun e => err_columnIndex e = columnIndex (err_field e))
         (fst (createErrors rowId rowIndex columnIndex bodies w)).
Proof.
  revert w. induction bodies as [|b bodies IH]; intros w; [constructor|].
  cbn [createErrors]. unfold bind at 1. unfold createError at 1.
  unfold bind, generateErrorId, isoTimestamp, ret. cbn [fst snd].
  match goal with
  | |- context [createErrors rowId rowIndex columnIndex bodies ?w'] =>
      specialize (IH w');
      destruct (createErrors rowId rowIndex columnIndex bodies w') as [es w'']
  end.
  cbn [fst] in *. constructor; [reflexivity|exact IH].
Qed.

(** X6.  Every error of [validateEmployeeRecord] points at the column
    of its field: with the headers of the file, the column index is the
    position, from 0, of the first header equal to the field of the
    error, and there is no column index when no header is; without
    headers no error has a column index, and the errors of
    [validateDETRecord] never have one. *)
Theorem column_index_points_at_field
    (record : Record_) (rowIndex : Z) (headers : list string) (w : World) :
  Forall (pointsAtField headers)
         (fst (validateEmployeeRecord record rowIndex (Some headers) w))
  /\ Forall (fun e => err_columnIndex e = None)
            (fst (validateEmployeeRecord record rowIndex None w))
  /\ Forall (fun e => err_columnIndex e = None)
            (fst (validateDETRecord record rowIndex w)).
Proof.
  unfold validateEmployeeRecord, validateDETRecord. split; [|split].
  - eapply Forall_impl; [|apply createErrors_columns].
    intros e He. unfold pointsAtField. rewrite He.
    destruct (indexOf_spec headers (err_field e)) as (H1 & H2 & H3).
    unfold getColumnIndex. destruct headers as [|h hs]; [intros []|].
    destruct (0 <=? indexOf (h :: hs) (err_field e)) eqn:Hi.
    + apply Z.leb_le in Hi. destruct (H1 Hi). now repeat split.
    + apply Z.leb_gt in Hi. now apply H2.
  - eapply Forall_impl; [|apply createErrors_columns]. now intros e ->.
  - eapply Forall_impl; [|apply createErrors_columns]. now intros e ->.
Qed.

Lemma employeeRules_ext (r1 r2 : Record_) :
  (forall k, k <> "record_type" -> k <> "record_sequence" -> k <> "company_id" ->
             get r1 k = get r2 k) ->
  employeeRules r1 = employeeRules r2.
Proof.
  intros H.
  unfold employeeRules, formatRules, splitRule, formatRule, requiredRule,
    REQUIRED_EMPLOYEE_FIELDS.
  cbn [flat_map].
  rewrite !H by discriminate. reflexivity.
Qed.

Lemma extractEmployeeData_get (record : Record_) k :
  k <> "record_type" -> k <> "record_sequence" -> k <> "company_id" ->
  get (extractEmployeeData record) k = get record k.
Proof.
  intros H1 H2 H3. unfold extractEmployeeData.
  rewrite !get_del_other; [reflexivity| |  |]; congruence.
Qed.

(** X7.  [validateDETRecord] finds the errors on the three tracking
    fields and then, in the same order, the errors that
    [validateEmployeeRecord] finds on the employee record that
    [extractEmployeeData] takes out of the detail record: taking the
    tracking fields away changes no decision on the employee fields. *)
Theorem det_validation_extends_employee_validation
    (record : Record_) (rowIndex rowIndex' : Z) (headers : option (list string))
    (w w' : World) :
  map bodyOf (fst (validateDETRecord record rowIndex w))
  = (trackingRules record
       ++ map bodyOf
            (fst (validateEmployeeRecord (extractEmployeeData record)
                                         rowIndex' headers w')))%list.
Proof.
  rewrite validateDETRecord_bodies, validateEmployeeRecord_bodies.
  rewrite (employeeRules_ext (extractEmployeeData record) record)
    by (intros k; apply extractEmployeeData_get).
  unfold detRules, trackingRules, employeeRules. cbn [List.concat].
  rewrite !app_nil_r, <- !app_assoc. reflexivity.
Qed.

Lemma employeeRules_pay_frequency record :
  filter (isFormatErrorOn "pay_frequency") (employeeRules record)
  = formatRule record "pay_frequency" (includes validPayFrequencies)
      (fun v => "Pay frequency must be one of: "
                  ++ join ", " validPayFrequencies ++ ", got: " ++ v)
      ("Use one of: " ++ join ", " validPayFrequencies).
Proof. select_field. reflexivity. Qed.

Lemma required_present record f :
  employeeRules record = [] -> In f REQUIRED_EMPLOYEE_FIELDS ->
  exists v, get record f = Some v /\ v <> "".
Proof.
  intros Hnil Hin. unfold employeeRules in Hnil. cbn [List.concat] in Hnil.
  apply app_eq_nil in Hnil. destruct Hnil as [Hreq _].
  pose proof (requiredRules_fields "employee" record REQUIRED_EMPLOYEE_FIELDS) as Hf.
  rewrite Hreq in Hf. cbn [map] in Hf.
  assert (Hm : isMissing (get record f) = false).
  { destruct (isMissing (get record f)) eqn:E; [|reflexivity].
    assert (Hin' : In f (filter (fun f => isMissing (get record f))
                                REQUIRED_EMPLOYEE_FIELDS))
      by (apply filter_In; now split).
    rewrite <- Hf in Hin'. destruct Hin'. }
  unfold isMissing in Hm. apply orb_false_elim in Hm. destruct Hm as [Hm _].
  apply negb_false_iff in Hm. now apply truthy_true.
Qed.

Lemma includes_In l s : includes l s = true <-> In s l.
Proof.
  unfold includes. rewrite existsb_exists. split.
  - intros (x & Hx & E). apply String.eqb_eq in E. now subst.
  - intros H. exists s. split; [assumption|apply String.eqb_refl].
Qed.

(** X8.  An employee record on which [validateEmployeeRecord] finds
    nothing has a numeric annual salary and one of the four pay
    frequencies, so that the default mappings print as its pay rate the
    salary divided by the periods of that frequency, never the rate of
    the fall-back branches. *)
Theorem validated_employee_pay_rate
    (record : Record_) (rowIndex : Z) (headers : option (list string))
    (w : World) :
  fst (validateEmployeeRecord record rowIndex headers w) = [] ->
  exists salary frequency,
    get record "annual_salary" = Some salary
    /\ get record "pay_frequency" = Some frequency
    /\ isNumeric salary = true
    /\ In frequency validPayFrequencies
    /\ payRate "" record
       = toFixed (div (parseFloat salary)
                      (ofInt (periodsPerYear (Some frequency)))) 2.
Proof.
  intros Hnone.
  assert (Hnil : employeeRules record = []).
  { rewrite <- (validateEmployeeRecord_bodies record rowIndex headers w).
    now rewrite Hnone. }
  destruct (required_present record "annual_salary" Hnil) as (salary & Hs & Hs').
  { cbn. tauto. }
  destruct (required_present record "pay_frequency" Hnil) as (freq & Hf & Hf').
  { cbn. tauto. }
  exists salary, freq.
  pose proof (employeeRules_annual_salary record) as Ha.
  pose proof (employeeRules_pay_frequency record) as Hp.
  rewrite Hnil in Ha, Hp. cbn [filter] in Ha, Hp.
  rewrite (formatRule_present _ _ _ _ _ _ Hs Hs') in Ha.
  rewrite (formatRule_present _ _ _ _ _ _ Hf Hf') in Hp.
  assert (Hnum : isNumeric salary = true)
    by (destruct (isNumeric salary); [reflexivity|discriminate]).
  assert (Hinc : includes validPayFrequencies freq = true)
    by (destruct (includes validPayFrequencies freq); [reflexivity|discriminate]).
  repeat split; try assumption.
  - now apply includes_In.
  - unfold payRate. rewrite calculatePerPaycheckRate_periods, Hs, Hf.
    cbn [show]. unfold isNumeric in Hnum. apply andb_prop in Hnum.
    destruct Hnum as [Hnan _]. apply negb_true_iff in Hnan. now rewrite Hnan.
Qed.

(** An employee all of whose fields are valid. *)
Lemma validated_employee_pay_rate_witness :
  exists salary frequency,
    get (employeeBornOn "1990-05-15") "annual_salary" = Some salary
    /\ get (employeeBornOn "1990-05-15") "pay_frequency" = Some frequency
    /\ isNumeric salary = true
    /\ In frequency validPayFrequencies
    /\ payRate "" (employeeBornOn "1990-05-15")
       = toFixed (div (parseFloat salary)
                      (ofInt (periodsPerYear (Some frequency)))) 2.
Proof.
  apply (validated_employee_pay_rate (employeeBornOn "1990-05-15") 0 None
           sampleWorld).
  vm_compute. reflexivity.
Defined.

(** ** Blank fields *)

Lemma formatRule_blank record field valid message fix_ :
  truthy (get record field) = false ->
  formatRule record field valid message fix_ = [].
Proof. intros H. unfold formatRule. now rewrite H. Qed.

Lemma splitRule_blank record :
  truthy (get record "dd1_split_value") = false -> splitRule record = [].
Proof. intros H. unfold splitRule. rewrite H. now rewrite andb_false_r. Qed.

Lemma formatRules_blank record f b :
  truthy (get record f) = false ->
  In b (formatRules record) -> body_field b <> f.
Proof.
  intros Hf H Hb. unfold formatRules in H. cbn [List.concat] in H.
  repeat (apply in_app_or in H; destruct H as [H|H];
          [first [ pose proof (proj1 (formatRule_In _ _ _ _ _ _ H)) as Hg;
                   rewrite Hb in Hg; rewrite Hg in Hf;
                   rewrite formatRule_blank in H by assumption; destruct H
                 | pose proof (proj1 (splitRule_In _ _ H)) as Hg;
                   rewrite Hb in Hg; rewrite Hg in Hf;
                   rewrite splitRule_blank in H by assumption; destruct H ]|]).
  destruct H.
Qed.

(** X9.  A blank field is never reported as badly formatted: on a
    field that is absent or empty, [validateEmployeeRecord] reports
    nothing but REQUIRED_FIELD_MISSING, and this only when the field is
    required, so that every optional field may be left out.  The same
    holds for [validateDETRecord] on every field but [record_type]. *)
Theorem blank_field_is_only_reported_missing
    (record : Record_) (rowIndex : Z) (headers : option (list string))
    (w : World) (f : string) :
  truthy (get record f) = false ->
  Forall (fun e => err_field e = f ->
                   err_errorType e = REQUIRED_FIELD_MISSING
                   /\ In f REQUIRED_EMPLOYEE_FIELDS)
         (fst (validateEmployeeRecord record rowIndex headers w))
  /\ (f <> "record_type" ->
      Forall (fun e => err_field e = f ->
                       err_errorType e = REQUIRED_FIELD_MISSING)
             (fst (validateDETRecord record rowIndex w))).
Proof.
  intros Hf.
  assert (Hreq : forall kind fields b,
             In b (flat_map (requiredRule kind record) fields) ->
             body_errorType b = REQUIRED_FIELD_MISSING /\ In (body_field b) fields).
  { intros kind fields b Hb. apply in_flat_map in Hb.
    destruct Hb as (g & Hg & Hb). unfold requiredRule in Hb.
    destruct (isMissing (get record g)); [|destruct Hb].
    destruct Hb as [<-|[]]. now split. }
  split.
  - apply Forall_forall. intros e He Hfield.
    apply (in_map bodyOf) in He. rewrite validateEmployeeRecord_bodies in He.
    unfold employeeRules in He. cbn [List.concat] in He.
    rewrite app_nil_r in He. apply in_app_or in He. destruct He as [He|He].
    + destruct (Hreq _ _ _ He) as [H1 H2]. cbn in H1, H2.
      rewrite Hfield in H2. now split.
    + exfalso. apply (formatRules_blank record f _ Hf He). exact Hfield.
  - intros Hrt. apply Forall_forall. intros e He Hfield.
    apply (in_map bodyOf) in He. rewrite validateDETRecord_bodies in He.
    unfold detRules in He. cbn [List.concat] in He. rewrite app_nil_r in He.
    apply in_app_or in He. destruct He as [He|He].
    { apply recordTypeRule_In in He. destruct He as [He _]. cbn in He.
      congruence. }
    apply in_app_or in He. destruct He as [He|He].
    { now destruct (Hreq _ _ _ He). }
    apply in_app_or in He. destruct He as [He|He].
    { pose proof (proj1 (formatRule_In _ _ _ _ _ _ He)) as Hg. cbn in Hg.
      rewrite Hfield in Hg. rewrite Hg in Hf.
      rewrite formatRule_blank in He by assumption. destruct He. }
    apply in_app_or in He. destruct He as [He|He].
    { now destruct (Hreq _ _ _ He). }
    exfalso. apply (formatRules_blank record f _ Hf He). exact Hfield.
Qed.

(** An employee without manager. *)
Lemma blank_field_is_only_reported_missing_witness :
  Forall (fun e => err_field e = "manager_email" ->
                   err_errorType e = REQUIRED_FIELD_MISSING
                   /\ In "manager_email" REQUIRED_EMPLOYEE_FIELDS)
         (fst (validateEmployeeRecord (employeeBornOn "13/45/2025") 0 None
                                      sampleWorld))
  /\ ("manager_email" <> "record_type" ->
      Forall (fun e => err_field e = "manager_email" ->
                       err_errorType e = REQUIRED_FIELD_MISSING)
             (fst (validateDETRecord (employeeBornOn "13/45/2025") 0 sampleWorld))).
Proof.
  apply (blank_field_is_only_reported_missing (employeeBornOn "13/45/2025") 0
           None sampleWorld "manager_email").
  reflexivity.
Defined.

(** ** The parser *)

Lemma orOpt_same (a : option string) : orOpt a a = a.
Proof. unfold orOpt. now destruct (truthy a). Qed.

(** What [step] does with a detail row. *)
Lemma step_det_detail row cursor acc w :
  isDetRow row = true ->
  let n := match cursor with Some c => c | None => rowCounter acc + 1 end in
  let cleaned := fst (fst (processMessyData row n (warnings acc) w)) in
  let det :=
    set (set cleaned "record_sequence" (orElse (get row "record_sequence") ""))
        "company_id" (orElse (get row "company_id") "") in
  detRecords (fst (step row cursor acc w)) = (detRecords acc ++ [det])%list
  /\ processedRows (fst (step row cursor acc w))
     = (processedRows acc ++ [extractEmployeeData det])%list
  /\ errors (fst (step row cursor acc w))
     = (errors acc
          ++ (if isBlank (get row "record_sequence")
              then [missingFieldError n "record_sequence" cleaned] else [])
          ++ (if isBlank (get row "company_id")
              then [missingFieldError n "company_id" cleaned] else []))%list
  /\ warnings (fst (step row cursor acc w))
     = snd (fst (processMessyData row n (warnings acc) w)).
Proof.
  intros Hd n cleaned det. subst det cleaned. unfold step.
  unfold isDetRow in Hd. rewrite Hd. unfold bind. fold n.
  pose proof (processMessyData_frame row n (warnings acc) w "record_sequence")
    as Hs.
  pose proof (processMessyData_frame row n (warnings acc) w "company_id")
    as Hc.
  destruct (processMessyData row n (warnings acc) w) as [[cleaned ws'] w'].
  cbn [fst snd] in *. unfold ret.
  cbn [fst detRecords processedRows errors warnings].
  rewrite !orOpt_same, !isMissing_blank.
  rewrite Hs, Hc by discriminate.
  repeat split.
  destruct (isBlank (get row "record_sequence")),
           (isBlank (get row "company_id"));
    cbn [app]; rewrite <- ?app_assoc, ?app_nil_r; reflexivity.
Qed.

(** The two sequences of records go together, and every detail record
    has its tracking fields. *)
Lemma steps_rows rows : forall acc w,
  processedRows acc = map extractEmployeeData (detRecords acc) ->
  Forall (fun d => has d "record_sequence" = true /\ has d "company_id" = true)
         (detRecords acc) ->
  processedRows (fst (steps rows acc w))
  = map extractEmployeeData (detRecords (fst (steps rows acc w)))
  /\ Forall (fun d => has d "record_sequence" = true /\ has d "company_id" = true)
            (detRecords (fst (steps rows acc w))).
Proof.
  induction rows as [|[row cursor] rows IH]; intros acc w Hp Hd.
  - now split.
  - cbn [steps]. unfold bind.
    pose proof (step_det_detail row cursor acc w) as Hdet.
    pose proof (step_other row cursor acc w) as Hoth.
    destruct (step row cursor acc w) as [acc1 w1]. cbn [fst snd] in *.
    apply IH.
    + destruct (isDetRow row).
      * destruct (Hdet eq_refl) as (-> & -> & _).
        rewrite map_app, Hp. reflexivity.
      * destruct (Hoth eq_refl) as (-> & -> & _). exact Hp.
    + destruct (isDetRow row).
      * destruct (Hdet eq_refl) as (-> & _).
        apply Forall_app. split; [exact Hd|]. constructor; [|constructor].
        unfold has. rewrite get_set_same.
        rewrite get_set_other by discriminate. now rewrite get_set_same.
      * destruct (Hoth eq_refl) as (-> & _). exact Hd.
Qed.

(** X10.  The employee records that [processCSV] returns are, one for
    one and in order, its detail records without the three tracking
    fields: no employee record has a [record_type], a [record_sequence]
    or a [company_id], and every detail record has a [record_sequence]
    and a [company_id], the empty string when the row had none. *)
Theorem processCSV_employee_rows
    (rows : list (Record_ * option Z)) (metaFields : option (list string))
    (w : World) :
  let result := fst (processCSV rows metaFields w) in
  res_rows result = map extractEmployeeData (res_detRecords result)
  /\ Forall (fun r => get r "record_type" = None
                      /\ get r "record_sequence" = None
                      /\ get r "company_id" = None)
            (res_rows result)
  /\ Forall (fun d => has d "record_sequence" = true /\ has d "company_id" = true)
            (res_detRecords result).
Proof.
  cbn zeta. unfold processCSV, bind.
  pose proof (steps_rows rows initialAcc w eq_refl (Forall_nil _)) as [H1 H2].
  destruct (steps rows initialAcc w) as [acc w']. cbn [fst snd] in *.
  unfold ret, complete. cbn [fst res_rows res_detRecords].
  split; [exact H1|]. split; [|exact H2].
  rewrite H1. apply Forall_map, Forall_forall. intros d _.
  unfold extractEmployeeData. repeat split.
  - rewrite !get_del_other by discriminate. apply get_del_same.
  - rewrite get_del_other by discriminate. apply get_del_same.
  - apply get_del_same.
Qed.

(** X11.  A detail row whose [record_sequence] or [company_id] is
    blank is promoted all the same: [step] adds the detail record, with
    the blank field as it was or, when the row had none, as the empty
    string, and records one parse error for each blank field, on the
    number of the row. *)
Theorem blank_tracking_field_is_reported
    (row : Record_) (cursor : option Z) (acc : Acc) (w : World) :
  isDetRow row = true ->
  let n := match cursor with Some c => c | None => rowCounter acc + 1 end in
  let acc' := fst (step row cursor acc w) in
  exists cleaned det,
    detRecords acc' = (detRecords acc ++ [det])%list
    /\ processedRows acc' = (processedRows acc ++ [extractEmployeeData det])%list
    /\ get det "record_sequence" = Some (orElse (get row "record_sequence") "")
    /\ get det "company_id" = Some (orElse (get row "company_id") "")
    /\ errors acc'
       = (errors acc
            ++ (if isBlank (get row "record_sequence")
                then [missingFieldError n "record_sequence" cleaned] else [])
            ++ (if isBlank (get row "company_id")
                then [missingFieldError n "company_id" cleaned] else []))%list
    /\ Forall (fun e => pe_row e = n)
              (skipn (List.length (errors acc)) (errors acc')).
Proof.
  intros Hd n acc'. subst acc'.
  destruct (step_det_detail row cursor acc w Hd) as (H1 & H2 & H3 & _).
  fold n in H1, H2, H3. eexists _, _.
  split; [exact H1|]. split; [exact H2|].
  split; [rewrite get_set_other by discriminate; apply get_set_same|].
  split; [apply get_set_same|]. split; [exact H3|].
  rewrite H3, skipn_app, skipn_all, Nat.sub_diag. cbn [skipn app].
  destruct (isBlank (get row "record_sequence")),
           (isBlank (get row "company_id"));
    repeat constructor.
Qed.

(** A detail row without company. *)
Lemma blank_tracking_field_is_reported_witness :
  let row := [ ("record_type", "DET"); ("record_sequence", "7");
               ("employee_id", "E1001") ] in
  let acc' := fst (step row None initialAcc sampleWorld) in
  exists cleaned det,
    detRecords acc' = ([] ++ [det])%list
    /\ processedRows acc' = ([] ++ [extractEmployeeData det])%list
    /\ get det "record_sequence" = Some "7"
    /\ get det "company_id" = Some ""
    /\ errors acc'
       = ([] ++ [] ++ [missingFieldError 1 "company_id" cleaned])%list
    /\ Forall (fun e => pe_row e = 1) (skipn 0 (errors acc')).
Proof.
  exact (blank_tracking_field_is_reported
           [ ("record_type", "DET"); ("record_sequence", "7");
             ("employee_id", "E1001") ] None initialAcc sampleWorld eq_refl).
Defined.

Lemma step_headers row cursor acc w :
  headersCaptured (fst (step row cursor acc w)) = true
  /\ headerFields (fst (step row cursor acc w))
     = if headersCaptured acc then headerFields acc else Some (keys row).
Proof.
  unfold step, bind.
  destruct (strictEq (option_map toUpperCase (get row "record_type")) "DET").
  - destruct (processMessyData row _ (warnings acc) w) as [[cleaned ws'] w'].
    unfold ret. cbn [fst headersCaptured headerFields].
    now destruct (headersCaptured acc).
  - unfold ret. cbn [fst headersCaptured headerFields].
    now destruct (headersCaptured acc).
Qed.

Lemma steps_headers rows : forall acc w,
  headersCaptured acc = true ->
  headerFields (fst (steps rows acc w)) = headerFields acc.
Proof.
  induction rows as [|[row cursor] rows IH]; intros acc w Hc; [reflexivity|].
  cbn [steps]. unfold bind.
  pose proof (step_headers row cursor acc w) as [H1 H2].
  destruct (step row cursor acc w) as [acc1 w1]. cbn [fst] in *.
  rewrite IH by assumption. now rewrite H2, Hc.
Qed.

(** X12.  The header fields that [processCSV] returns are the keys of
    the first row that the reader hands over, whatever the type of that
    row; a file without rows has the fields of the reader. *)
Theorem processCSV_header_fields
    (row : Record_) (cursor : option Z) (rest : list (Record_ * option Z))
    (metaFields : option (list string)) (w : World) :
  keys row <> [] ->
  res_headerFields (fst (processCSV ((row, cursor) :: rest) metaFields w))
  = keys row
  /\ res_headerFields (fst (processCSV [] metaFields w))
     = match metaFields with Some f => f | None => [] end.
Proof.
  intros Hk. split.
  - unfold processCSV, bind. cbn [steps]. unfold bind.
    pose proof (step_headers row cursor initialAcc w) as [H1 H2].
    destruct (step row cursor initialAcc w) as [acc1 w1]. cbn [fst] in *.
    pose proof (steps_headers rest acc1 w1 H1) as H3.
    destruct (steps rest acc1 w1) as [acc2 w2]. cbn [fst] in *.
    unfold ret, complete. cbn [fst res_headerFields].
    rewrite H3, H2. cbn [initialAcc headersCaptured isEmptyFields].
    destruct (keys row) as [|k ks]; [contradiction|]. reflexivity.
  - unfold processCSV, bind, ret, complete. cbn.
    now destruct metaFields as [[|f fs]|].
Qed.

(** A file that begins with a header record. *)
Lemma processCSV_header_fields_witness :
  res_headerFields
    (fst (processCSV [(headerRow, None); (lowercaseDetRow, None)] None sampleWorld))
  = keys headerRow
  /\ res_headerFields (fst (processCSV [] None sampleWorld)) = [].
Proof.
  apply (processCSV_header_fields headerRow None [(lowercaseDetRow, None)] None
           sampleWorld).
  discriminate.
Defined.

(** A rule whose test fails returns what it was given. *)
Lemma splitAddress_idle prefix rowId rowIndex
    (row : Record_) (ws : list ProcessingWarning) w :
  negb (truthy (get row (prefix ++ "_street")))
  && truthy (get row (prefix ++ "_address")) = false ->
  splitAddress prefix rowId rowIndex (row, ws) w = ((row, ws), w).
Proof. intros H. unfold splitAddress. now rewrite H. Qed.

Lemma splitName_idle rowId rowIndex
    (row : Record_) (ws : list ProcessingWarning) w :
  negb (truthy (get row "first_name")) && truthy (get row "full_name") = false ->
  splitName rowId rowIndex (row, ws) w = ((row, ws), w).
Proof. intros H. unfold splitName. now rewrite H. Qed.

(** The test of a rule fails on the row that the rule returns. *)
Lemma splitAddress_settles prefix rowId rowIndex
    (st : Record_ * list ProcessingWarning) w :
  let row' := fst (fst (splitAddress prefix rowId rowIndex st w)) in
  negb (truthy (get row' (prefix ++ "_street")))
  && truthy (get row' (prefix ++ "_address")) = false.
Proof.
  destruct st as [row ws]. unfold splitAddress.
  destruct (negb (truthy (get row (prefix ++ "_street")))
            && truthy (get row (prefix ++ "_address"))) eqn:E.
  - destruct (parseAddress (show (get row (prefix ++ "_address")))) as [p|].
    + unfold bind, createWarning, bind, generateErrorId, isoTimestamp, ret.
      cbn [fst snd]. rewrite get_del_same. cbn [truthy]. apply andb_false_r.
    + unfold ret. cbn [fst snd]. rewrite get_del_same. cbn [truthy].
      apply andb_false_r.
  - unfold ret. cbn [fst]. exact E.
Qed.

Lemma splitName_settles rowId rowIndex
    (st : Record_ * list ProcessingWarning) w :
  let row' := fst (fst (splitName rowId rowIndex st w)) in
  negb (truthy (get row' "first_name")) && truthy (get row' "full_name") = false.
Proof.
  destruct st as [row ws]. unfold splitName.
  destruct (negb (truthy (get row "first_name")) && truthy (get row "full_name"))
    eqn:E.
  - destruct (2 <=? List.length _)%nat.
    + unfold bind, createWarning, bind, generateErrorId, isoTimestamp, ret.
      cbn [fst snd]. rewrite get_del_same. cbn [truthy]. apply andb_false_r.
    + unfold ret. cbn [fst snd]. rewrite get_del_same. cbn [truthy].
      apply andb_false_r.
  - unfold ret. cbn [fst]. exact E.
Qed.

(** The three tests fail on the row that [processMessyData] returns. *)
Lemma processMessyData_tests (row : Record_) rowIndex
    (ws : list ProcessingWarning) w :
  let cleaned := fst (fst (processMessyData row rowIndex ws w)) in
  negb (truthy (get cleaned "home_street"))
  && truthy (get cleaned "home_address") = false
  /\ negb (truthy (get cleaned "work_street"))
     && truthy (get cleaned "work_address") = false
  /\ negb (truthy (get cleaned "first_name"))
     && truthy (get cleaned "full_name") = false.
Proof.
  cbn zeta. unfold processMessyData, bind.
  set (rowId := orElse (get row "employee_id") ("row_" ++ intToString rowIndex)).
  pose proof (splitAddress_settles "home" rowId rowIndex (row, ws) w) as S1.
  destruct (splitAddress "home" rowId rowIndex (row, ws) w) as [st1 w1].
  pose proof (splitAddress_settles "work" rowId rowIndex st1 w1) as S2.
  pose proof (proj1 (splitAddress_work_frame rowId rowIndex st1 w1)) as F2.
  destruct (splitAddress "work" rowId rowIndex st1 w1) as [st2 w2].
  pose proof (splitName_settles rowId rowIndex st2 w2) as S3.
  pose proof (proj1 (splitName_frame rowId rowIndex st2 w2)) as F3.
  destruct (splitName rowId rowIndex st2 w2) as [[r3 ws3] w3].
  cbn [fst snd String.append] in *.
  split; [|split].
  - rewrite !F3, !F2 by discriminate. exact S1.
  - rewrite !F3 by discriminate. exact S2.
  - exact S3.
Qed.

(** X13.  [processMessyData] settles a row: run again on the row that
    it returned, at whatever row number, it returns that row unchanged,
    appends no warning and reads neither the clock nor the random
    generator. *)
Theorem processMessyData_settles
    (row : Record_) (rowIndex rowIndex' : Z)
    (ws ws' : list ProcessingWarning) (w w' : World) :
  let cleaned := fst (fst (processMessyData row rowIndex ws w)) in
  processMessyData cleaned rowIndex' ws' w' = ((cleaned, ws'), w').
Proof.
  intros cleaned.
  destruct (processMessyData_tests row rowIndex ws w) as (H1 & H2 & H3).
  fold cleaned in H1, H2, H3. clearbody cleaned.
  unfold processMessyData, bind.
  rewrite splitAddress_idle by exact H1.
  rewrite splitAddress_idle by exact H2.
  now rewrite splitName_idle by exact H3.
Qed.

(** The warnings that a rule for an address appends are on its
    combined field. *)
Lemma splitAddress_warning_fields prefix rowId rowIndex
    (st : Record_ * list ProcessingWarning) w :
  exists extra,
    snd (fst (splitAddress prefix rowId rowIndex st w)) = (snd st ++ extra)%list
    /\ Forall (fun x => warn_field x = prefix ++ "_address") extra.
Proof.
  destruct st as [row ws]. unfold splitAddress.
  destruct (negb (truthy (get row (prefix ++ "_street")))
            && truthy (get row (prefix ++ "_address"))).
  - destruct (parseAddress (show (get row (prefix ++ "_address")))) as [p|].
    + unfold bind, createWarning, bind, generateErrorId, isoTimestamp, ret.
      cbn [fst snd]. eexists. split; [reflexivity|].
      constructor; [reflexivity|constructor].
    + exists []. unfold ret. cbn [fst snd]. now rewrite app_nil_r.
  - exists []. unfold ret. cbn [fst snd]. now rewrite app_nil_r.
Qed.

Lemma warningsOn_other field field' extra :
  field' <> field ->
  Forall (fun x => warn_field x = field') extra ->
  warningsOn field extra = [].
Proof.
  intros Hne H. unfold warningsOn. apply filter_none. intros x Hx.
  rewrite Forall_forall in H. rewrite (H x Hx). now apply String.eqb_neq.
Qed.

(** X14.  A row without first name whose [full_name] is not empty
    loses the combined field.  When the name has at least two words,
    the first becomes [first_name] and the others, joined by single
    spaces, become [last_name], whatever [last_name] held, and one
    warning with the original value is appended; when it has fewer, the
    name is dropped without a warning and the name fields stay as they
    were. *)
Theorem full_name_split
    (row : Record_) (rowIndex : Z) (ws : list ProcessingWarning) (w : World)
    (n : string) :
  truthy (get row "first_name") = false ->
  get row "full_name" = Some n ->
  n <> "" ->
  let out := fst (processMessyData row rowIndex ws w) in
  let parts := splitWhiteSpace false (trim n) in
  get (fst out) "full_name" = None
  /\ ((2 <= List.length parts)%nat ->
      get (fst out) "first_name" = Some (hd "" parts)
      /\ get (fst out) "last_name" = Some (join " " (tl parts))
      /\ exists before x,
           snd out = (before ++ [x])%list
           /\ warn_field x = "full_name"
           /\ warn_originalValue x = n
           /\ warn_row x = rowIndex)
  /\ ((List.length parts < 2)%nat ->
      get (fst out) "first_name" = get row "first_name"
      /\ get (fst out) "last_name" = get row "last_name"
      /\ warningsOn "full_name" (snd out) = warningsOn "full_name" ws).
Proof.
  intros Hfirst Hfull Hn out parts. subst out.
  unfold processMessyData, bind.
  set (rowId := orElse (get row "employee_id") ("row_" ++ intToString rowIndex)).
  pose proof (splitAddress_home_frame rowId rowIndex (row, ws) w) as F1.
  destruct (splitAddress_warning_fields "home" rowId rowIndex (row, ws) w)
    as (x1 & W1 & V1).
  destruct (splitAddress "home" rowId rowIndex (row, ws) w) as [[r1 ws1] w1].
  pose proof (proj1 (splitAddress_work_frame rowId rowIndex (r1, ws1) w1)) as F2.
  destruct (splitAddress_warning_fields "work" rowId rowIndex (r1, ws1) w1)
    as (x2 & W2 & V2).
  destruct (splitAddress "work" rowId rowIndex (r1, ws1) w1) as [[r2 ws2] w2].
  cbn [fst snd String.append] in *.
  assert (G : forall k, k = "first_name" \/ k = "last_name" \/ k = "full_name" ->
                        get r2 k = get row k).
  { intros k Hk. rewrite F2, F1; [reflexivity| | | | | | | | | |];
      intros ->; destruct Hk as [Hk|[Hk|Hk]]; discriminate. }
  unfold splitName. rewrite !G by tauto. rewrite Hfirst, Hfull.
  cbn [truthy show negb andb].
  replace (negb (n =? "")%string) with true
    by (symmetry; apply negb_true_iff; now apply String.eqb_neq).
  fold parts.
  destruct (2 <=? List.length parts)%nat eqn:E.
  - apply Nat.leb_le in E.
    unfold bind, createWarning, bind, generateErrorId, isoTimestamp, ret.
    cbn [fst snd]. split; [apply get_del_same|]. split.
    + intros _. rewrite !get_del_other by discriminate.
      rewrite get_set_other by discriminate. rewrite get_set_same.
      rewrite get_set_same. repeat split. eexists _, _.
      split; [reflexivity|]. cbn.
      rewrite !get_set_other by discriminate. rewrite G by tauto.
      now rewrite Hfull.
    + intros Hlt. lia.
  - apply Nat.leb_gt in E. unfold ret. cbn [fst snd].
    split; [apply get_del_same|]. split.
    + intros Hge. lia.
    + intros _. rewrite !get_del_other by discriminate.
      rewrite !G by tauto. repeat split.
      subst ws2 ws1. rewrite !warningsOn_app.
      rewrite (warningsOn_other "full_name" "home_address" x1) by (discriminate || assumption).
      rewrite (warningsOn_other "full_name" "work_address" x2) by (discriminate || assumption).
      now rewrite !app_nil_r.
Qed.

(** A name of three words, and a name of one. *)
Lemma full_name_split_witness :
  let out :=
    fst (processMessyData [("full_name", "Ada King Lovelace"); ("last_name", "x")]
                          1 [] sampleWorld) in
  let parts := splitWhiteSpace false (trim "Ada King Lovelace") in
  get (fst out) "full_name" = None
  /\ ((2 <= List.length parts)%nat ->
      get (fst out) "first_name" = Some (hd "" parts)
      /\ get (fst out) "last_name" = Some (join " " (tl parts))
      /\ exists before x,
           snd out = (before ++ [x])%list
           /\ warn_field x = "full_name"
           /\ warn_originalValue x = "Ada King Lovelace"
           /\ warn_row x = 1)
  /\ ((List.length parts < 2)%nat ->
      get (fst out) "first_name" = None
      /\ get (fst out) "last_name" = Some "x"
      /\ warningsOn "full_name" (snd out) = warningsOn "full_name" []).
Proof.
  apply (full_name_split [("full_name", "Ada King Lovelace"); ("last_name", "x")]
           1 [] sampleWorld "Ada King Lovelace").
  - reflexivity.
  - reflexivity.
  - discriminate.
Defined.

Lemma includesChar_trimStart c s :
  includesChar c s = false -> includesChar c (trimStart s) = false.
Proof.
  induction s as [|d r IH]; [reflexivity|].
  intros H. cbn [trimStart]. destruct (isWhiteSpace d); [|exact H].
  cbn [includesChar] in H. apply orb_false_elim in H. now apply IH.
Qed.

Lemma includesChar_trimEnd c s :
  includesChar c s = false -> includesChar c (trimEnd s) = false.
Proof.
  induction s as [|d r IH]; [reflexivity|].
  intros H. cbn [includesChar] in H. apply orb_false_elim in H.
  destruct H as [Hd Hr]. specialize (IH Hr). cbn [trimEnd].
  destruct (trimEnd r) as [|e t].
  - destruct (isWhiteSpace d); [reflexivity|].
    cbn [chr includesChar]. now rewrite Hd.
  - cbn [includesChar] in *. now rewrite Hd, IH.
Qed.

Lemma includesChar_trim c s :
  includesChar c s = false -> includesChar c (trim s) = false.
Proof.
  intros H. unfold trim. now apply includesChar_trimEnd, includesChar_trimStart.
Qed.

Lemma includesChar_substring c s : forall n m,
  includesChar c s = false -> includesChar c (String.substring n m s) = false.
Proof.
  induction s as [|d r IH]; intros n m H.
  - now destruct n, m.
  - cbn [includesChar] in H. apply orb_false_elim in H. destruct H as [Hd Hr].
    destruct n as [|n]; cbn [String.substring].
    + destruct m as [|m]; [reflexivity|].
      cbn [includesChar]. rewrite Hd. now apply IH.
    + now apply IH.
Qed.

Lemma split_without_separator sep s :
  includesChar sep s = false -> split sep s = [s].
Proof.
  induction s as [|d r IH]; [reflexivity|].
  intros H. cbn [includesChar] in H. apply orb_false_elim in H.
  destruct H as [Hd Hr]. cbn [split].
  rewrite Ascii.eqb_sym, Hd. now rewrite (IH Hr).
Qed.

(** X15.  [parseAddress] reads no address without a comma: whatever
    else the string holds, a ZIP code included, the result is [null];
    so is it for a blank string. *)
Theorem parseAddress_needs_comma (addressString : string) :
  (includesChar "," addressString = false -> parseAddress addressString = None)
  /\ (isBlank (Some addressString) = true -> parseAddress addressString = None).
Proof.
  split.
  - intros H. unfold parseAddress.
    destruct ((addressString =? "")%string || (trim addressString =? "")%string);
      [reflexivity|].
    destruct (zipMatch (trim addressString)) as [zipCode|]; [|reflexivity].
    unfold substringTo.
    rewrite split_without_separator; [reflexivity|].
    now apply includesChar_trim, includesChar_substring, includesChar_trim.
  - intros H. cbn [isBlank] in H. apply trim_empty in H.
    unfold parseAddress. rewrite H. cbn [String.eqb]. now rewrite orb_true_r.
Qed.

(** ** Addresses in the canonical form *)

Lemma trimStart_length s : (String.length (trimStart s) <= String.length s)%nat.
Proof.
  induction s as [|c s IH]; [apply Nat.le_refl|].
  cbn [trimStart]. destruct (isWhiteSpace c); cbn [String.length]; lia.
Qed.

Lemma trimEnd_length s : (String.length (trimEnd s) <= String.length s)%nat.
Proof.
  induction s as [|c s IH]; [apply Nat.le_refl|].
  cbn [trimEnd]. destruct (trimEnd s) as [|d t].
  - destruct (isWhiteSpace c); cbn [String.length chr]; lia.
  - cbn [String.length] in *. lia.
Qed.

(** A part of an address begins with a character that is no white
    space, and trimming its end leaves it alone. *)
Lemma isAddressPart_shape s :
  isAddressPart s = true ->
  includesChar "," s = false
  /\ s <> ""
  /\ trimEnd s = s
  /\ trim s = s
  /\ exists c r, s = String c r /\ isWhiteSpace c = false.
Proof.
  unfold isAddressPart. intros H.
  apply andb_prop in H. destruct H as [H Ht].
  apply andb_prop in H. destruct H as [Hc He].
  apply negb_true_iff in Hc. apply negb_true_iff in He.
  apply String.eqb_neq in He. apply String.eqb_eq in Ht.
  destruct s as [|c r]; [contradiction|].
  destruct (isWhiteSpace c) eqn:W.
  - exfalso. unfold trim in Ht. cbn [trimStart] in Ht. rewrite W in Ht.
    apply (f_equal String.length) in Ht. cbn [String.length] in Ht.
    pose proof (trimEnd_length (trimStart r)). pose proof (trimStart_length r).
    lia.
  - repeat split; try assumption.
    + unfold trim in Ht. cbn [trimStart] in Ht. now rewrite W in Ht.
    + now exists c, r.
Qed.

Lemma trim_leading_space s : trim (" " ++ s) = trim s.
Proof. reflexivity. Qed.

Lemma split_at_separator sep a b :
  includesChar sep a = false ->
  split sep (a ++ String sep b) = a :: split sep b.
Proof.
  intros H. induction a as [|c a IH].
  - cbn [String.append split]. now rewrite Ascii.eqb_refl.
  - cbn [includesChar] in H. apply orb_false_elim in H. destruct H as [Hc Ha].
    cbn [String.append split]. rewrite Ascii.eqb_sym, Hc. now rewrite (IH Ha).
Qed.

(** The expression of the ZIP code matches nothing that goes on, after
    a space, with a ZIP code. *)
Lemma zipRegex_stops_at_space y z :
  isValidZip z = true -> fullMatch zipRegex (y ++ " " ++ z) = false.
Proof.
  intros Hz. destruct (isValidZip_shape z Hz) as (_ & _ & Hchars & Hne).
  destruct (fullMatch zipRegex (y ++ " " ++ z)) eqn:E; [|reflexivity].
  exfalso.
  assert (Hshape : exists z' after,
             isValidZip z' = true
             /\ y ++ " " ++ z = z' ++ after
             /\ forallChars isWhiteSpace after = true).
  { destruct (fullMatch zipPlus4Regex (y ++ " " ++ z)) eqn:E4.
    - destruct (zipPlus4_shape _ E4) as (H1 & after & H2 & H3). eauto.
    - destruct (zip5_shape _ E E4) as (H1 & after & H2 & H3). eauto. }
  destruct Hshape as (z' & after & Hz' & Heq & Hafter).
  destruct (isValidZip_shape z' Hz') as (_ & _ & Hchars' & _).
  apply (f_equal trimEnd) in Heq.
  rewrite (trimEnd_app_blank z' after Hafter) in Heq.
  rewrite (trimEnd_unspaced z' (zipChars_unspaced z' Hchars')) in Heq.
  rewrite <- string_app_assoc in Heq.
  rewrite (trimEnd_app_fixed (y ++ " ") z Hne
             (trimEnd_unspaced z (zipChars_unspaced z Hchars))) in Heq.
  rewrite <- Heq, string_app_assoc, !forallChars_app in Hchars'.
  cbn in Hchars'. rewrite andb_false_r in Hchars'. discriminate.
Qed.

(** In a string that ends with a space and a ZIP code, the reader of
    addresses finds that ZIP code. *)
Lemma zipMatch_suffix x z :
  isValidZip z = true -> zipMatch (x ++ " " ++ z) = Some z.
Proof.
  intros Hz. destruct (isValidZip_shape z Hz) as (Hfull & Hsub & _ & Hne).
  unfold zipMatch.
  assert (Hs : searchToEnd zipRegex (x ++ " " ++ z) = Some z).
  { induction x as [|c x IH].
    - cbn [String.append searchToEnd].
      change (String " " z) with ("" ++ " " ++ z).
      rewrite (zipRegex_stops_at_space "" z Hz).
      destruct z as [|d z]; [contradiction|].
      cbn [searchToEnd]. now rewrite Hfull.
    - cbn [String.append searchToEnd].
      change (String c (x ++ String " " z)) with (String c x ++ " " ++ z).
      now rewrite (zipRegex_stops_at_space (String c x) z Hz). }
  rewrite Hs. destruct (fullMatch zipPlus4Regex z); now rewrite Hsub.
Qed.

(** X16.  [parseAddress] reads the canonical form of an address: for a
    street, a city and a state that are not empty and have neither a
    comma nor white space around them, and a ZIP code that the
    validator accepts, the string made of the street, the city and the
    state, separated by a comma and a space, then a space and the ZIP
    code, is read back as these four parts.  This is the form in which
    the default QuickBooks mapping prints an address. *)
Theorem parseAddress_reads_canonical_form
    (street_ city_ state_ zip_ : string) (record : Record_) :
  isAddressPart street_ = true ->
  isAddressPart city_ = true ->
  isAddressPart state_ = true ->
  isValidZip zip_ = true ->
  parseAddress (street_ ++ ", " ++ city_ ++ ", " ++ state_ ++ " " ++ zip_)
  = Some (mkParsedAddress street_ city_ state_ zip_)
  /\ (get record "home_street" = Some street_ ->
      get record "home_city" = Some city_ ->
      get record "home_state" = Some state_ ->
      get record "home_zip" = Some zip_ ->
      parseAddress (addressLine record "home")
      = Some (mkParsedAddress street_ city_ state_ zip_)).
Proof.
  intros Hs Hc Ht Hz.
  destruct (isAddressPart_shape _ Hs) as (Hs1 & Hs2 & Hs3 & Hs4 & cs & rs & Hs5 & Hs6).
  destruct (isAddressPart_shape _ Hc) as (Hc1 & Hc2 & Hc3 & Hc4 & _).
  destruct (isAddressPart_shape _ Ht) as (Ht1 & Ht2 & Ht3 & Ht4 & _).
  destruct (isValidZip_shape zip_ Hz) as (_ & _ & Hchars & Hne).
  set (x := street_ ++ ", " ++ city_ ++ ", " ++ state_).
  assert (Hwhole : street_ ++ ", " ++ city_ ++ ", " ++ state_ ++ " " ++ zip_
                   = x ++ " " ++ zip_).
  { unfold x. now rewrite !string_app_assoc. }
  assert (Htrim : trim (x ++ " " ++ zip_) = x ++ " " ++ zip_).
  { unfold trim.
    assert (Hstart : trimStart (x ++ " " ++ zip_) = x ++ " " ++ zip_).
    { unfold x. rewrite Hs5. cbn [String.append trimStart]. now rewrite Hs6. }
    rewrite Hstart, <- string_app_assoc.
    apply trimEnd_app_fixed; [assumption|].
    now apply trimEnd_unspaced, zipChars_unspaced. }
  assert (Hx : trim (x ++ " ") = x).
  { unfold trim.
    assert (Hstart : trimStart (x ++ " ") = x ++ " ").
    { unfold x. rewrite Hs5. cbn [String.append trimStart]. now rewrite Hs6. }
    rewrite Hstart, trimEnd_app_blank by reflexivity.
    unfold x. rewrite <- !string_app_assoc.
    now apply trimEnd_app_fixed. }
  assert (Hparse : parseAddress (x ++ " " ++ zip_)
                   = Some (mkParsedAddress street_ city_ state_ zip_)).
  { unfold parseAddress. rewrite Htrim.
    assert (Hnonempty : ((x ++ " " ++ zip_ =? "")%string
                         || (x ++ " " ++ zip_ =? "")%string) = false).
    { unfold x. rewrite Hs5. reflexivity. }
    rewrite Hnonempty, (zipMatch_suffix x zip_ Hz).
    rewrite <- string_app_assoc, (lastIndexOf_suffix zip_ (x ++ " ") Hne).
    unfold substringTo. rewrite Nat2Z.id, substring_app_left, Hx.
    unfold x.
    change (street_ ++ ", " ++ city_ ++ ", " ++ state_)
      with (street_ ++ String "," ((" " ++ city_) ++ String "," (" " ++ state_))).
    rewrite (split_at_separator "," street_ _ Hs1).
    assert (Hc1' : includesChar "," (" " ++ city_) = false) by exact Hc1.
    rewrite (split_at_separator "," (" " ++ city_) _ Hc1').
    assert (Ht1' : includesChar "," (" " ++ state_) = false) by exact Ht1.
    rewrite (split_without_separator "," (" " ++ state_) Ht1').
    cbn [map List.length Nat.ltb Nat.leb].
    rewrite !trim_leading_space, Hs4, Hc4, Ht4.
    reflexivity. }
  split.
  - now rewrite Hwhole.
  - intros G1 G2 G3 G4.
    assert (Hline : addressLine record "home" = trim (x ++ " " ++ zip_)).
    { unfold addressLine. cbn [String.append]. rewrite G1, G2, G3, G4.
      cbn [show]. apply (f_equal trim).
      etransitivity; [|exact Hwhole]. reflexivity. }
    rewrite Hline, Htrim. exact Hparse.
Qed.

(** The address of the head office. *)
Lemma parseAddress_reads_canonical_form_witness :
  parseAddress ("123 Main St" ++ ", " ++ "Hanahan" ++ ", " ++ "SC" ++ " "
                  ++ "29410")
  = Some (mkParsedAddress "123 Main St" "Hanahan" "SC" "29410")
  /\ (get (employeeBornOn "1990-05-15") "home_street" = Some "123 Main St" ->
      get (employeeBornOn "1990-05-15") "home_city" = Some "Hanahan" ->
      get (employeeBornOn "1990-05-15") "home_state" = Some "SC" ->
      get (employeeBornOn "1990-05-15") "home_zip" = Some "29410" ->
      parseAddress (addressLine (employeeBornOn "1990-05-15") "home")
      = Some (mkParsedAddress "123 Main St" "Hanahan" "SC" "29410")).
Proof.
  apply (parseAddress_reads_canonical_form "123 Main St" "Hanahan" "SC"
           "29410" (employeeBornOn "1990-05-15")); reflexivity.
Defined.

(** ** The error store *)

(** X17.  Recording a correction for an error makes it the one that
    the report shows for that error, and appends it to the corrections
    of that error without touching those of the others.  When the store
    refuses the write the correction is returned all the same, but the
    store, and with it the report, stay as they were. *)
Theorem recorded_correction_is_reported
    (errId orig corrected : string) (by_ note : option string)
    (st : Storage) (w : World) (error : ProcessingError) :
  let out := fst (recordCorrection errId orig corrected by_ note st w) in
  correctedValue (fst out) = corrected
  /\ correctedAt (fst out) = isoNow w (tick w)
  /\ (writable st = true ->
      getCorrectionsForError (snd out) errId
      = (getCorrectionsForError st errId ++ [fst out])%list
      /\ (forall other, other <> errId ->
            getCorrectionsForError (snd out) other
            = getCorrectionsForError st other)
      /\ (err_id error = errId ->
          get (reportRow (getStoredCorrections (snd out)) error) "Corrected Value"
          = Some corrected
          /\ get (reportRow (getStoredCorrections (snd out)) error) "Corrected At"
             = Some (isoNow w (tick w))))
  /\ (writable st = false -> snd out = st).
Proof.
  cbn zeta. unfold recordCorrection, bind, isoTimestamp, ret. cbn [fst snd].
  split; [reflexivity|]. split; [reflexivity|]. split.
  - intros Hw. rewrite Hw. unfold getCorrectionsForError.
    cbn [getStoredCorrections payroll_corrections].
    split; [|split].
    + rewrite filter_app. cbn [filter errorId]. now rewrite String.eqb_refl.
    + intros other Hne. rewrite filter_app. cbn [filter errorId].
      apply String.eqb_neq in Hne. rewrite String.eqb_sym in Hne.
      rewrite Hne. apply app_nil_r.
    + intros Hid. unfold reportRow.
      rewrite latestCorrection_latestMatching, latestMatching_snoc.
      cbn [errorId]. rewrite Hid, String.eqb_refl.
      cbn [get String.eqb Ascii.eqb Bool.eqb option_map correctedValue
           correctedAt orElse].
      split; [|now destruct (isoNow w (tick w))].
      now destruct corrected.
  - intros Hw. now rewrite Hw.
Qed.

(** X18.  The stored errors accumulate: what [storeErrors] is given is
    appended to what the store held, so that two runs leave the errors
    of both, in order; [clearStoredErrors] empties the errors and keeps
    the corrections, [clearStoredCorrections] does the converse, and both
    work on a store that refuses writes, on which [storeErrors] changes
    nothing. *)
Theorem stored_errors_accumulate
    (errors1 errors2 : list ProcessingError) (st : Storage) :
  (writable st = true ->
   getStoredErrors (storeErrors errors2 (storeErrors errors1 st))
   = (getStoredErrors st ++ errors1 ++ errors2)%list
   /\ getStoredErrors (storeErrors errors2 (clearStoredErrors (storeErrors errors1 st)))
      = errors2)
  /\ (writable st = false -> storeErrors errors1 st = st)
  /\ getStoredCorrections (storeErrors errors1 st) = getStoredCorrections st
  /\ getStoredErrors (clearStoredErrors st) = []
  /\ getStoredCorrections (clearStoredErrors st) = getStoredCorrections st
  /\ getStoredCorrections (clearStoredCorrections st) = []
  /\ getStoredErrors (clearStoredCorrections st) = getStoredErrors st.
Proof.
  unfold storeErrors, clearStoredErrors, clearStoredCorrections.
  split; [|split; [|split]].
  - intros Hw. rewrite Hw. cbn. rewrite ?Hw. cbn.
    split; [now rewrite <- app_assoc|reflexivity].
  - intros Hw. now rewrite Hw.
  - now destruct (writable st).
  - now repeat split.
Qed.

(** ** The transformer and the mappings *)

Section KeyFacts.
Context {V : Type}.

Lemma get_keys (o : obj V) k : get o k <> None <-> In k (keys o).
Proof.
  induction o as [|[k' v'] o IH]; cbn [get keys map fst In].
  - tauto.
  - destruct (k' =? k)%string eqn:E.
    + apply String.eqb_eq in E. split; [now left|discriminate].
    + apply String.eqb_neq in E. unfold keys in IH. rewrite IH.
      split; [now right|]. intros [H|H]; [contradiction|exact H].
Qed.

(** The keys after an assignment depend on the keys before it and on
    the key assigned. *)
Lemma keys_set (o o' : obj V) k v v' :
  keys o = keys o' -> keys (set o k v) = keys (set o' k v').
Proof.
  revert o'. induction o as [|[k1 v1] o IH]; intros [|[k2 v2] o'] H;
    cbn [keys map fst] in H; try discriminate; [reflexivity|].
  injection H as <- H. cbn [set].
  destruct (k1 =? k)%string; cbn [keys map fst].
  - now f_equal.
  - f_equal. now apply IH.
Qed.

Lemma keys_set_present (o : obj V) k v : In k (keys o) -> keys (set o k v) = keys o.
Proof.
  induction o as [|[k1 v1] o IH]; cbn [keys map fst In set]; [tauto|].
  intros H. destruct (k1 =? k)%string eqn:E; cbn [keys map fst].
  - apply String.eqb_eq in E. now subst.
  - apply String.eqb_neq in E. f_equal. apply IH.
    destruct H as [H|H]; [contradiction|exact H].
Qed.

End KeyFacts.

Lemma truthy_keys (o : Record_) k : truthy (get o k) = true -> In k (keys o).
Proof.
  intros H. apply get_keys. apply truthy_true in H.
  destruct H as (s & -> & _). discriminate.
Qed.

(** The keys of a transformed record do not depend on the employee. *)
Lemma transformWith_keys mapping (e e' : Record_) :
  keys (transformWith mapping e) = keys (transformWith mapping e').
Proof.
  unfold transformWith, secondPass, firstPass.
  assert (H1 : forall fms (out out' : Record_),
             keys out = keys out' ->
             keys (fold_left (applyFieldMapping mapping e) fms out)
             = keys (fold_left (applyFieldMapping mapping e') fms out')).
  { induction fms as [|fm fms IH]; intros out out' H; [exact H|].
    cbn [fold_left]. apply IH. unfold applyFieldMapping.
    destruct (get (transformations mapping) (targetField fm));
      now apply keys_set. }
  assert (H2 : forall trs (st st' : Record_ * list string),
             keys (fst st) = keys (fst st') ->
             keys (fst (fold_left (applyTransformation e) trs st))
             = keys (fst (fold_left (applyTransformation e') trs st'))).
  { induction trs as [|[t f] trs IH]; intros [out c] [out' c'] H; [exact H|].
    cbn [fold_left]. apply IH. cbn [fst] in H. unfold applyTransformation.
    destruct (truthy (get out t)) eqn:T, (truthy (get out' t)) eqn:T';
      cbn [negb fst].
    - exact H.
    - apply truthy_keys in T. rewrite H in T.
      now rewrite (keys_set_present out' t _ T).
    - apply truthy_keys in T'. rewrite <- H in T'.
      now rewrite (keys_set_present out t _ T').
    - now apply keys_set. }
  apply H2. cbn [fst]. now apply H1.
Qed.

Lemma default_adp_keys employee :
  keys (transformToADP (fun _ => None) employee) = adpColumns.
Proof.
  unfold transformToADP, getProviderMapping.
  rewrite (transformWith_keys adpMapping employee []). vm_compute. reflexivity.
Qed.

Lemma default_quickBooks_keys employee :
  keys (transformToQuickBooks (fun _ => None) employee) = quickBooksColumns.
Proof.
  unfold transformToQuickBooks, getProviderMapping.
  rewrite (transformWith_keys quickBooksMapping employee []).
  vm_compute. reflexivity.
Qed.

(** X19.  With the default mappings the transformed records have the
    same columns whatever the employee holds: the 41 keys of
    [ADPRecord] and the 28 keys of [QuickBooksRecord], each once, the
    mapped columns first and the computed ones after them. *)
Theorem default_mappings_fill_all_columns (employee : Record_) :
  keys (transformToADP (fun _ => None) employee) = adpColumns
  /\ keys (transformToQuickBooks (fun _ => None) employee) = quickBooksColumns
  /\ List.length adpColumns = 41%nat
  /\ List.length quickBooksColumns = 28%nat
  /\ NoDup adpColumns
  /\ NoDup quickBooksColumns.
Proof.
  split; [apply default_adp_keys|]. split; [apply default_quickBooks_keys|].
  split; [reflexivity|]. split; [reflexivity|]. split.
  - unfold adpColumns.
    repeat (constructor; [cbn; intuition discriminate|]). constructor.
  - unfold quickBooksColumns.
    repeat (constructor; [cbn; intuition discriminate|]). constructor.
Qed.

(** What a transformed record holds under a key. *)
Lemma transformWith_get mapping employee t :
  NoDup (keys (transformations mapping)) ->
  get (transformWith mapping employee) t
  = if truthy (option_map (mappedValue mapping employee)
                          (lastMappingTo (fieldMappings mapping) t None))
    then option_map (mappedValue mapping employee)
                    (lastMappingTo (fieldMappings mapping) t None)
    else match get (transformations mapping) t with
         | Some f => Some (f "" employee)
         | None => option_map (mappedValue mapping employee)
                              (lastMappingTo (fieldMappings mapping) t None)
         end.
Proof.
  intros Hnd. unfold transformWith, secondPass.
  destruct (secondPass_fold employee (transformations mapping)
              (firstPass mapping employee, []) t Hnd) as [H _].
  cbn [fst] in H. rewrite H, firstPass_get. reflexivity.
Qed.

Lemma adpMapping_NoDup : NoDup (keys (transformations adpMapping)).
Proof. cbn. repeat (constructor; [cbn; intuition discriminate|]). constructor. Qed.

Lemma quickBooksMapping_NoDup : NoDup (keys (transformations quickBooksMapping)).
Proof. cbn. repeat (constructor; [cbn; intuition discriminate|]). constructor. Qed.

Lemma keys_set_assign (o : Record_) k v : keys (set o k v) = assignKey (keys o) k.
Proof.
  unfold assignKey, includes.
  induction o as [|[k1 v1] o IH]; [reflexivity|].
  cbn [set keys map fst existsb]. unfold keys in IH.
  destruct (k1 =? k)%string eqn:E; cbn [orb map fst].
  - apply String.eqb_eq in E. now subst.
  - rewrite IH. now destruct (existsb _ (map fst o)).
Qed.

Lemma assignKey_present ks k : In k ks -> assignKey ks k = ks.
Proof.
  intros H. unfold assignKey.
  now replace (includes ks k) with true by (symmetry; now apply includes_In).
Qed.

(** X20.  The columns of a transformed record depend on the mapping
    alone, whatever mapping is stored and whatever the employee holds:
    they are the targets of the field mappings in the order of their
    first occurrence, followed by the keys of the transformations that
    are not among them. *)
Theorem transformed_columns_follow_mapping
    (mapping : ProviderMapping) (employee : Record_) :
  keys (transformWith mapping employee)
  = assignKeys [] (map targetField (fieldMappings mapping)
                     ++ keys (transformations mapping))%list.
Proof.
  unfold transformWith, secondPass, firstPass, assignKeys.
  rewrite fold_left_app.
  assert (H1 : forall fms (out : Record_),
             keys (fold_left (applyFieldMapping mapping employee) fms out)
             = fold_left assignKey (map targetField fms) (keys out)).
  { induction fms as [|fm fms IH]; intros out; [reflexivity|].
    cbn [fold_left map]. rewrite IH. f_equal. unfold applyFieldMapping.
    destruct (get (transformations mapping) (targetField fm));
      apply keys_set_assign. }
  assert (H2 : forall trs (st : Record_ * list string),
             keys (fst (fold_left (applyTransformation employee) trs st))
             = fold_left assignKey (keys trs) (keys (fst st))).
  { induction trs as [|[t f] trs IH]; intros [out c]; [reflexivity|].
    cbn [fold_left keys map fst]. rewrite IH. f_equal.
    unfold applyTransformation.
    destruct (truthy (get out t)) eqn:T; cbn [negb fst].
    - symmetry. apply assignKey_present. now apply truthy_keys.
    - apply keys_set_assign. }
  rewrite H2. cbn [fst]. now rewrite H1.
Qed.

(** X21.  For an employee without work address, the four fields being
    optional, the default QuickBooks mapping prints the word
    "undefined" four times as the work location, where the default ADP
    mapping leaves its four columns empty. *)
Theorem work_location_without_work_fields (employee : Record_) :
  get employee "work_street" = None ->
  get employee "work_city" = None ->
  get employee "work_state" = None ->
  get employee "work_zip" = None ->
  get (transformToQuickBooks (fun _ => None) employee) "Work Location"
  = Some "undefined, undefined, undefined undefined"
  /\ get (transformToADP (fun _ => None) employee) "Work_Addr1" = Some ""
  /\ get (transformToADP (fun _ => None) employee) "Work_City" = Some ""
  /\ get (transformToADP (fun _ => None) employee) "Work_State" = Some ""
  /\ get (transformToADP (fun _ => None) employee) "Work_Zip" = Some "".
Proof.
  intros H1 H2 H3 H4.
  unfold transformToQuickBooks, transformToADP, getProviderMapping.
  rewrite !(transformWith_get adpMapping) by apply adpMapping_NoDup.
  rewrite (transformWith_get quickBooksMapping) by apply quickBooksMapping_NoDup.
  cbn [lastMappingTo fold_left fieldMappings adpMapping quickBooksMapping
       targetField String.eqb Ascii.eqb Bool.eqb option_map transformations get].
  unfold mappedValue.
  cbn [transformations adpMapping get targetField sourceField
       String.eqb Ascii.eqb Bool.eqb truthy].
  unfold addressLine. cbn [String.append]. rewrite H1, H2, H3, H4.
  cbn [orElse truthy show String.eqb negb].
  repeat split.
Qed.

(** An employee of the head office. *)
Lemma work_location_without_work_fields_witness :
  get (transformToQuickBooks (fun _ => None) (employeeBornOn "1990-05-15"))
      "Work Location"
  = Some "undefined, undefined, undefined undefined"
  /\ get (transformToADP (fun _ => None) (employeeBornOn "1990-05-15")) "Work_Addr1"
     = Some ""
  /\ get (transformToADP (fun _ => None) (employeeBornOn "1990-05-15")) "Work_City"
     = Some ""
  /\ get (transformToADP (fun _ => None) (employeeBornOn "1990-05-15")) "Work_State"
     = Some ""
  /\ get (transformToADP (fun _ => None) (employeeBornOn "1990-05-15")) "Work_Zip"
     = Some "".
Proof.
  apply (work_location_without_work_fields (employeeBornOn "1990-05-15"));
    reflexivity.
Defined.

Lemma isNaN_true x : isNaN x = true -> x = S754_nan.
Proof. now destruct x. Qed.

Lemma mul_NaN x : mul x S754_nan = S754_nan.
Proof. now destruct x. Qed.

(** X22.  A retirement contribution percent that does not begin with a
    number, which no validator checks, is printed by the default
    mappings as the amount "NaN": in the column [Deduct_Amt_2] of ADP
    and inside the retirement deduction of QuickBooks. *)
Theorem retirement_amount_of_non_numeric_percent (employee : Record_) :
  hasRetirement employee = true ->
  isNaN (parseFloat (show (get employee "retirement_contribution_percent"))) = true ->
  get (transformToADP (fun _ => None) employee) "Deduct_Amt_2" = Some "NaN"
  /\ get (transformToQuickBooks (fun _ => None) employee) "Retirement Deduction"
     = Some (show (get employee "retirement_plan_type") ++ " - "
             ++ show (get employee "retirement_contribution_percent")
             ++ "% ($NaN)").
Proof.
  intros Hr Hn.
  assert (Ha : retirementAmount employee = "NaN").
  { unfold retirementAmount. rewrite (isNaN_true _ Hn).
    change (div S754_nan (ofInt 100)) with S754_nan. now rewrite mul_NaN. }
  unfold transformToQuickBooks, transformToADP, getProviderMapping.
  rewrite (transformWith_get adpMapping) by apply adpMapping_NoDup.
  rewrite (transformWith_get quickBooksMapping) by apply quickBooksMapping_NoDup.
  cbn [lastMappingTo fold_left fieldMappings adpMapping quickBooksMapping
       targetField String.eqb Ascii.eqb Bool.eqb option_map transformations get
       truthy].
  rewrite Hr, Ha. split; reflexivity.
Qed.

(** A contribution given in words. *)
Lemma retirement_amount_of_non_numeric_percent_witness :
  let employee :=
    [ ("annual_salary", "120000"); ("pay_frequency", "Monthly");
      ("retirement_plan_type", "401k");
      ("retirement_contribution_percent", "five") ] in
  get (transformToADP (fun _ => None) employee) "Deduct_Amt_2" = Some "NaN"
  /\ get (transformToQuickBooks (fun _ => None) employee) "Retirement Deduction"
     = Some "401k - five% ($NaN)".
Proof.
  apply (retirement_amount_of_non_numeric_percent
           [ ("annual_salary", "120000"); ("pay_frequency", "Monthly");
             ("retirement_plan_type", "401k");
             ("retirement_contribution_percent", "five") ]);
    vm_compute; reflexivity.
Defined.

(** ** The stored mappings *)

(** X23.  Saving a mapping stores its field mappings and none of its
    transformations, which are functions and are not written: from then
    on the transformer copies, for that provider, each mapped source
    field to its target, an absent or empty field as the empty string,
    and computes nothing; the mapping of the other provider is as it
    was.  When the store refuses the write nothing is saved. *)
Theorem saved_mapping_has_no_transformation
    (p : Provider) (mapping : ProviderMapping) (stored : MappingStore)
    (employee : Record_) :
  match saveMapping true p mapping stored with
  | Some stored' =>
      transformations (getMapping stored' p) = []
      /\ fieldMappings (getMapping stored' p) = fieldMappings mapping
      /\ (forall t,
            get (transformWith (getProviderMapping stored' p) employee) t
            = option_map (fun fm => orElse (get employee (sourceField fm)) "")
                         (lastMappingTo (fieldMappings mapping) t None))
      /\ (forall q, q <> p ->
            getProviderMapping stored' q = getProviderMapping stored q)
  | None => False
  end
  /\ saveMapping false p mapping stored = None.
Proof.
  split; [|reflexivity].
  unfold saveMapping, getMapping, getProviderMapping.
  assert (Hp : Provider_eqb p p = true) by now destruct p.
  rewrite Hp. cbn [throughJSON transformations fieldMappings].
  split; [reflexivity|]. split; [reflexivity|]. split.
  - intros t.
    rewrite transformWith_get by (cbn; constructor).
    cbn [transformations fieldMappings get]. unfold mappedValue.
    cbn [transformations get].
    now destruct (truthy _).
  - intros q Hq.
    assert (Hqp : Provider_eqb q p = false) by (destruct q, p; cbn; congruence).
    now rewrite Hqp.
Qed.

(** X24.  Resetting a mapping to the default does not bring the
    default behaviour back: [resetMapping] returns the default mapping
    but stores it through [saveMapping], so that the records transformed
    afterwards have the mapped columns only.  For ADP the pay rate and
    the eight deduction columns are missing and the filing status is
    copied as it is; for QuickBooks the ten computed columns are
    missing, the full name and the two addresses among them.  Without a
    stored mapping the pay rate is there. *)
Theorem reset_mapping_drops_computed_columns
    (stored : MappingStore) (employee : Record_) :
  match resetMapping true ADP stored, resetMapping true QuickBooks stored with
  | Some (adp, storedA), Some (qb, storedQ) =>
      adp = adpMapping
      /\ qb = quickBooksMapping
      /\ keys (transformToADP storedA employee) = firstn 32 adpColumns
      /\ get (transformToADP storedA employee) "PayRate" = None
      /\ get (transformToADP storedA employee) "Fed_W4_Status"
         = Some (orElse (get employee "fed_status") "")
      /\ keys (transformToQuickBooks storedQ employee) = firstn 18 quickBooksColumns
      /\ get (transformToQuickBooks storedQ employee) "Full Name" = None
      /\ get (transformToADP (fun _ => None) employee) "PayRate"
         = Some (payRate "" employee)
  | _, _ => False
  end.
Proof.
  unfold resetMapping, saveMapping.
  unfold transformToADP, transformToQuickBooks, getProviderMapping.
  cbn [Provider_eqb].
  split; [reflexivity|]. split; [reflexivity|].
  split.
  { rewrite (transformWith_keys _ employee []). vm_compute. reflexivity. }
  split.
  { rewrite transformWith_get by (cbn; constructor). reflexivity. }
  split.
  { rewrite transformWith_get by (cbn; constructor).
    cbn [lastMappingTo fold_left fieldMappings adpMapping throughJSON
         targetField String.eqb Ascii.eqb Bool.eqb option_map transformations get].
    unfold mappedValue. cbn [transformations get sourceField].
    now destruct (truthy _). }
  split.
  { rewrite (transformWith_keys _ employee []). vm_compute. reflexivity. }
  split.
  { rewrite transformWith_get by (cbn; constructor). reflexivity. }
  rewrite (transformWith_get adpMapping) by apply adpMapping_NoDup.
  reflexivity.
Qed.

(** ** The writer of CSV text *)

Lemma string_app_inv (a b r1 r2 : string) :
  String.length a = String.length b -> a ++ r1 = b ++ r2 -> a = b /\ r1 = r2.
Proof.
  revert b. induction a as [|c a IH]; intros [|d b] Hl H; try discriminate.
  - now split.
  - cbn in Hl, H. injection Hl as Hl. injection H as -> H.
    destruct (IH b Hl H) as [-> ->]. now split.
Qed.

Lemma plainLength_cell v rest :
  includesChar "," v = false -> endsCell rest ->
  plainLength (v ++ rest) = String.length v.
Proof.
  intros Hv Hr. induction v as [|c v IH].
  - destruct Hr as [->|[r ->]]; reflexivity.
  - cbn [includesChar] in Hv. apply orb_false_elim in Hv. destruct Hv as [Hc Hv].
    cbn [String.append plainLength String.length].
    rewrite Ascii.eqb_sym, Hc. now rewrite IH.
Qed.

Lemma quotedLength_cell v rest :
  endsCell rest ->
  quotedLength (doubleQuotes v ++ dquote ++ rest)
  = S (String.length (doubleQuotes v)).
Proof.
  intros Hr. induction v as [|c v IH].
  - destruct Hr as [->|[r ->]]; reflexivity.
  - cbn [doubleQuotes]. destruct (Ascii.eqb c (ascii_of_N 34)) eqn:E.
    + cbn [String.append quotedLength String.length]. rewrite E.
      now rewrite IH.
    + cbn [String.append quotedLength String.length]. rewrite E.
      now rewrite IH.
Qed.

Lemma firstCellLength_cell v rest :
  endsCell rest ->
  firstCellLength (escapeCSVValue (Some v) ++ rest)
  = String.length (escapeCSVValue (Some v)).
Proof.
  intros Hr. unfold escapeCSVValue. destruct (needsQuotes v) eqn:E.
  - unfold dquote at 1 3, chr. cbn [String.append firstCellLength String.length].
    rewrite Ascii.eqb_refl, string_app_assoc.
    rewrite (quotedLength_cell v rest Hr), string_length_app.
    cbn [dquote chr String.length]. now rewrite Nat.add_1_r.
  - unfold needsQuotes in E. apply orb_false_elim in E. destruct E as [E _].
    apply orb_false_elim in E. destruct E as [Ec Eq].
    destruct v as [|c v].
    + destruct Hr as [->|[r ->]]; reflexivity.
    + cbn [String.append firstCellLength].
      cbn [includesChar] in Eq. apply orb_false_elim in Eq.
      destruct Eq as [Eq _]. rewrite Ascii.eqb_sym, Eq.
      change (String c (v ++ rest)) with (String c v ++ rest).
      now apply plainLength_cell.
Qed.

Lemma doubleQuotes_inj a : forall b, doubleQuotes a = doubleQuotes b -> a = b.
Proof.
  induction a as [|c a IH]; intros [|d b] H; cbn [doubleQuotes] in H.
  - reflexivity.
  - destruct (Ascii.eqb d _); discriminate.
  - destruct (Ascii.eqb c _); discriminate.
  - destruct (Ascii.eqb c (ascii_of_N 34)) eqn:Ec,
             (Ascii.eqb d (ascii_of_N 34)) eqn:Ed.
    + injection H as -> H. f_equal. now apply IH.
    + injection H as -> H. destruct b as [|e b]; cbn [doubleQuotes] in H.
      * discriminate.
      * rewrite Ed in Ec. discriminate.
    + injection H as -> H. rewrite Ec in Ed. discriminate.
    + injection H as -> H. f_equal. now apply IH.
Qed.

Lemma escapeCSVValue_inj a b :
  escapeCSVValue (Some a) = escapeCSVValue (Some b) -> a = b.
Proof.
  unfold escapeCSVValue.
  assert (Hq : forall v x, needsQuotes v = false -> v <> dquote ++ x).
  { intros v x E ->. unfold needsQuotes in E.
    apply orb_false_elim in E. destruct E as [E _].
    apply orb_false_elim in E. destruct E as [_ E].
    cbn in E. discriminate. }
  destruct (needsQuotes a) eqn:Ea, (needsQuotes b) eqn:Eb; intros H.
  - unfold dquote, chr in H. cbn [String.append] in H. injection H as H.
    apply doubleQuotes_inj.
    assert (Hl : String.length (doubleQuotes a) = String.length (doubleQuotes b)).
    { apply (f_equal String.length) in H. rewrite !string_length_app in H.
      cbn in H. lia. }
    now destruct (string_app_inv _ _ _ _ Hl H).
  - symmetry in H. now apply Hq in H.
  - now apply Hq in H.
  - exact H.
Qed.

Lemma csvLine_cons v vs :
  csvLine (map Some (v :: vs))
  = escapeCSVValue (Some v)
      ++ match vs with [] => "" | _ => "," ++ csvLine (map Some vs) end.
Proof.
  unfold csvLine, join.
  destruct vs; cbn [map String.concat]; [now rewrite string_app_nil_r|reflexivity].
Qed.

(** X25.  A line of the CSV text tells its cells apart: two lists of
    values of the same length that [arrayToCSV] prints as the same line
    are the same list, and so for a single cell.  Commas, quotes and
    line feeds inside a value cannot make one record read as
    another. *)
Theorem csv_line_determines_cells (values values' : list string) :
  List.length values = List.length values' ->
  csvLine (map Some values) = csvLine (map Some values') ->
  values = values'.
Proof.
  revert values'. induction values as [|v vs IH]; intros [|v' vs'] Hl H;
    try discriminate.
  - reflexivity.
  - injection Hl as Hl. rewrite !csvLine_cons in H.
    assert (He : endsCell match vs with
                          | [] => ""
                          | _ => "," ++ csvLine (map Some vs)
                          end)
      by (destruct vs; [now left|right; eexists; reflexivity]).
    assert (He' : endsCell match vs' with
                           | [] => ""
                           | _ => "," ++ csvLine (map Some vs')
                           end)
      by (destruct vs'; [now left|right; eexists; reflexivity]).
    pose proof (firstCellLength_cell v _ He) as L.
    pose proof (firstCellLength_cell v' _ He') as L'.
    rewrite H in L. rewrite L' in L.
    destruct (string_app_inv _ _ _ _ (eq_sym L) H) as [Hv Hrest].
    apply escapeCSVValue_inj in Hv. subst v'. f_equal.
    destruct vs as [|x xs], vs' as [|x' xs']; try discriminate.
    + reflexivity.
    + apply IH; [exact Hl|]. cbn [String.append] in Hrest. now injection Hrest.
Qed.

(** Two records that differ in a comma and a quote. *)
Lemma csv_line_determines_cells_witness :
  ["a,b"; "c"] = ["a,b"; "c"].
Proof.
  apply (csv_line_determines_cells ["a,b"; "c"] ["a,b"; "c"]); reflexivity.
Defined.

Lemma arrayToCSV_lines (first : obj string) rest headers :
  arrayToCSV (first :: rest) (Some headers)
  = join (chr (ascii_of_N 10))
         (csvLine (map Some headers)
          :: map (fun row => csvLine (map (get row) headers)) (first :: rest)).
Proof. reflexivity. Qed.

(** X26.  The files that the dashboard exports for the two providers,
    with the keys of the first record as headers: the first line names
    the columns of the provider, none of which needs quotes, and every
    record fills every column, so that no cell is blank for want of its
    key. *)
Theorem provider_export_header (employee : Record_) (others : list Record_) :
  let adp := map (transformToADP (fun _ => None)) (employee :: others) in
  let qb := map (transformToQuickBooks (fun _ => None)) (employee :: others) in
  arrayToCSV adp (Some (keys (hd [] adp)))
  = join (chr (ascii_of_N 10))
         (join "," adpColumns
          :: map (fun row => csvLine (map (get row) adpColumns)) adp)
  /\ arrayToCSV qb (Some (keys (hd [] qb)))
     = join (chr (ascii_of_N 10))
            (join "," quickBooksColumns
             :: map (fun row => csvLine (map (get row) quickBooksColumns)) qb)
  /\ Forall (fun row => Forall (fun c => get row c <> None) adpColumns) adp
  /\ Forall (fun row => Forall (fun c => get row c <> None) quickBooksColumns) qb.
Proof.
  cbn zeta. cbn [map hd].
  rewrite !arrayToCSV_lines, default_adp_keys, default_quickBooks_keys.
  split; [reflexivity|]. split; [reflexivity|]. split.
  - apply Forall_forall. intros row Hrow. apply Forall_forall. intros c Hc.
    change (transformToADP (fun _ => None) employee
            :: map (transformToADP (fun _ => None)) others)
      with (map (transformToADP (fun _ => None)) (employee :: others)) in Hrow.
    apply in_map_iff in Hrow. destruct Hrow as (e & <- & _).
    apply get_keys. now rewrite default_adp_keys.
  - apply Forall_forall. intros row Hrow. apply Forall_forall. intros c Hc.
    change (transformToQuickBooks (fun _ => None) employee
            :: map (transformToQuickBooks (fun _ => None)) others)
      with (map (transformToQuickBooks (fun _ => None)) (employee :: others))
      in Hrow.
    apply in_map_iff in Hrow. destruct Hrow as (e & <- & _).
    apply get_keys. now rewrite default_quickBooks_keys.
Qed.
